(** * cane: the time-indexed retrieval-and-cache subsystem of the wind API

    A shallow embedding of [GribService] (gribService.ts), of the helper
    module (helper.ts) and of the [/nearest] resolver of the route layer
    (routes.ts), with the properties the specification states about them.

    Conventions.
    - A JavaScript [Date] is its time value: an integer number of
      milliseconds since 1970-01-01T00:00:00Z, here a [Z].  The finite range
      of [Date] (+-8.64e15 ms) and the [Invalid Date] value are not modelled,
      except where a parser returns [None].
    - Calendar fields follow ECMAScript's proleptic Gregorian calendar.
      The host's local time zone is a fixed offset [tz], in minutes east
      of UTC ([Date.prototype.getTimezoneOffset] is [- tz]).
    - Quotients of integers that the source computes in floating point and
      then compares or floors are computed on [Z]; in the ranges reached
      here the two agree.
    - The service runs in a [World]: the clock, the two cache areas, and a
      log of what was done.  What the code cannot decide (the provider's
      answers, how long things take, the converter's exit status) is an
      [Env].  A function that returns a promise is a function on worlds that
      returns how the promise settles; it takes the number of steps it may
      make, and [OutOfFuel] when they do not suffice.  The termination
      lemmas say how many suffice.
    - Work that the source does not await (a conversion next to
      [res.sendFile], the tasks of [checkDataFreshness]) is run to its end
      before the next step of the caller. *)

From Stdlib Require Import ZArith List String Ascii Bool Lia.
Import ListNotations.
Open Scope Z_scope.

(** ** ECMAScript time values *)

Module JSDate.

Definition msPerMinute : Z := 60000.
Definition msPerHour : Z := 3600000.
Definition msPerDay : Z := 86400000.

(** [Day(t)] and [HourFromTime(t)] of ECMA-262. *)
Definition Day (t : Z) : Z := t / msPerDay.
Definition TimeWithinDay (t : Z) : Z := t mod msPerDay.
Definition HourFromTime (t : Z) : Z := (t / msPerHour) mod 24.

(** Year-of-era, month and day of month of a day-of-era (a day number inside
    one 400-year cycle that starts on a 1st of March). *)
Definition doe_fields (doe : Z) : Z * Z * Z :=
  let yoe := (doe - doe / 1460 + doe / 36524 - doe / 146096) / 365 in
  let doy := doe - (365 * yoe + yoe / 4 - yoe / 100) in
  let mp := (5 * doy + 2) / 153 in
  let d := doy - (153 * mp + 2) / 5 + 1 in
  let m := if mp <? 10 then mp + 3 else mp - 9 in
  (yoe, m, d).

(** Civil date (year, month 1..12, day 1..31) of a day number. *)
Definition civil_from_days (z : Z) : Z * Z * Z :=
  let z' := z + 719468 in
  let era := z' / 146097 in
  let doe := z' mod 146097 in
  let '(yoe, m, d) := doe_fields doe in
  (yoe + era * 400 + (if m <=? 2 then 1 else 0), m, d).

(** Day of era of (year of era, month, day). *)
Definition doe_of (yoe m d : Z) : Z :=
  let doy := (153 * (if m >? 2 then m - 3 else m + 9) + 2) / 5 + d - 1 in
  yoe * 365 + yoe / 4 - yoe / 100 + doy.

(** Day number of a civil date. *)
Definition days_from_civil (y m d : Z) : Z :=
  let y' := if m <=? 2 then y - 1 else y in
  let era := y' / 400 in
  let yoe := y' mod 400 in
  era * 146097 + doe_of yoe m d - 719468.

Definition isLeapYear (y : Z) : bool :=
  (y mod 400 =? 0) || ((y mod 4 =? 0) && negb (y mod 100 =? 0)).

Definition daysInMonth (y m : Z) : Z :=
  if m =? 2 then (if isLeapYear y then 29 else 28)
  else if (m =? 4) || (m =? 6) || (m =? 9) || (m =? 11) then 30 else 31.

(** [MakeDay(year, month, date)] with a 0-based month that may overflow, and
    [Date.UTC(year, month, date, hours)]. *)
Definition MakeDay (year month date : Z) : Z :=
  let ym := year + month / 12 in
  let mn := month mod 12 in
  days_from_civil ym (mn + 1) 1 + date - 1.

Definition DateUTC (year month date hours : Z) : Z :=
  MakeDay year month date * msPerDay + hours * msPerHour.

(** UTC getters. *)
Definition getUTCFullYear (t : Z) : Z := fst (fst (civil_from_days (Day t))).
Definition getUTCMonth (t : Z) : Z := snd (fst (civil_from_days (Day t))) - 1.
Definition getUTCDate (t : Z) : Z := snd (civil_from_days (Day t)).
Definition getUTCHours (t : Z) : Z := HourFromTime t.

(** Local getters of a host whose zone is [tz] minutes east of UTC, the
    same offset all year: a zone with daylight saving has two offsets and is
    outside this model. *)
Definition LocalTime (tz t : Z) : Z := t + tz * msPerMinute.
Definition getFullYear (tz t : Z) : Z := getUTCFullYear (LocalTime tz t).
Definition getMonth (tz t : Z) : Z := getUTCMonth (LocalTime tz t).
Definition getDate (tz t : Z) : Z := getUTCDate (LocalTime tz t).
Definition getHours (tz t : Z) : Z := getUTCHours (LocalTime tz t).

(** [new Date(year, month, date, hours)]: the fields are local time (of the
    one offset [tz]), and a year from 0 to 99 stands for 1900 + year. *)
Definition newDate (tz year month date hours : Z) : Z :=
  let yr := if (0 <=? year) && (year <=? 99) then 1900 + year else year in
  DateUTC yr month date hours - tz * msPerMinute.

(** date-fns [subHours]. *)
Definition subHours (t amount : Z) : Z := t - amount * msPerHour.

(** date-fns [differenceInHours]: whole hours, rounded towards zero. *)
Definition differenceInHours (later earlier : Z) : Z :=
  Z.quot (later - earlier) msPerHour.

End JSDate.

(** ** JavaScript strings *)

Module JSString.

Local Open Scope string_scope.

Definition digitChar (d : Z) : ascii := ascii_of_nat (48 + Z.to_nat d).

Fixpoint digitsOf (fuel : nat) (n : Z) (acc : string) : string :=
  match fuel with
  | O => acc
  | S k =>
      let acc' := String (digitChar (n mod 10)) acc in
      if (n <? 10)%Z then acc' else digitsOf k (n / 10) acc'
  end.

(** [Number.prototype.toString] on an integer. *)
Definition toString (n : Z) : string :=
  if (n <? 0)%Z then String "-" (digitsOf (S (Z.to_nat (Z.log2 (- n)))) (- n) "")
  else digitsOf (S (Z.to_nat (Z.log2 n))) n "".

Fixpoint repeatChar (n : nat) (c : ascii) : string :=
  match n with
  | O => ""
  | S k => String c (repeatChar k c)
  end.

(** [String.prototype.padStart] with a one-character filler. *)
Definition padStart (len : nat) (c : ascii) (s : string) : string :=
  repeatChar (len - String.length s) c ++ s.

(** [String.prototype.slice] with [0 <= a <= b]. *)
Definition slice (a b : nat) (s : string) : string := substring a (b - a) s.

Fixpoint startsWith (p s : string) : bool :=
  match p, s with
  | EmptyString, _ => true
  | String a p', String b s' => Ascii.eqb a b && startsWith p' s'
  | String _ _, EmptyString => false
  end.

Fixpoint endsWith (suffix s : string) : bool :=
  match s with
  | EmptyString => String.eqb suffix ""
  | String _ s' => String.eqb suffix s || endsWith suffix s'
  end.

Fixpoint dropChars (n : nat) (s : string) : string :=
  match n, s with
  | O, _ => s
  | S k, String _ s' => dropChars k s'
  | S _, EmptyString => EmptyString
  end.

(** [s.replace(p, "")] with a string pattern: the first occurrence of [p]
    is removed, the rest is kept. *)
Fixpoint removeFirst (p s : string) : string :=
  if startsWith p s then dropChars (String.length p) s
  else match s with
       | EmptyString => EmptyString
       | String c s' => String c (removeFirst p s')
       end.

(** [Array.prototype.includes] on an array of strings. *)
Definition includes (l : list string) (x : string) : bool :=
  existsb (String.eqb x) l.

Definition digitVal (c : ascii) : option Z :=
  let n := Z.of_nat (nat_of_ascii c) in
  if ((48 <=? n) && (n <=? 57))%Z then Some (n - 48) else None.

Fixpoint parseDigitsAcc (s : string) (acc : Z) : option Z :=
  match s with
  | EmptyString => Some acc
  | String c r =>
      match digitVal c with
      | Some d => parseDigitsAcc r (10 * acc + d)
      | None => None
      end
  end.

(** A non-empty run of decimal digits, read as a number. *)
Definition parseDigits (s : string) : option Z :=
  match s with
  | EmptyString => None
  | _ => parseDigitsAcc s 0
  end.

End JSString.

(** ** TimeKey: canonical snapshot keys on the 6-hour grid *)

Module TimeKey.
Import JSDate JSString.
Local Open Scope string_scope.

(** date-fns [addLeadingZeros]. *)
Definition addLeadingZeros (n : Z) (len : nat) : string :=
  (if (n <? 0)%Z then "-" else "") ++ padStart len "0" (toString (Z.abs n)).

(** date-fns [format(date, "yyyyMMdd")]: the calendar fields are those of
    the host's local time; [yyyy] prints the year of the era. *)
Definition format_yyyyMMdd (tz date : Z) : string :=
  let signedYear := getFullYear tz date in
  let year := if (signedYear >? 0)%Z then signedYear else 1 - signedYear in
  addLeadingZeros year 4
  ++ addLeadingZeros (getMonth tz date + 1) 2
  ++ addLeadingZeros (getDate tz date) 2.

(** The number [roundedHours] of [roundHours], for an interval that is not
    zero. *)
Definition roundedHours (date interval : Z) : Z :=
  getUTCHours date / interval * interval.

(** [roundHours].  With [interval = 0] the number is [NaN], which prints as
    such; the service only ever calls it with [interval = 6]. *)
Definition roundHours (date interval : Z) : string :=
  if (interval =? 0)%Z then "NaN"
  else padStart 2 "0" (toString (roundedHours date interval)).

Definition formatDateStamp (tz date : Z) : string :=
  format_yyyyMMdd tz date ++ roundHours date 6.

(** [getLatestAvailableTimestamp], with [now] the value of [new Date()]. *)
Definition getLatestAvailableTimestamp (tz now : Z) : Z :=
  let roundedNow :=
    newDate tz (getFullYear tz now) (getMonth tz now) (getDate tz now)
      (getHours tz now / 6 * 6) in
  subHours roundedNow 6.

(** date-fns [validateDate] and [validateTime]; [month] is 0-based. *)
Definition validateDate (year month date : Z) : bool :=
  ((0 <=? month) && (month <=? 11) && (1 <=? date)
   && (date <=? daysInMonth year (month + 1)))%Z.

Definition validateTime (hours minutes seconds : Z) : bool :=
  (if hours =? 24 then (minutes =? 0) && (seconds =? 0)
   else (0 <=? seconds) && (seconds <? 60) && (0 <=? minutes)
        && (minutes <? 60) && (0 <=? hours) && (hours <? 25))%Z.

Definition charAt (n : nat) (s : string) : option ascii := String.get n s.

Definition isChar (n : nat) (c : ascii) (s : string) : bool :=
  match charAt n s with
  | Some c' => Ascii.eqb c c'
  | None => false
  end.

(** date-fns [parseISO] on the complete extended form
    [YYYY-MM-DDTHH:mm:ssZ]; every other shape is taken as [Invalid Date]. *)
Definition parseISO (s : string) : option Z :=
  if Nat.eqb (String.length s) 20
     && isChar 4 "-" s && isChar 7 "-" s && isChar 10 "T" s
     && isChar 13 ":" s && isChar 16 ":" s && isChar 19 "Z" s
  then
    match parseDigits (substring 0 4 s), parseDigits (substring 5 2 s),
          parseDigits (substring 8 2 s), parseDigits (substring 11 2 s),
          parseDigits (substring 14 2 s), parseDigits (substring 17 2 s) with
    | Some y, Some mo, Some d, Some h, Some mi, Some se =>
        if validateDate y (mo - 1) d && validateTime h mi se
        then Some (DateUTC y (mo - 1) d h + mi * msPerMinute + se * 1000)%Z
        else None
    | _, _, _, _, _, _ => None
    end
  else None.

(** The date [checkDataFreshness] derives from a key. *)
Definition stampToDate (stamp : string) : option Z :=
  parseISO (slice 0 4 stamp ++ "-" ++ slice 4 6 stamp ++ "-"
            ++ slice 6 8 stamp ++ "T" ++ slice 8 10 stamp ++ ":00:00Z").

(** Following the specification's words (4.1): [truncate] floors the hour
    to the largest multiple of [intervalHours] below it, zeroes minutes and
    seconds and preserves the date, in UTC. *)
Definition truncate (t intervalHours : Z) : Z :=
  DateUTC (getUTCFullYear t) (getUTCMonth t) (getUTCDate t)
    (getUTCHours t / intervalHours * intervalHours).

(** Following the specification's words (4.1): the hour component of a key
    are its last two characters. *)
Definition hourComponent (key : string) : option Z :=
  parseDigits (slice 8 10 key).

End TimeKey.

(** ** The cache areas on disk *)

Module CacheFS.
Import JSString.
Local Open Scope string_scope.

(** The two cache directories, as [readdirSync] lists them ([None]: the
    directory does not exist), and the modification time of each structured
    artifact. *)
Record FS := mkFS {
  jsonData : option (list string);
  gribData : option (list string);
  mtime : string -> Z
}.

Definition dirHas (dir : option (list string)) (name : string) : bool :=
  match dir with
  | Some l => includes l name
  | None => false
  end.

(** [checkPath("json-data/<name>", false)] and [fs.existsSync("grib-data/<name>")]. *)
Definition existsJson (fs : FS) (name : string) : bool := dirHas (jsonData fs) name.
Definition existsGrib (fs : FS) (name : string) : bool := dirHas (gribData fs) name.

Definition mkdir (dir : option (list string)) : option (list string) :=
  match dir with
  | Some l => Some l
  | None => Some []
  end.

(** [checkPath("json-data", true)] and [checkPath("grib-data", true)]. *)
Definition mkdirJson (fs : FS) : FS :=
  mkFS (mkdir (jsonData fs)) (gribData fs) (mtime fs).
Definition mkdirGrib (fs : FS) : FS :=
  mkFS (jsonData fs) (mkdir (gribData fs)) (mtime fs).

Definition addFile (name : string) (dir : option (list string)) : option (list string) :=
  match dir with
  | Some l => Some (if includes l name then l else (l ++ [name])%list)
  | None => None
  end.

Definition removeFile (name : string) (dir : option (list string)) : option (list string) :=
  match dir with
  | Some l => Some (filter (fun f => negb (String.eqb f name)) l)
  | None => None
  end.

(** Writing [json-data/<name>] at time [now] (by the converter). *)
Definition writeJson (name : string) (now : Z) (fs : FS) : FS :=
  mkFS (addFile name (jsonData fs)) (gribData fs)
       (fun f => if String.eqb f name then now else mtime fs f).

(** Writing [grib-data/<name>] (by the download stream). *)
Definition writeGrib (name : string) (fs : FS) : FS :=
  mkFS (jsonData fs) (addFile name (gribData fs)) (mtime fs).

(** [fs.unlinkSync] in either area. *)
Definition unlinkJson (name : string) (fs : FS) : FS :=
  mkFS (removeFile name (jsonData fs)) (gribData fs) (mtime fs).
Definition unlinkGrib (name : string) (fs : FS) : FS :=
  mkFS (jsonData fs) (removeFile name (gribData fs)) (mtime fs).

(** [cleanupFiles]: both listings are taken first, then each structured
    artifact without its raw file and each raw file without its structured
    artifact is unlinked.  [None] stands for the exception of [readdirSync]
    on a missing directory. *)
Definition cleanupFiles (fs : FS) : option FS :=
  match jsonData fs, gribData fs with
  | Some js, Some gs =>
      let jsonFiles := filter (endsWith ".json") js in
      let gribFiles := filter (endsWith ".f000") gs in
      let fs1 :=
        fold_left (fun fs' jsonFile =>
                     let stamp := removeFirst ".json" jsonFile in
                     let gribFile := stamp ++ ".f000" in
                     if negb (includes gribFiles gribFile)
                     then unlinkJson jsonFile fs' else fs')
                  jsonFiles fs in
      let fs2 :=
        fold_left (fun fs' gribFile =>
                     let stamp := removeFirst ".f000" gribFile in
                     let jsonFile := stamp ++ ".json" in
                     if negb (includes jsonFiles jsonFile)
                     then unlinkGrib gribFile fs' else fs')
                  gribFiles fs1 in
      Some fs2
  | _, _ => None
  end.

(** What [cleanupFiles] keeps of either listing. *)
Definition keepsJson (gs : list string) (jsonFile : string) : bool :=
  negb (endsWith ".json" jsonFile)
  || includes (filter (endsWith ".f000") gs) (removeFirst ".json" jsonFile ++ ".f000").
Definition keepsGrib (js : list string) (gribFile : string) : bool :=
  negb (endsWith ".f000" gribFile)
  || includes (filter (endsWith ".json") js) (removeFirst ".f000" gribFile ++ ".json").

(** A key as the service writes it: a run of decimal digits. *)
Definition isDigit (c : ascii) : bool :=
  match digitVal c with Some _ => true | None => false end.

Fixpoint isKey (s : string) : bool :=
  match s with
  | EmptyString => true
  | String c r => isDigit c && isKey r
  end.

(** The names of the artifacts of a key. *)
Definition jsonName (key : string) : string := key ++ ".json".
Definition gribName (key : string) : string := key ++ ".f000".

(** A structured (raw) artifact is a file [<key>.json] ([<key>.f000]). *)
Definition isJsonArtifact (name : string) : bool :=
  endsWith ".json" name && isKey (removeFirst ".json" name)
  && String.eqb name (jsonName (removeFirst ".json" name)).
Definition isGribArtifact (name : string) : bool :=
  endsWith ".f000" name && isKey (removeFirst ".f000" name)
  && String.eqb name (gribName (removeFirst ".f000" name)).

Definition allFiles (p : string -> bool) (dir : option (list string)) : bool :=
  match dir with
  | Some l => forallb p l
  | None => false
  end.

(** Both areas exist and hold artifacts only. *)
Definition artifactsOnly (fs : FS) : bool :=
  allFiles isJsonArtifact (jsonData fs) && allFiles isGribArtifact (gribData fs).

Definition listing (dir : option (list string)) : list string :=
  match dir with
  | Some l => l
  | None => []
  end.

End CacheFS.

(** ** The world the service runs in *)

Module Service.
Import JSDate JSString TimeKey CacheFS.
Local Open Scope string_scope.

Inductive NetResult :=
| Responded (statusCode : Z)
| TransportError.

(** What the code cannot decide: the host's zone, the provider's answer to
    the n-th request of a run (for a key), the time that request takes,
    whether the write stream of its body finishes (or emits [error]),
    whether the n-th run of the converter (on a key) exits with 0, and how
    long it takes. *)
Record Env := mkEnv {
  tz : Z;
  net : nat -> string -> NetResult;
  latency : nat -> Z;
  writeOk : nat -> bool;
  converter : nat -> string -> bool;
  convTime : nat -> Z
}.

(** What the service does, as it happens: a request leaves for a key (with
    the date the key comes from, the retry count and the time), a
    [setTimeout] is waited for, a raw artifact is written, the converter has
    run on a key, [sendNearestTo] is called, [res.sendFile] has answered.
    The log is not part of the program; the properties below read it. *)
Inductive Event :=
| EvRequest (stamp : string) (currentDate retryCount now : Z)
| EvTimeout (delay : Z)
| EvDownload (stamp : string)
| EvConvert (stamp : string) (ok : bool)
| EvNearest (targetDate : Z) (searchForwards : bool) (now : Z)
| EvSendFile (stamp : string) (ok : bool).

(** [clock] is the value of [new Date()]; [requests] and [conversions] count
    the requests and converter runs so far; [log] is chronological. *)
Record World := mkWorld {
  clock : Z;
  fs : FS;
  requests : nat;
  conversions : nat;
  log : list Event
}.

Definition setFS (f : FS) (w : World) : World :=
  mkWorld (clock w) f (requests w) (conversions w) (log w).
Definition elapse (ms : Z) (w : World) : World :=
  mkWorld (clock w + ms) (fs w) (requests w) (conversions w) (log w).
Definition emit (e : Event) (w : World) : World :=
  mkWorld (clock w) (fs w) (requests w) (conversions w) (log w ++ [e])%list.
Definition countRequest (w : World) : World :=
  mkWorld (clock w) (fs w) (S (requests w)) (conversions w) (log w).
Definition countConversion (w : World) : World :=
  mkWorld (clock w) (fs w) (requests w) (S (conversions w)) (log w).

Inductive Error :=
| WriteError
| ConversionError
| DownloadFailed (stamp : string)
| NoDataWithinSearchLimit
| InvalidTimeValue.

(** How a promise settles; [OutOfFuel] is the model running out of steps. *)
Inductive Outcome (A : Type) :=
| Resolved (a : A)
| Rejected (e : Error)
| OutOfFuel.
Arguments Resolved {A} a.
Arguments Rejected {A} e.
Arguments OutOfFuel {A}.

(** [GribDataResponse]; [None] is the source's [false]. *)
Record GribDataResponse := mkResponse {
  stamp : option string;
  targetDate : option Z;
  downloaded : bool
}.

Definition unavailable : GribDataResponse := mkResponse None None false.

(** Truthiness of [response.stamp]. *)
Definition truthy (s : option string) : bool :=
  match s with
  | Some x => negb (String.eqb x "")
  | None => false
  end.

Definition lookbackMs : Z := 10 * msPerDay.

Section WithEnv.
Variable env : Env.

(** The n-th request leaves for a key; its callback runs [latency] later. *)
Definition request (stamp_label : string) (currentDate retryCount : Z) (w : World) : World :=
  elapse (latency env (requests w))
    (countRequest (emit (EvRequest stamp_label currentDate retryCount (clock w)) w)).

(** [setTimeout(.., delay)]. *)
Definition setTimeout (delay : Z) (w : World) : World :=
  elapse delay (emit (EvTimeout delay) w).

(** [checkPath("grib-data", true)], then the body is piped to
    [grib-data/<stamp>.f000]. *)
Definition download (stamp_label : string) (w : World) : World :=
  setFS (writeGrib (stamp_label ++ ".f000") (mkdirGrib (fs w))) w.

(** [checkPath("grib-data", true)], then the write stream emits [error]:
    the directory is there, and no raw artifact is left in it. *)
Definition failedDownload (w : World) : World :=
  setFS (mkdirGrib (fs w)) w.

(** [runQuery] inside [getGribData].  The test
    [(now - currentDate) / (1000 * 60 * 60 * 24) > 10] is
    [now - currentDate > lookbackMs] on integers.  A date is a number of
    milliseconds: an [Invalid Date], on which [formatDateStamp] throws, is
    not a value of [currentDate] (see [taskDate] for the one caller that can
    make one). *)
Fixpoint runQuery (fuel : nat) (currentDate retryCount : Z) (w : World)
  : World * Outcome GribDataResponse :=
  match fuel with
  | O => (w, OutOfFuel)
  | S fuel' =>
      if (clock w - currentDate >? lookbackMs)%Z
      then (w, Resolved unavailable)
      else
        let stamp_label := formatDateStamp (tz env) currentDate in
        let w1 := request stamp_label currentDate retryCount w in
        let again (_ : unit) :=
          if (retryCount <? 3)%Z
          then
            let delay := (2 ^ retryCount * 1000)%Z in
            runQuery fuel' currentDate (retryCount + 1) (setTimeout delay w1)
          else runQuery fuel' (subHours currentDate 6) 0 w1 in
        match net env (requests w) stamp_label with
        | Responded statusCode =>
            if negb (statusCode =? 200)%Z then again tt
            else if negb (existsJson (fs w1) (stamp_label ++ ".json"))
            then
              if writeOk env (requests w)
              then (emit (EvDownload stamp_label) (download stamp_label w1),
                    Resolved (mkResponse (Some stamp_label) (Some currentDate) true))
              else (failedDownload w1, Rejected WriteError)
            else (w1, Resolved (mkResponse (Some stamp_label) (Some currentDate) false))
        | TransportError => again tt
        end
  end.

Definition getGribData (fuel : nat) (targetDate : Z) (w : World)
  : World * Outcome GribDataResponse :=
  let latestAvailable := getLatestAvailableTimestamp (tz env) (clock w) in
  let targetDate := if (targetDate >? latestAvailable)%Z then latestAvailable else targetDate in
  runQuery fuel targetDate 0 w.

(** [convertGribToJson]: re-download when the raw artifact is missing, run
    the converter, unlink the raw artifact on success, then try to harvest
    the previous key; whatever that harvest does is caught. *)
Fixpoint convertGribToJson (fuel : nat) (stamp0 : string) (targetDate0 : Z) (w : World)
  : World * Outcome unit :=
  match fuel with
  | O => (w, OutOfFuel)
  | S fuel' =>
      let w0 := setFS (mkdirJson (fs w)) w in
      let inputFile := stamp0 ++ ".f000" in
      let outputFile := stamp0 ++ ".json" in
      if negb (existsGrib (fs w0) inputFile)
      then
        match getGribData fuel' targetDate0 w0 with
        | (w1, Resolved response) =>
            if truthy (stamp response) && downloaded response
            then
              match stamp response, targetDate response with
              | Some s, Some d => convertGribToJson fuel' s d w1
              | _, _ => (w1, Rejected InvalidTimeValue)
              end
            else (w1, Rejected (DownloadFailed stamp0))
        | (w1, Rejected e) => (w1, Rejected e)
        | (w1, OutOfFuel) => (w1, OutOfFuel)
        end
      else
        let n := conversions w0 in
        let w1 := elapse (convTime env n) (countConversion w0) in
        if converter env n stamp0
        then
          let w2 := emit (EvConvert stamp0 true)
                      (setFS (unlinkGrib inputFile
                                (writeJson outputFile (clock w1) (fs w1))) w1) in
          let prevDate := subHours targetDate0 6 in
          let prevStamp := formatDateStamp (tz env) prevDate in
          if negb (existsJson (fs w2) (prevStamp ++ ".json"))
          then
            match getGribData fuel' prevDate w2 with
            | (w3, Resolved response) =>
                if truthy (stamp response) && downloaded response
                then
                  match stamp response, targetDate response with
                  | Some s, Some d =>
                      match convertGribToJson fuel' s d w3 with
                      | (w4, OutOfFuel) => (w4, OutOfFuel)
                      | (w4, _) => (w4, Resolved tt)
                      end
                  | _, _ => (w3, Resolved tt)
                  end
                else (w3, Resolved tt)
            | (w3, Rejected _) => (w3, Resolved tt)
            | (w3, OutOfFuel) => (w3, OutOfFuel)
            end
          else (w2, Resolved tt)
        else (emit (EvConvert stamp0 false) w1, Rejected ConversionError)
  end.

(** A background task started by [checkDataFreshness]: the key of a stale
    artifact and the date parsed from it ([None]: [Invalid Date]). *)
Record FreshnessTask := mkTask {
  taskStamp : string;
  taskDate : option Z
}.

Definition isStale (now maxAgeHours : Z) (f : FS) (jsonFile : string) : bool :=
  (differenceInHours now (mtime f jsonFile) >? maxAgeHours)%Z.

(** [checkDataFreshness]: the call returns nothing; what it leaves behind
    are the tasks it started, one per stale artifact, in listing order.
    [None] stands for the exception of [readdirSync]. *)
Definition checkDataFreshness (maxAgeHours : Z) (w : World) : option (list FreshnessTask) :=
  match jsonData (fs w) with
  | None => None
  | Some js =>
      let jsonFiles := filter (endsWith ".json") js in
      Some (flat_map
              (fun jsonFile =>
                 if isStale (clock w) maxAgeHours (fs w) jsonFile
                 then
                   let stamp := removeFirst ".json" jsonFile in
                   [mkTask stamp (stampToDate stamp)]
                 else [])
              jsonFiles)
  end.

(** What one task leaves: how the promise chain
    [getGribData(date).then(..).catch(..)] settles, and how the conversion
    settles that its [then] callback may start.  The callback neither
    returns nor awaits that conversion and nothing catches it: it goes on
    after the chain has resolved, and when it rejects, the rejection is
    handled by nobody. *)
Record TaskRun := mkTaskRun {
  chain : Outcome unit;
  detached : option (Outcome unit)
}.

(** One task, run on its own from a world (the tasks of one check are
    started together and may interleave; here no other task takes a step
    until this one and its conversion are done).  With [Invalid Date] the
    fetch rejects before any request, and the rejection is caught. *)
Definition runFreshnessTask (fuel : nat) (task : FreshnessTask) (w : World)
  : World * TaskRun :=
  match taskDate task with
  | None => (w, mkTaskRun (Resolved tt) None)
  | Some date =>
      match getGribData fuel date w with
      | (w1, Resolved response) =>
          if truthy (stamp response) && downloaded response
          then
            match stamp response, targetDate response with
            | Some s, Some d =>
                match convertGribToJson fuel s d w1 with
                | (w2, settled) => (w2, mkTaskRun (Resolved tt) (Some settled))
                end
            | _, _ => (w1, mkTaskRun (Resolved tt) None)
            end
          else (w1, mkTaskRun (Resolved tt) None)
      | (w1, Rejected _) => (w1, mkTaskRun (Resolved tt) None)
      | (w1, OutOfFuel) => (w1, mkTaskRun OutOfFuel None)
      end
  end.

(** ** NearestResolver: [sendNearestTo] of the route layer *)

Inductive NearestResult :=
| Sent (stamp : string).

(** The guard of [sendNearestTo]: a limit that is supplied and not zero
    ([searchLimit &&]), and a distance between now and the target of at
    least that many days; [abs(now - target) / (1000 * 60 * 60 * 24) >= l]
    is [abs(now - target) >= l * msPerDay] on integers. *)
Definition limitReached (searchLimit : option Z) (now targetDate : Z) : bool :=
  match searchLimit with
  | Some l => (negb (l =? 0) && (Z.abs (now - targetDate) >=? l * msPerDay))%Z
  | None => false
  end.

Definition limitDays (searchLimit : option Z) : Z :=
  match searchLimit with
  | Some l => l
  | None => 0
  end.

(** [sendNearestTo].  [res.sendFile] succeeds when the structured artifact
    is on disk; the conversion started just before it is not awaited, and
    the model lets [sendFile] look first and the conversion finish next. *)
Fixpoint sendNearestTo (fuel fetchFuel : nat) (targetDate0 : Z) (searchLimit : option Z)
    (searchForwards : bool) (w : World) : World * Outcome NearestResult :=
  match fuel with
  | O => (w, OutOfFuel)
  | S fuel' =>
      let w0 := emit (EvNearest targetDate0 searchForwards (clock w)) w in
      if limitReached searchLimit (clock w0) targetDate0
      then
        if negb searchForwards
        then
          let newTarget := (targetDate0 + limitDays searchLimit * 24 * 60 * 60 * 1000)%Z in
          sendNearestTo fuel' fetchFuel newTarget searchLimit true w0
        else (w0, Rejected NoDataWithinSearchLimit)
      else
        let nextTarget :=
          if searchForwards
          then (targetDate0 + 6 * 60 * 60 * 1000)%Z
          else (targetDate0 - 6 * 60 * 60 * 1000)%Z in
        match getGribData fetchFuel targetDate0 w0 with
        | (w1, Resolved gribData) =>
            match stamp gribData, targetDate gribData with
            | Some s, Some d =>
                if truthy (stamp gribData)
                then
                  let sent := existsJson (fs w1) (s ++ ".json") in
                  let w2 := emit (EvSendFile s sent) w1 in
                  match convertGribToJson fetchFuel s d w2 with
                  | (w3, OutOfFuel) => (w3, OutOfFuel)
                  | (w3, _) =>
                      if sent then (w3, Resolved (Sent s))
                      else sendNearestTo fuel' fetchFuel nextTarget searchLimit searchForwards w3
                  end
                else sendNearestTo fuel' fetchFuel nextTarget searchLimit searchForwards w1
            | _, _ => sendNearestTo fuel' fetchFuel nextTarget searchLimit searchForwards w1
            end
        | (w1, Rejected e) => (w1, Rejected e)
        | (w1, OutOfFuel) => (w1, OutOfFuel)
        end
  end.

End WithEnv.

(** ** Reading the log *)

Definition isRequest (e : Event) : bool :=
  match e with EvRequest _ _ _ _ => true | _ => false end.

(** The dates requested, in order. *)
Definition requestDates (l : list Event) : list Z :=
  flat_map (fun e => match e with EvRequest _ d _ _ => [d] | _ => [] end) l.

(** The keys requested, in order. *)
Definition requestStamps (l : list Event) : list string :=
  flat_map (fun e => match e with EvRequest s _ _ _ => [s] | _ => [] end) l.

(** The waits between requests, in order. *)
Definition timeouts (l : list Event) : list Z :=
  flat_map (fun e => match e with EvTimeout d => [d] | _ => [] end) l.

(** The keys converted successfully, in order. *)
Definition converted (l : list Event) : list string :=
  flat_map (fun e => match e with EvConvert s true => [s] | _ => [] end) l.

(** The keys downloaded, in order. *)
Definition downloads (l : list Event) : list string :=
  flat_map (fun e => match e with EvDownload s => [s] | _ => [] end) l.

(** The calls of [sendNearestTo]: target, direction and time of the call,
    in order; and without the times. *)
Definition nearestEntries (l : list Event) : list (Z * bool * Z) :=
  flat_map (fun e => match e with EvNearest t f now => [(t, f, now)] | _ => [] end) l.

Definition nearestCalls (l : list Event) : list (Z * bool) :=
  map fst (nearestEntries l).

Definition countDate (d : Z) (l : list Z) : nat :=
  List.length (filter (Z.eqb d) l).

End Service.

(** ** Reading a fetch *)

Module FetchShape.
Import JSDate TimeKey Service.

(** The request did not come back with status 200. *)
Definition failed (r : NetResult) : bool :=
  match r with
  | Responded statusCode => negb (statusCode =? 200)
  | TransportError => true
  end.

Definition stepMs : Z := 6 * msPerHour.

(** How many keys a fetch may still examine, from the age of its date. *)
Definition keysLeft (age : Z) : Z :=
  if age >? lookbackMs then 0 else (lookbackMs - age) / stepMs + 1.

(** The events of [runQuery] from a date and a retry count: nothing; or a
    request for the key of that date, answered; or such a request, then a
    wait of [2^retryCount] seconds and the rest at the same date with one
    more retry, as long as fewer than three retries were made; or such a
    request and then the rest at the date six hours before, with the retry
    count back at zero. *)
Inductive RetryDiscipline (tz : Z) : Z -> Z -> list Event -> Prop :=
| rd_stop d r :
    RetryDiscipline tz d r []
| rd_answered d r now :
    RetryDiscipline tz d r [EvRequest (formatDateStamp tz d) d r now]
| rd_downloaded d r now :
    RetryDiscipline tz d r
      [EvRequest (formatDateStamp tz d) d r now; EvDownload (formatDateStamp tz d)]
| rd_retry d r now rest :
    r < 3 ->
    RetryDiscipline tz d (r + 1) rest ->
    RetryDiscipline tz d r
      (EvRequest (formatDateStamp tz d) d r now :: EvTimeout (2 ^ r * 1000) :: rest)
| rd_stepback d r now rest :
    3 <= r ->
    RetryDiscipline tz (d - stepMs) 0 rest ->
    RetryDiscipline tz d r (EvRequest (formatDateStamp tz d) d r now :: rest).

(** A request leaves for a date that is at most ten days old. *)
Definition withinLookback (e : Event) : Prop :=
  match e with
  | EvRequest _ currentDate _ now => now - currentDate <= lookbackMs
  | _ => True
  end.

(** The grid point of a requested date is less than ten days and six hours
    old. *)
Definition gridWithinLookback (e : Event) : Prop :=
  match e with
  | EvRequest _ currentDate _ now => now - truncate currentDate 6 < lookbackMs + stepMs
  | _ => True
  end.

(** A request carries the key of its date. *)
Definition keyOfItsDate (tz : Z) (e : Event) : Prop :=
  match e with
  | EvRequest stamp currentDate _ _ => stamp = formatDateStamp tz currentDate
  | _ => True
  end.

(** On a host in UTC, a request for a date with a four-digit year carries
    a key whose grid time, read back from the key as [checkDataFreshness]
    reads it, is less than ten days and six hours old. *)
Definition keyWithinLookback (tz : Z) (e : Event) : Prop :=
  match e with
  | EvRequest stamp currentDate _ now =>
      tz = 0 ->
      1 <= getFullYear 0 currentDate <= 9999 ->
      exists keyTime,
        stampToDate stamp = Some keyTime /\ now - keyTime < lookbackMs + stepMs
  | _ => True
  end.

(** The four requests and three waits spent on a key that keeps failing. *)
Definition failedKeyEvents (tz d t0 l0 l1 l2 : Z) : list Event :=
  [EvRequest (formatDateStamp tz d) d 0 t0;
   EvTimeout 1000;
   EvRequest (formatDateStamp tz d) d 1 (t0 + l0 + 1000);
   EvTimeout 2000;
   EvRequest (formatDateStamp tz d) d 2 (t0 + l0 + 1000 + l1 + 2000);
   EvTimeout 4000;
   EvRequest (formatDateStamp tz d) d 3 (t0 + l0 + 1000 + l1 + 2000 + l2 + 4000)].

End FetchShape.

(** ** Reading a conversion *)

Module ConvertShape.
Import CacheFS.

(** Key [k] is converted: its structured artifact is on disk, its raw
    artifact is not (and the raw area exists). *)
Definition convertedOnly (k : string) (f : FS) : Prop :=
  existsJson f (jsonName k) = true
  /\ existsGrib f (gribName k) = false
  /\ gribData f <> None.

End ConvertShape.

(** ** Reading a freshness check and a nearest search *)

Module SearchShape.
Import JSDate JSString TimeKey CacheFS Service FetchShape.

(** The structured artifacts that [checkDataFreshness] finds stale. *)
Definition staleArtifacts (maxAgeHours : Z) (w : World) : list string :=
  filter (fun jsonFile =>
            endsWith ".json"%string jsonFile
            && isStale (clock w) maxAgeHours (fs w) jsonFile)
         (listing (jsonData (fs w))).

(** The task started for a stale artifact. *)
Definition freshnessTaskOf (jsonFile : string) : FreshnessTask :=
  mkTask (removeFirst ".json"%string jsonFile)
         (stampToDate (removeFirst ".json"%string jsonFile)).

(** The calls of [sendNearestTo] from a target and a direction: none; or a
    last call; or a backward call that meets the limit, then the rest
    forwards from that target plus the limit in days; or a call that does
    not meet the limit, then the rest six hours further in the same
    direction. *)
Inductive NearestDiscipline (searchLimit : option Z)
  : Z -> bool -> list (Z * bool * Z) -> Prop :=
| nd_stop t f :
    NearestDiscipline searchLimit t f []
| nd_last t f now :
    NearestDiscipline searchLimit t f [(t, f, now)]
| nd_reverse t now rest :
    limitReached searchLimit now t = true ->
    NearestDiscipline searchLimit (t + limitDays searchLimit * msPerDay) true rest ->
    NearestDiscipline searchLimit t false ((t, false, now) :: rest)
| nd_step t (f : bool) now rest :
    limitReached searchLimit now t = false ->
    NearestDiscipline searchLimit (if f then t + stepMs else t - stepMs) f rest ->
    NearestDiscipline searchLimit t f ((t, f, now) :: rest).



End SearchShape.

(** ** Exhaustive checks over finite ranges *)

Module Range.
Import JSDate JSString TimeKey.

(** [p] holds at [i], [i+1], ..., [i+n-1]. *)
Fixpoint allFrom (n : nat) (i : Z) (p : Z -> bool) : bool :=
  match n with
  | O => true
  | S k => p i && allFrom k (i + 1) p
  end.

(** What one day of a 400-year cycle must satisfy: its fields are a valid
    date of that cycle, and they give the day back. *)
Definition doeOk (doe : Z) : bool :=
  let '(yoe, m, d) := doe_fields doe in
  (0 <=? yoe) && (yoe <? 400) && (1 <=? m) && (m <=? 12) && (1 <=? d)
  && (d <=? daysInMonth (yoe + (if m <=? 2 then 1 else 0)) m)
  && (doe_of yoe m d =? doe).

(** A number printed on [len] digits reads back as itself. *)
Definition paddedOk (len : nat) (n : Z) : bool :=
  Nat.eqb (String.length (addLeadingZeros n len)) len
  && match parseDigits (addLeadingZeros n len) with
     | Some v => v =? n
     | None => false
     end.

Definition hourOk (h : Z) : bool :=
  String.eqb (padStart 2 "0" (toString (h / 6 * 6))) (addLeadingZeros (h / 6 * 6) 2).

End Range.


(** ** Scenarios *)

Module Scenarios.
Import JSDate JSString TimeKey CacheFS Service.
Local Open Scope string_scope.

(** A host in UTC whose provider answers 200 for the listed keys and 404
    for the others; every request takes 150 ms, every body reaches the
    disk, the converter always succeeds in 2 s. *)
Definition providerWith (keys : list string) : Env :=
  mkEnv 0 (fun _ s => if includes keys s then Responded 200 else Responded 404)
        (fun _ => 150%Z) (fun _ => true) (fun _ _ => true) (fun _ => 2000%Z).

(** The same host with a converter that always fails. *)
Definition brokenConverter (keys : list string) : Env :=
  mkEnv 0 (fun _ s => if includes keys s then Responded 200 else Responded 404)
        (fun _ => 150%Z) (fun _ => true) (fun _ _ => false) (fun _ => 2000%Z).

(** A host in UTC whose provider cannot be reached. *)
Definition providerDown : Env :=
  mkEnv 0 (fun _ _ => TransportError)
        (fun _ => 0%Z) (fun _ => true) (fun _ _ => true) (fun _ => 0%Z).

Definition emptyFS : FS := mkFS None None (fun _ => 0%Z).

(** 2024-03-01T13:00:00Z, nothing cached. *)
Definition coldStart : World := mkWorld 1709298000000 emptyFS 0 0 [].

(** 2024-03-02T12:00:00Z; key 2024030100 was converted at 06:00 the day
    before, thirty hours ago. *)
Definition staleWorld : World :=
  mkWorld 1709380800000
          (mkFS (Some ["2024030100.json"]) (Some []) (fun _ => 1709272800000%Z))
          0 0 [].

(** 2024-03-02T06:30:00Z; the same artifact is 24 hours and 30 minutes old. *)
Definition halfHourWorld : World :=
  mkWorld 1709361000000
          (mkFS (Some ["2024030100.json"]) (Some []) (fun _ => 1709272800000%Z))
          0 0 [].

(** 2024-03-01T13:00:00Z; the raw artifact of 2024030100 is downloaded and
    not yet converted, and the key before it is already cached. *)
Definition pendingWorld : World :=
  mkWorld 1709298000000
          (mkFS (Some ["2024022918.json"]) (Some ["2024030100.f000"]) (fun _ => 0%Z))
          0 0 [].

(** 2024-03-11T05:00:00Z, nothing cached. *)
Definition tenDaysLater : World := mkWorld 1710133200000 emptyFS 0 0 [].

(** A cache with one pair, one structured orphan and one raw orphan. *)
Definition mixedCache : FS :=
  mkFS (Some ["2024030100.json"; "2024030106.json"])
       (Some ["2024030100.f000"; "2024030112.f000"])
       (fun _ => 0%Z).

End Scenarios.

(** ** Reading keys *)

Module KeyShape.
Import JSDate JSString TimeKey CacheFS.
Local Open Scope string_scope.

(** The hour slots of the provider's four daily cycles. *)
Definition cycleHours : list string := ["00"; "06"; "12"; "18"].

(** The hour slot printed for an hour of the day is one of the four. *)
Definition cycleOk (h : Z) : bool :=
  includes cycleHours (padStart 2 "0" (toString (h / 6 * 6))).

End KeyShape.

(** ** More hosts *)

Module Hosts.
Import JSDate JSString TimeKey CacheFS Service.
Local Open Scope string_scope.

(** A host in UTC whose provider answers 200 for the listed keys and whose
    write streams all emit [error]. *)
Definition diskFull (keys : list string) : Env :=
  mkEnv 0 (fun _ s => if includes keys s then Responded 200 else Responded 404)
        (fun _ => 150%Z) (fun _ => false) (fun _ _ => true) (fun _ => 2000%Z).

(** A host in UTC whose converter succeeds on its first [n] runs and fails
    from then on. *)
Definition failingAfter (n : nat) (keys : list string) : Env :=
  mkEnv 0 (fun _ s => if includes keys s then Responded 200 else Responded 404)
        (fun _ => 150%Z) (fun _ => true) (fun i _ => Nat.ltb i n) (fun _ => 2000%Z).

(** A host ten hours west of UTC, otherwise as [providerWith]. *)
Definition farWest (keys : list string) : Env :=
  mkEnv (-600) (fun _ s => if includes keys s then Responded 200 else Responded 404)
        (fun _ => 150%Z) (fun _ => true) (fun _ _ => true) (fun _ => 2000%Z).

End Hosts.

(** ** Reading what a run leaves of the structured area *)

Module KeepShape.
Import CacheFS Service.

(** Every structured artifact of the first world is in the second, with the
    modification time it had. *)
Definition preserved (w w' : World) : Prop :=
  forall name,
    existsJson (fs w) name = true ->
    existsJson (fs w') name = true /\ mtime (fs w') name = mtime (fs w) name.

End KeepShape.

(** ** The route [/latest] *)

Module Routes.
Import JSDate JSString TimeKey CacheFS Service.
Local Open Scope string_scope.

(** What [fs.access], [fs.readFile] and [JSON.parse] make of a structured
    artifact that is on disk: its contents, parsed; or an error with code
    [EACCES]; or an error with another code; or an error without a code (the
    [SyntaxError] of [JSON.parse]).  A file that is not on disk gives
    [ENOENT]. *)
Inductive FileRead :=
| Parsed
| PermissionDenied
| ReadFailed
| NotJson.

(** What the handler does with the response: [res.json] with the contents
    of the artifact of a key, a status with its message, or [next(error)]. *)
Inductive Reply :=
| SendJson (stamp : string)
| Status (code : Z) (message : string)
| Next (e : Error).

(** The handler of [/latest].  It reads the structured area through
    [__dirname/../json-data], which the model takes to be the [json-data]
    the service writes.  [None] is the model running out of steps. *)
Definition latestRoute (env : Env) (readFile : string -> FileRead) (fuel : nat) (w : World)
  : World * option Reply :=
  let latestAvailable := getLatestAvailableTimestamp (tz env) (clock w) in
  match getGribData env fuel latestAvailable w with
  | (w1, OutOfFuel) => (w1, None)
  | (w1, Rejected e) => (w1, Some (Next e))
  | (w1, Resolved first) =>
      let second :=
        if negb (downloaded first)
        then
          let previousTimestamp := subHours latestAvailable 6 in
          getGribData env fuel previousTimestamp w1
        else (w1, Resolved first) in
      match second with
      | (w2, OutOfFuel) => (w2, None)
      | (w2, Rejected e) => (w2, Some (Next e))
      | (w2, Resolved gribData) =>
          if truthy (stamp gribData)
          then
            match stamp gribData with
            | Some s =>
                if existsJson (fs w2) (s ++ ".json")
                then
                  match readFile (s ++ ".json") with
                  | Parsed => (w2, Some (SendJson s))
                  | PermissionDenied =>
                      (w2, Some (Status 500
                                   "Server configuration error: Unable to read data file"))
                  | ReadFailed => (w2, Some (Status 500 "Error reading data file"))
                  | NotJson => (w2, Some (Status 500 "An unexpected error occurred"))
                  end
                else
                  match targetDate gribData with
                  | Some d =>
                      match convertGribToJson env fuel s d w2 with
                      | (w3, Resolved _) =>
                          (w3, Some (Status 202
                                       "Data is being processed. Please try again in a few moments."))
                      | (w3, Rejected e) => (w3, Some (Next e))
                      | (w3, OutOfFuel) => (w3, None)
                      end
                  | None => (w2, Some (Next InvalidTimeValue))
                  end
            | None => (w2, Some (Status 404 "No data available. Please try again later."))
            end
          else (w2, Some (Status 404 "No data available. Please try again later."))
      end
  end.

End Routes.

Module RouteScenarios.
Import JSDate JSString TimeKey CacheFS Service Routes.
Local Open Scope string_scope.

(** Every artifact on disk reads and parses. *)
Definition readable : string -> FileRead := fun _ => Parsed.

(** 2024-03-01T13:00:00Z; the keys of 06:00Z, the latest available, and of
    00:00Z are both cached. *)
Definition warmWorld : World :=
  mkWorld 1709298000000
          (mkFS (Some ["2024030100.json"; "2024030106.json"]) (Some []) (fun _ => 0%Z))
          0 0 [].

End RouteScenarios.

(** * Properties *)

(** ** The calendar *)

Module CalendarFacts.
Import JSDate Range.

Lemma allFrom_spec (p : Z -> bool) (n : nat) :
  forall i, allFrom n i p = true ->
  forall j, i <= j < i + Z.of_nat n -> p j = true.
Proof.
  induction n as [|k IH]; intros i H j Hj.
  - simpl in Hj. lia.
  - simpl in H. apply andb_true_iff in H as [Hi Hk].
    destruct (Z.eq_dec j i) as [->|Hne]; [exact Hi|].
    apply (IH (i + 1) Hk). lia.
Qed.

Lemma doeOk_all (doe : Z) : 0 <= doe < 146097 -> doeOk doe = true.
Proof.
  intros H.
  assert (A : allFrom (Z.to_nat 146097) 0 doeOk = true) by (vm_compute; reflexivity).
  apply (allFrom_spec _ _ _ A). lia.
Qed.

Lemma isLeapYear_cycle (y e : Z) : isLeapYear (y + e * 400) = isLeapYear y.
Proof.
  unfold isLeapYear.
  replace ((y + e * 400) mod 400) with (y mod 400) by (symmetry; apply Z.mod_add; lia).
  replace (y + e * 400) with (y + (e * 100) * 4) by lia.
  rewrite (Z.mod_add y (e * 100) 4) by lia.
  replace (y + e * 100 * 4) with (y + (e * 4) * 100) by lia.
  rewrite (Z.mod_add y (e * 4) 100) by lia.
  reflexivity.
Qed.

Lemma daysInMonth_cycle (y e m : Z) : daysInMonth (y + e * 400) m = daysInMonth y m.
Proof. unfold daysInMonth. rewrite isLeapYear_cycle. reflexivity. Qed.

(** The fields of any day number form a valid date, and give the day back. *)
Lemma civil_from_days_valid (z : Z) :
  let '(y, m, d) := civil_from_days z in
  1 <= m <= 12 /\ 1 <= d <= daysInMonth y m /\ days_from_civil y m d = z
  /\ (z + 719468) / 146097 * 400 <= y.
Proof.
  unfold civil_from_days.
  pose proof (Z.mod_pos_bound (z + 719468) 146097 ltac:(lia)) as Hdoe.
  pose proof (doeOk_all _ Hdoe) as Hok.
  pose proof (Z.div_mod (z + 719468) 146097 ltac:(lia)) as Hz.
  set (era := (z + 719468) / 146097) in *.
  set (doe := (z + 719468) mod 146097) in *.
  unfold doeOk in Hok.
  destruct (doe_fields doe) as [[yoe m] d].
  repeat (apply andb_true_iff in Hok as [Hok ?]).
  repeat match goal with
         | H : (_ <=? _) = true |- _ => apply Z.leb_le in H
         | H : (_ <? _) = true |- _ => apply Z.ltb_lt in H
         | H : (_ =? _) = true |- _ => apply Z.eqb_eq in H
         end.
  apply Z.leb_le in Hok.
  replace (yoe + era * 400 + (if m <=? 2 then 1 else 0))
    with (yoe + (if m <=? 2 then 1 else 0) + era * 400) by lia.
  rewrite daysInMonth_cycle.
  repeat split; try lia.
  - unfold days_from_civil.
    assert (Hy : (if m <=? 2
                  then yoe + (if m <=? 2 then 1 else 0) + era * 400 - 1
                  else yoe + (if m <=? 2 then 1 else 0) + era * 400)
                 = yoe + era * 400) by (destruct (m <=? 2); lia).
    rewrite Hy.
    rewrite Z.div_add by lia. rewrite Z.mod_add by lia.
    rewrite Z.div_small by lia. rewrite Z.mod_small by lia.
    lia.
  - destruct (m <=? 2); lia.
Qed.

Lemma MakeDay_in_range (y m d : Z) :
  0 <= m <= 11 -> MakeDay y m d = days_from_civil y (m + 1) d.
Proof.
  intros H. unfold MakeDay.
  rewrite Z.div_small by lia. rewrite Z.mod_small by lia.
  unfold days_from_civil, doe_of. cbv zeta.
  replace (y + 0) with y by lia. ring.
Qed.

(** [Date.UTC] of the UTC fields of [t] and an hour is that hour of [t]'s day. *)
Lemma DateUTC_of_fields (t h : Z) :
  DateUTC (getUTCFullYear t) (getUTCMonth t) (getUTCDate t) h
  = Day t * msPerDay + h * msPerHour.
Proof.
  unfold DateUTC, getUTCFullYear, getUTCMonth, getUTCDate.
  pose proof (civil_from_days_valid (Day t)) as H.
  destruct (civil_from_days (Day t)) as [[y m] d]. simpl.
  destruct H as (Hm & Hd & Hr & _).
  rewrite MakeDay_in_range by lia.
  replace (m - 1 + 1) with m by lia. rewrite Hr. reflexivity.
Qed.

(** From 1600 on, years are not in the two-digit range of [new Date]. *)
Lemma year_after_epoch (t : Z) : - msPerDay <= t -> 1600 <= getUTCFullYear t.
Proof.
  intros H. unfold getUTCFullYear.
  pose proof (civil_from_days_valid (Day t)) as V.
  destruct (civil_from_days (Day t)) as [[y m] d]. simpl.
  destruct V as (_ & _ & _ & Hy).
  assert (-1 <= Day t).
  { unfold Day. apply Z.div_le_lower_bound; unfold msPerDay in *; lia. }
  assert (4 <= (Day t + 719468) / 146097).
  { apply Z.div_le_lower_bound; lia. }
  lia.
Qed.

Lemma HourFromTime_range (t : Z) : 0 <= HourFromTime t < 24.
Proof. unfold HourFromTime. apply Z.mod_pos_bound. lia. Qed.

(** The time of day splits into the hour and the rest of the hour. *)
Lemma hour_of_day (t : Z) :
  Day t * msPerDay + HourFromTime t * msPerHour <= t
  < Day t * msPerDay + HourFromTime t * msPerHour + msPerHour.
Proof.
  unfold Day, HourFromTime, msPerDay, msPerHour.
  pose proof (Z.div_mod t 3600000 ltac:(lia)) as H1.
  pose proof (Z.mod_pos_bound t 3600000 ltac:(lia)) as H2.
  pose proof (Z.div_mod (t / 3600000) 24 ltac:(lia)) as H3.
  assert (H4 : t / 86400000 = t / 3600000 / 24).
  { rewrite Z.div_div by lia. reflexivity. }
  rewrite H4. lia.
Qed.

End CalendarFacts.

(** ** TimeKey *)

Module TimeKeyFacts.
Import JSDate JSString TimeKey Range CalendarFacts.

Lemma paddedOk_year (y : Z) : 1 <= y <= 9999 -> paddedOk 4 y = true.
Proof.
  intros H.
  assert (A : allFrom (Z.to_nat 9999) 1 (paddedOk 4) = true) by (vm_compute; reflexivity).
  apply (allFrom_spec _ _ _ A). lia.
Qed.

Lemma paddedOk_two (n : Z) : 0 <= n <= 99 -> paddedOk 2 n = true.
Proof.
  intros H.
  assert (A : allFrom (Z.to_nat 100) 0 (paddedOk 2) = true) by (vm_compute; reflexivity).
  apply (allFrom_spec _ _ _ A). lia.
Qed.

Lemma hourOk_all (h : Z) : 0 <= h < 24 -> hourOk h = true.
Proof.
  intros H.
  assert (A : allFrom (Z.to_nat 24) 0 hourOk = true) by (vm_compute; reflexivity).
  apply (allFrom_spec _ _ _ A). lia.
Qed.

Lemma paddedOk_inv (len : nat) (n : Z) :
  paddedOk len n = true ->
  String.length (addLeadingZeros n len) = len
  /\ parseDigits (addLeadingZeros n len) = Some n.
Proof.
  unfold paddedOk. intros H. apply andb_true_iff in H as [H1 H2].
  apply Nat.eqb_eq in H1. split; [exact H1|].
  destruct (parseDigits (addLeadingZeros n len)) as [v|]; [|discriminate].
  apply Z.eqb_eq in H2. congruence.
Qed.

Lemma length2_inv (s : string) :
  String.length s = 2%nat -> exists a b, s = String a (String b EmptyString).
Proof.
  destruct s as [|a [|b [|c s]]]; simpl; intros H; try discriminate.
  eauto.
Qed.

Lemma length4_inv (s : string) :
  String.length s = 4%nat ->
  exists a b c d, s = String a (String b (String c (String d EmptyString))).
Proof.
  destruct s as [|a [|b [|c [|d [|e s]]]]]; simpl; intros H; try discriminate.
  eauto 6.
Qed.

(** Reading back a key made of a 4-digit year and three 2-digit fields. *)
Lemma stampToDate_fields (ys ms ds hs : string) (y mo d h : Z) :
  String.length ys = 4%nat -> String.length ms = 2%nat ->
  String.length ds = 2%nat -> String.length hs = 2%nat ->
  parseDigits ys = Some y -> parseDigits ms = Some mo ->
  parseDigits ds = Some d -> parseDigits hs = Some h ->
  hourComponent (ys ++ ms ++ ds ++ hs) = Some h
  /\ stampToDate (ys ++ ms ++ ds ++ hs)
     = if validateDate y (mo - 1) d && validateTime h 0 0
       then Some (DateUTC y (mo - 1) d h) else None.
Proof.
  intros Ly Lm Ld Lh Py Pm Pd Ph.
  destruct (length4_inv _ Ly) as (y1 & y2 & y3 & y4 & ->).
  destruct (length2_inv _ Lm) as (m1 & m2 & ->).
  destruct (length2_inv _ Ld) as (d1 & d2 & ->).
  destruct (length2_inv _ Lh) as (h1 & h2 & ->).
  split.
  - unfold hourComponent, slice. cbn [append substring Nat.sub]. exact Ph.
  - unfold stampToDate, slice, parseISO.
    cbn [append substring Nat.sub String.length Nat.eqb isChar charAt String.get
         Ascii.eqb Bool.eqb andb].
    rewrite Py, Pm, Pd, Ph.
    change (parseDigits "00") with (Some 0).
    destruct (validateDate y (mo - 1) d); [|reflexivity].
    destruct (validateTime h 0 0); [|reflexivity].
    cbn [andb]. f_equal. unfold msPerMinute. lia.
Qed.

Lemma append_assoc3 (a b c d : string) :
  ((a ++ b ++ c) ++ d = a ++ b ++ c ++ d)%string.
Proof.
  induction a as [|x a IH]; simpl.
  - induction b as [|y b IHb]; simpl; [reflexivity|]. rewrite IHb. reflexivity.
  - rewrite IH. reflexivity.
Qed.

Lemma daysInMonth_le_31 (y m : Z) : daysInMonth y m <= 31.
Proof.
  unfold daysInMonth.
  destruct (m =? 2); [destruct (isLeapYear y); lia|].
  destruct ((m =? 4) || (m =? 6) || (m =? 9) || (m =? 11)); lia.
Qed.

(** With the interval of the service, [roundHours] pads the rounded hour. *)
Lemma roundHours_six (t : Z) :
  roundHours t 6 = padStart 2 "0" (toString (roundedHours t 6)).
Proof. reflexivity. Qed.

Lemma roundedHours_range (t : Z) :
  0 <= roundedHours t 6 <= getUTCHours t /\ getUTCHours t < 24
  /\ roundedHours t 6 mod 6 = 0.
Proof.
  unfold roundedHours, getUTCHours.
  pose proof (HourFromTime_range t) as H.
  pose proof (Z.div_mod (HourFromTime t) 6 ltac:(lia)) as H1.
  pose proof (Z.mod_pos_bound (HourFromTime t) 6 ltac:(lia)) as H2.
  repeat split; try lia.
  apply Z.mod_mul. lia.
Qed.

(** What a key reads back as, on any host: the local calendar day of [t]
    at the UTC hour slot of [t]. *)
Lemma stampToDate_formatDateStamp (tz t : Z) :
  1 <= getFullYear tz t <= 9999 ->
  hourComponent (formatDateStamp tz t) = Some (roundedHours t 6)
  /\ stampToDate (formatDateStamp tz t)
     = Some (Day (LocalTime tz t) * msPerDay + roundedHours t 6 * msPerHour).
Proof.
  intros Hy.
  pose proof (DateUTC_of_fields (LocalTime tz t) (roundedHours t 6)) as HU.
  unfold formatDateStamp, format_yyyyMMdd. rewrite roundHours_six.
  unfold getFullYear, getMonth, getDate in *.
  unfold getUTCFullYear, getUTCMonth, getUTCDate in *.
  pose proof (civil_from_days_valid (Day (LocalTime tz t))) as V.
  destruct (civil_from_days (Day (LocalTime tz t))) as [[y m] d].
  simpl fst in *. simpl snd in *.
  destruct V as (Hm & Hd & _ & _).
  pose proof (daysInMonth_le_31 y m) as H31.
  pose proof (roundedHours_range t) as (Hh & Hh24 & _).
  assert (Hyr : (if y >? 0 then y else 1 - y) = y).
  { destruct (Z.gtb_spec y 0); lia. }
  cbv zeta. rewrite Hyr.
  assert (Hhr : padStart 2 "0" (toString (roundedHours t 6))
                = addLeadingZeros (roundedHours t 6) 2).
  { apply String.eqb_eq. apply (hourOk_all (getUTCHours t)).
    unfold getUTCHours. apply HourFromTime_range. }
  rewrite Hhr. rewrite append_assoc3.
  destruct (paddedOk_inv _ _ (paddedOk_year y Hy)) as [Ly Py].
  destruct (paddedOk_inv _ _ (paddedOk_two (m - 1 + 1) ltac:(lia))) as [Lm Pm].
  destruct (paddedOk_inv _ _ (paddedOk_two d ltac:(lia))) as [Ld Pd].
  destruct (paddedOk_inv _ _ (paddedOk_two (roundedHours t 6) ltac:(lia))) as [Lh Ph].
  destruct (stampToDate_fields _ _ _ _ _ _ _ _ Ly Lm Ld Lh Py Pm Pd Ph) as [E1 E2].
  split; [exact E1|].
  rewrite E2.
  assert (Vd : validateDate y (m - 1 + 1 - 1) d = true).
  { unfold validateDate. replace (m - 1 + 1 - 1 + 1) with m by lia.
    repeat (apply andb_true_iff; split); apply Z.leb_le; lia. }
  assert (Vt : validateTime (roundedHours t 6) 0 0 = true).
  { unfold validateTime.
    destruct (Z.eqb_spec (roundedHours t 6) 24); [lia|].
    repeat (apply andb_true_iff; split);
      first [apply Z.leb_le; lia | apply Z.ltb_lt; lia]. }
  rewrite Vd, Vt. cbn [andb].
  replace (m - 1 + 1 - 1) with (m - 1) by lia.
  rewrite HU. reflexivity.
Qed.

Lemma truncate_grid (t : Z) :
  truncate t 6 = Day t * msPerDay + roundedHours t 6 * msPerHour.
Proof. unfold truncate. rewrite DateUTC_of_fields. reflexivity. Qed.

Lemma LocalTime_utc (t : Z) : LocalTime 0 t = t.
Proof. unfold LocalTime. lia. Qed.

(** On any host, for a timestamp whose local year has four digits (1 to
    9999), the hour component of the key is a multiple of 6 that does not
    exceed the timestamp's UTC hour; and on a host in UTC, reading the key
    back (YYYYMMDDHH, in UTC) gives the 6-hour grid point obtained by
    truncating the timestamp in UTC. *)
Lemma timekey_hour_and_roundtrip (tz t : Z) :
  1 <= getFullYear tz t <= 9999 ->
  (exists h, hourComponent (formatDateStamp tz t) = Some h
             /\ h mod 6 = 0 /\ 0 <= h <= getUTCHours t)
  /\ (tz = 0 -> stampToDate (formatDateStamp tz t) = Some (truncate t 6)).
Proof.
  intros Hy.
  destruct (stampToDate_formatDateStamp tz t Hy) as [E1 E2].
  pose proof (roundedHours_range t) as (Hh & _ & Hm).
  split.
  - exists (roundedHours t 6). auto.
  - intros ->. rewrite E2, LocalTime_utc, truncate_grid. reflexivity.
Qed.

(** 2024-03-01T05:00:00Z on a host in UTC: key 2024030100, read back as
    2024-03-01T00:00:00Z. *)
Lemma timekey_roundtrip_utc_example :
  formatDateStamp 0 1709269200000 = "2024030100"%string
  /\ stampToDate (formatDateStamp 0 1709269200000) = Some (truncate 1709269200000 6)
  /\ truncate 1709269200000 6 = 1709251200000.
Proof. vm_compute. repeat split. Qed.

(** The key is fixed-width: with a five-digit year (10000-01-01T00:00:00Z)
    it has eleven characters, and what [checkDataFreshness] slices out of it
    is not a date. *)
Lemma timekey_needs_four_digit_year :
  formatDateStamp 0 253402300800000 = "10000010100"%string
  /\ stampToDate (formatDateStamp 0 253402300800000) = None.
Proof. vm_compute. repeat split. Qed.

(** C7 (the code at the failing input).  On a host two hours east of UTC,
    2024-03-01T23:00:00Z gets the key 2024030218: the calendar day is the
    local one (2024-03-02, 01:00 local time), the hour slot is the UTC one
    (18).  Read back in UTC the key is 2024-03-02T18:00:00Z, a day after
    2024-03-01T18:00:00Z, the grid point obtained by truncating the
    timestamp in UTC. *)
Theorem timekey_mixes_local_day_and_utc_hour :
  formatDateStamp 120 1709334000000 = "2024030218"%string
  /\ hourComponent (formatDateStamp 120 1709334000000) = Some 18
  /\ getUTCHours 1709334000000 = 23
  /\ stampToDate (formatDateStamp 120 1709334000000) = Some 1709402400000
  /\ truncate 1709334000000 6 = 1709316000000
  /\ stampToDate (formatDateStamp 120 1709334000000)
     <> Some (truncate 1709334000000 6).
Proof. vm_compute. repeat split. discriminate. Qed.

(** In a UTC host, [getLatestAvailableTimestamp] is the truncated current
    time less one interval. *)
Lemma latestAvailable_utc_host (now : Z) :
  0 <= now ->
  getLatestAvailableTimestamp 0 now = subHours (truncate now 6) 6.
Proof.
  intros H.
  unfold getLatestAvailableTimestamp, newDate, getFullYear, getMonth, getDate, getHours.
  rewrite LocalTime_utc.
  pose proof (year_after_epoch now ltac:(unfold msPerDay; lia)) as Hy.
  assert (E : (0 <=? getUTCFullYear now) && (getUTCFullYear now <=? 99) = false).
  { apply andb_false_iff. right. apply Z.leb_gt. lia. }
  cbv zeta. rewrite E. unfold truncate.
  f_equal. lia.
Qed.

(** C8 (the code at the failing input).  On a host one hour east of UTC at
    2024-03-01T05:30:00Z, [getLatestAvailableTimestamp] is
    2024-02-29T23:00:00Z, while the truncated current time less one interval
    is 2024-02-29T18:00:00Z. *)
Theorem latestAvailable_local_zone :
  getLatestAvailableTimestamp 60 1709271000000 = 1709247600000
  /\ subHours (truncate 1709271000000 6) 6 = 1709229600000
  /\ getLatestAvailableTimestamp 60 1709271000000
     <> subHours (truncate 1709271000000 6) 6.
Proof. vm_compute. repeat split. discriminate. Qed.

End TimeKeyFacts.

(** ** The cache areas *)

Module CacheFacts.
Import JSString CacheFS Scenarios.
Local Open Scope string_scope.

(** *** Strings *)

Lemma startsWith_refl (p : string) : startsWith p p = true.
Proof.
  induction p as [|c p IH]; simpl; [reflexivity|].
  rewrite Ascii.eqb_refl. exact IH.
Qed.

Lemma startsWith_app (p s : string) : startsWith p (p ++ s) = true.
Proof.
  induction p as [|c p IH]; simpl; [reflexivity|].
  rewrite Ascii.eqb_refl. exact IH.
Qed.

Lemma dropChars_length (p : string) : dropChars (String.length p) p = "".
Proof. induction p as [|c p IH]; simpl; [reflexivity|exact IH]. Qed.

Lemma endsWith_refl (p : string) : endsWith p p = true.
Proof.
  destruct p as [|c p]; simpl; [reflexivity|].
  rewrite Ascii.eqb_refl, String.eqb_refl. reflexivity.
Qed.

Lemma endsWith_app (k p : string) : endsWith p (k ++ p) = true.
Proof.
  induction k as [|c k IH]; simpl.
  - apply endsWith_refl.
  - rewrite IH. apply orb_true_r.
Qed.

(** A key followed by a suffix that does not start with a digit: removing
    the first occurrence of the suffix gives the key back. *)
Lemma removeFirst_key (c : ascii) (p k : string) :
  isDigit c = false -> isKey k = true ->
  removeFirst (String c p) (k ++ String c p) = k.
Proof.
  intros Hc. induction k as [|a k IH]; intros Hk.
  - change ("" ++ String c p) with (String c p).
    destruct p as [|b p]; simpl; rewrite Ascii.eqb_refl; simpl.
    + reflexivity.
    + rewrite Ascii.eqb_refl, startsWith_refl. simpl. apply dropChars_length.
  - simpl in Hk. apply andb_true_iff in Hk as [Ha Hk].
    simpl. destruct (Ascii.eqb_spec c a) as [->|Hne]; [congruence|].
    simpl. rewrite (IH Hk). reflexivity.
Qed.

Lemma removeFirst_jsonName (k : string) :
  isKey k = true -> removeFirst ".json" (jsonName k) = k.
Proof. intros H. unfold jsonName. apply removeFirst_key; [reflexivity|exact H]. Qed.

Lemma removeFirst_gribName (k : string) :
  isKey k = true -> removeFirst ".f000" (gribName k) = k.
Proof. intros H. unfold gribName. apply removeFirst_key; [reflexivity|exact H]. Qed.

Lemma isJsonArtifact_iff (name : string) :
  isJsonArtifact name = true <-> exists k, isKey k = true /\ name = jsonName k.
Proof.
  unfold isJsonArtifact. split.
  - intros H. apply andb_true_iff in H as [H H3]. apply andb_true_iff in H as [_ H2].
    apply String.eqb_eq in H3. eauto.
  - intros (k & Hk & ->). rewrite (removeFirst_jsonName k Hk), Hk.
    unfold jsonName. rewrite endsWith_app, String.eqb_refl. reflexivity.
Qed.

Lemma isGribArtifact_iff (name : string) :
  isGribArtifact name = true <-> exists k, isKey k = true /\ name = gribName k.
Proof.
  unfold isGribArtifact. split.
  - intros H. apply andb_true_iff in H as [H H3]. apply andb_true_iff in H as [_ H2].
    apply String.eqb_eq in H3. eauto.
  - intros (k & Hk & ->). rewrite (removeFirst_gribName k Hk), Hk.
    unfold gribName. rewrite endsWith_app, String.eqb_refl. reflexivity.
Qed.

Lemma includes_In (l : list string) (x : string) : includes l x = true <-> In x l.
Proof.
  unfold includes. rewrite existsb_exists. split.
  - intros (y & Hy & E). apply String.eqb_eq in E. subst. exact Hy.
  - intros H. exists x. split; [exact H|apply String.eqb_refl].
Qed.

(** *** [cleanupFiles] as two filters *)

Lemma filter_filter (A : Type) (p q : A -> bool) (l : list A) :
  filter p (filter q l) = filter (fun a => q a && p a) l.
Proof.
  induction l as [|a l IH]; simpl; [reflexivity|].
  destruct (q a); simpl; [destruct (p a)|]; rewrite IH; reflexivity.
Qed.

Lemma fold_unlinkJson (c : string -> bool) (l : list string) :
  forall f : FS,
  fold_left (fun fs' x => if c x then unlinkJson x fs' else fs') l f
  = mkFS (option_map
            (filter (fun a => negb (existsb (fun x => c x && String.eqb a x) l)))
            (jsonData f))
         (gribData f) (mtime f).
Proof.
  induction l as [|x l IH]; intros f.
  - simpl. destruct f as [[js|] g m]; simpl; [|reflexivity].
    f_equal. f_equal. induction js as [|a js IHjs]; simpl; congruence.
  - simpl fold_left. rewrite IH.
    destruct (c x) eqn:Hc; simpl.
    + destruct f as [[js|] g m]; simpl; [|reflexivity].
      f_equal. f_equal. rewrite filter_filter. apply filter_ext.
      intros a. rewrite Hc, negb_orb. reflexivity.
    + rewrite Hc. reflexivity.
Qed.

Lemma fold_unlinkGrib (c : string -> bool) (l : list string) :
  forall f : FS,
  fold_left (fun fs' x => if c x then unlinkGrib x fs' else fs') l f
  = mkFS (jsonData f)
         (option_map
            (filter (fun a => negb (existsb (fun x => c x && String.eqb a x) l)))
            (gribData f))
         (mtime f).
Proof.
  induction l as [|x l IH]; intros f.
  - simpl. destruct f as [j [gs|] m]; simpl; [|reflexivity].
    f_equal. f_equal. induction gs as [|a gs IHgs]; simpl; congruence.
  - simpl fold_left. rewrite IH.
    destruct (c x) eqn:Hc; simpl.
    + destruct f as [j [gs|] m]; simpl; [|reflexivity].
      f_equal. f_equal. rewrite filter_filter. apply filter_ext.
      intros a. rewrite Hc, negb_orb. reflexivity.
    + rewrite Hc. reflexivity.
Qed.

Lemma existsb_self (e c : string -> bool) (l : list string) (a : string) :
  In a l ->
  existsb (fun x => c x && String.eqb a x) (filter e l) = e a && c a.
Proof.
  intros Ha. apply eq_true_iff_eq. rewrite existsb_exists, andb_true_iff. split.
  - intros (x & Hx & H). apply filter_In in Hx as [_ He].
    apply andb_true_iff in H as [Hc E]. apply String.eqb_eq in E. subst. auto.
  - intros [He Hc]. exists a. rewrite filter_In, Hc, String.eqb_refl. auto.
Qed.

Lemma cleanupFiles_filters (f : FS) (js gs : list string) :
  jsonData f = Some js -> gribData f = Some gs ->
  cleanupFiles f
  = Some (mkFS (Some (filter (keepsJson gs) js)) (Some (filter (keepsGrib js) gs)) (mtime f)).
Proof.
  intros Hj Hg. unfold cleanupFiles. rewrite Hj, Hg. cbv zeta.
  rewrite (fold_unlinkJson
             (fun jsonFile =>
                negb (includes (filter (endsWith ".f000") gs)
                               (removeFirst ".json" jsonFile ++ ".f000")))).
  rewrite (fold_unlinkGrib
             (fun gribFile =>
                negb (includes (filter (endsWith ".json") js)
                               (removeFirst ".f000" gribFile ++ ".json")))).
  simpl. rewrite Hj, Hg. simpl. f_equal. f_equal.
  - f_equal. apply filter_ext_in. intros a Ha.
    rewrite (existsb_self _ _ _ _ Ha). unfold keepsJson.
    destruct (endsWith ".json" a); simpl; [rewrite negb_involutive|]; reflexivity.
  - f_equal. apply filter_ext_in. intros a Ha.
    rewrite (existsb_self _ _ _ _ Ha). unfold keepsGrib.
    destruct (endsWith ".f000" a); simpl; [rewrite negb_involutive|]; reflexivity.
Qed.


Lemma includes_filter (e : string -> bool) (l : list string) (x : string) :
  includes (filter e l) x = includes l x && e x.
Proof.
  apply eq_true_iff_eq. rewrite andb_true_iff, !includes_In, filter_In. tauto.
Qed.

Lemma keepsJson_key (gs : list string) (k : string) :
  isKey k = true -> keepsJson gs (jsonName k) = includes gs (gribName k).
Proof.
  intros Hk. unfold keepsJson. rewrite (removeFirst_jsonName k Hk).
  unfold jsonName at 1. rewrite endsWith_app. simpl negb. simpl orb.
  rewrite includes_filter. change (k ++ ".f000") with (gribName k).
  unfold gribName at 2. rewrite endsWith_app. apply andb_true_r.
Qed.

Lemma keepsGrib_key (js : list string) (k : string) :
  isKey k = true -> keepsGrib js (gribName k) = includes js (jsonName k).
Proof.
  intros Hk. unfold keepsGrib. rewrite (removeFirst_gribName k Hk).
  unfold gribName at 1. rewrite endsWith_app. simpl negb. simpl orb.
  rewrite includes_filter. change (k ++ ".json") with (jsonName k).
  unfold jsonName at 2. rewrite endsWith_app. apply andb_true_r.
Qed.

Lemma filter_id (A : Type) (p : A -> bool) (l : list A) :
  (forall a, In a l -> p a = true) -> filter p l = l.
Proof.
  intros H. apply forallb_filter_id. apply forallb_forall. exact H.
Qed.

Lemma artifactsOnly_inv (f : FS) :
  artifactsOnly f = true ->
  exists js gs, jsonData f = Some js /\ gribData f = Some gs
    /\ (forall a, In a js -> exists k, isKey k = true /\ a = jsonName k)
    /\ (forall a, In a gs -> exists k, isKey k = true /\ a = gribName k).
Proof.
  unfold artifactsOnly, allFiles. intros H. apply andb_true_iff in H as [Hj Hg].
  destruct (jsonData f) as [js|]; [|discriminate].
  destruct (gribData f) as [gs|]; [|discriminate].
  exists js, gs. repeat split; try reflexivity.
  - intros a Ha. apply isJsonArtifact_iff. exact (proj1 (forallb_forall _ _) Hj a Ha).
  - intros a Ha. apply isGribArtifact_iff. exact (proj1 (forallb_forall _ _) Hg a Ha).
Qed.

Lemma cleanupFiles_inv (f f' : FS) :
  cleanupFiles f = Some f' ->
  exists js gs,
    jsonData f = Some js /\ gribData f = Some gs
    /\ f' = mkFS (Some (filter (keepsJson gs) js)) (Some (filter (keepsGrib js) gs)) (mtime f).
Proof.
  intros Hc.
  destruct (jsonData f) as [js|] eqn:Hj;
    [|unfold cleanupFiles in Hc; rewrite Hj in Hc; discriminate].
  destruct (gribData f) as [gs|] eqn:Hg;
    [|unfold cleanupFiles in Hc; rewrite Hj, Hg in Hc; discriminate].
  rewrite (cleanupFiles_filters f js gs Hj Hg) in Hc. injection Hc as <-.
  exists js, gs. auto.
Qed.

(** What [cleanupFiles] does to the artifacts of a key. *)
Lemma cleanupFiles_key (f f' : FS) (k : string) :
  cleanupFiles f = Some f' -> isKey k = true ->
  existsJson f' (jsonName k) = existsJson f (jsonName k) && existsGrib f (gribName k)
  /\ existsGrib f' (gribName k) = existsGrib f (gribName k) && existsJson f (jsonName k).
Proof.
  intros Hc Hk. destruct (cleanupFiles_inv f f' Hc) as (js & gs & Hj & Hg & ->).
  unfold existsJson, existsGrib, dirHas. simpl. rewrite Hj, Hg.
  rewrite !includes_filter, (keepsJson_key gs k Hk), (keepsGrib_key js k Hk). auto.
Qed.

(** C5.  Whenever [cleanupFiles] runs through (both cache areas exist), the
    structured artifact of a key is kept exactly when its raw artifact is
    there, the raw artifact exactly when its structured artifact is there,
    so that afterwards the two are present or absent together; a second run
    right after changes the presence of no artifact; and in cache areas that
    hold artifacts only, every retained file has its counterpart retained
    and the second run leaves the whole cache as it is. *)
Theorem cleanupFiles_pairs_and_idempotent (f f' : FS) :
  cleanupFiles f = Some f' ->
  (forall k, isKey k = true ->
     existsJson f' (jsonName k) = existsJson f (jsonName k) && existsGrib f (gribName k)
     /\ existsGrib f' (gribName k) = existsGrib f (gribName k) && existsJson f (jsonName k)
     /\ existsJson f' (jsonName k) = existsGrib f' (gribName k))
  /\ (exists f'',
        cleanupFiles f' = Some f''
        /\ forall k, isKey k = true ->
             existsJson f'' (jsonName k) = existsJson f' (jsonName k)
             /\ existsGrib f'' (gribName k) = existsGrib f' (gribName k))
  /\ (artifactsOnly f = true ->
        (forall name, In name (listing (jsonData f')) ->
           exists k, name = jsonName k /\ In (gribName k) (listing (gribData f')))
        /\ (forall name, In name (listing (gribData f')) ->
              exists k, name = gribName k /\ In (jsonName k) (listing (jsonData f')))
        /\ cleanupFiles f' = Some f').
Proof.
  intros Hc.
  assert (K : forall k, isKey k = true ->
            existsJson f' (jsonName k) = existsJson f (jsonName k) && existsGrib f (gribName k)
            /\ existsGrib f' (gribName k) = existsGrib f (gribName k) && existsJson f (jsonName k)
            /\ existsJson f' (jsonName k) = existsGrib f' (gribName k)).
  { intros k Hk. destruct (cleanupFiles_key f f' k Hc Hk) as [E1 E2].
    split; [exact E1|]. split; [exact E2|]. rewrite E1, E2. apply andb_comm. }
  split; [exact K|].
  destruct (cleanupFiles_inv f f' Hc) as (js & gs & Hj & Hg & Ef).
  split.
  - destruct (cleanupFiles f') as [f''|] eqn:Hc2;
      [|subst f'; unfold cleanupFiles in Hc2; simpl in Hc2; discriminate].
    exists f''. split; [reflexivity|]. intros k Hk.
    destruct (cleanupFiles_key f' f'' k Hc2 Hk) as [E1 E2].
    destruct (K k Hk) as (_ & _ & P).
    rewrite E1, E2, P. split; apply andb_diag.
  - intros H. destruct (artifactsOnly_inv f H) as (js' & gs' & Hj' & Hg' & Aj & Ag).
    rewrite Hj in Hj'. injection Hj' as <-. rewrite Hg in Hg'. injection Hg' as <-.
    subst f'. cbn [listing jsonData gribData].
    assert (Pj : forall name, In name (filter (keepsJson gs) js) ->
                 exists k, isKey k = true /\ name = jsonName k
                           /\ In (gribName k) (filter (keepsGrib js) gs)).
    { intros name Hn. apply filter_In in Hn as [Hin Hkeep].
      destruct (Aj name Hin) as (k & Hk & ->). exists k. do 2 (split; [auto|]).
      rewrite (keepsJson_key gs k Hk) in Hkeep.
      apply filter_In. split; [apply includes_In; exact Hkeep|].
      rewrite (keepsGrib_key js k Hk). apply includes_In. exact Hin. }
    assert (Pg : forall name, In name (filter (keepsGrib js) gs) ->
                 exists k, isKey k = true /\ name = gribName k
                           /\ In (jsonName k) (filter (keepsJson gs) js)).
    { intros name Hn. apply filter_In in Hn as [Hin Hkeep].
      destruct (Ag name Hin) as (k & Hk & ->). exists k. do 2 (split; [auto|]).
      rewrite (keepsGrib_key js k Hk) in Hkeep.
      apply filter_In. split; [apply includes_In; exact Hkeep|].
      rewrite (keepsJson_key gs k Hk). apply includes_In. exact Hin. }
    split; [intros name Hn; destruct (Pj name Hn) as (k & _ & E & Hin); eauto|].
    split; [intros name Hn; destruct (Pg name Hn) as (k & _ & E & Hin); eauto|].
    rewrite (cleanupFiles_filters
               (mkFS (Some (filter (keepsJson gs) js)) (Some (filter (keepsGrib js) gs))
                     (mtime f))
               (filter (keepsJson gs) js) (filter (keepsGrib js) gs) eq_refl eq_refl).
    simpl. f_equal. f_equal.
    + f_equal. apply filter_id. intros a Ha.
      destruct (Pj a Ha) as (k & Hk & -> & Hin).
      rewrite (keepsJson_key _ k Hk). apply includes_In. exact Hin.
    + f_equal. apply filter_id. intros a Ha.
      destruct (Pg a Ha) as (k & Hk & -> & Hin).
      rewrite (keepsGrib_key _ k Hk). apply includes_In. exact Hin.
Qed.

(** One pair, one structured orphan, one raw orphan: the pair stays. *)
Lemma cleanupFiles_pairs_and_idempotent_witness :
  let f' := mkFS (Some ["2024030100.json"]) (Some ["2024030100.f000"]) (mtime mixedCache) in
  cleanupFiles mixedCache = Some f'
  /\ artifactsOnly mixedCache = true
  /\ (forall k, isKey k = true ->
        existsJson f' (jsonName k)
        = existsJson mixedCache (jsonName k) && existsGrib mixedCache (gribName k)
        /\ existsGrib f' (gribName k)
           = existsGrib mixedCache (gribName k) && existsJson mixedCache (jsonName k)
        /\ existsJson f' (jsonName k) = existsGrib f' (gribName k))
  /\ (exists f'',
        cleanupFiles f' = Some f''
        /\ forall k, isKey k = true ->
             existsJson f'' (jsonName k) = existsJson f' (jsonName k)
             /\ existsGrib f'' (gribName k) = existsGrib f' (gribName k))
  /\ (forall name, In name (listing (jsonData f')) ->
        exists k, name = jsonName k /\ In (gribName k) (listing (gribData f')))
  /\ (forall name, In name (listing (gribData f')) ->
        exists k, name = gribName k /\ In (jsonName k) (listing (jsonData f')))
  /\ cleanupFiles f' = Some f'.
Proof.
  cbv zeta. split; [reflexivity|]. split; [reflexivity|].
  destruct (cleanupFiles_pairs_and_idempotent mixedCache
              (mkFS (Some ["2024030100.json"]) (Some ["2024030100.f000"]) (mtime mixedCache))
              eq_refl) as (A & B & C).
  split; [exact A|]. split; [exact B|]. exact (C eq_refl).
Defined.

(** With file names that are not artifacts the areas are not left paired:
    a file of another kind is never touched, and a raw file that repeats the
    extension survives one run and not the next. *)
Lemma cleanupFiles_foreign_names :
  option_map jsonData
    (cleanupFiles (mkFS (Some ["README.txt"]) (Some []) (fun _ => 0)))
  = Some (Some ["README.txt"])
  /\ option_map gribData
       (cleanupFiles (mkFS (Some ["ab.f000.json"]) (Some ["a.f000b.f000"]) (fun _ => 0)))
     = Some (Some ["a.f000b.f000"])
  /\ option_map gribData
       (cleanupFiles (mkFS (Some []) (Some ["a.f000b.f000"]) (fun _ => 0)))
     = Some (Some []).
Proof. repeat split. Qed.

(** A structured artifact whose raw file is gone does not survive
    [cleanupFiles]. *)
Lemma cleanupFiles_deletes_unpaired_json (f f' : FS) (k : string) :
  isKey k = true -> existsGrib f (gribName k) = false ->
  cleanupFiles f = Some f' -> existsJson f' (jsonName k) = false.
Proof.
  intros Hk Hno Hc. destruct (cleanupFiles_key f f' k Hc Hk) as [E _].
  rewrite E, Hno. apply andb_false_r.
Qed.

(** With no raw artifact on disk, [cleanupFiles] leaves no structured one. *)
Lemma cleanupFiles_purges_steady_state (f f' : FS) :
  (forall name, In name (listing (gribData f)) -> endsWith ".f000" name = false) ->
  cleanupFiles f = Some f' ->
  forall name, In name (listing (jsonData f')) -> endsWith ".json" name = false.
Proof.
  intros Hno Hc name Hin.
  destruct (jsonData f) as [js|] eqn:Hj; [|unfold cleanupFiles in Hc; rewrite Hj in Hc; discriminate].
  destruct (gribData f) as [gs|] eqn:Hg;
    [|unfold cleanupFiles in Hc; rewrite Hj, Hg in Hc; discriminate].
  rewrite (cleanupFiles_filters f js gs Hj Hg) in Hc. injection Hc as <-.
  simpl in Hin, Hno. apply filter_In in Hin as [_ Hkeep].
  unfold keepsJson in Hkeep.
  assert (E : filter (endsWith ".f000") gs = []).
  { clear -Hno. induction gs as [|g gs IH]; [reflexivity|].
    simpl. rewrite (Hno g (or_introl eq_refl)). apply IH.
    intros n Hn. apply Hno. right. exact Hn. }
  rewrite E in Hkeep. simpl in Hkeep. rewrite orb_false_r in Hkeep.
  apply negb_true_iff in Hkeep. exact Hkeep.
Qed.

End CacheFacts.

(** ** RemoteFetcher *)

Module FetchFacts.
Import JSDate JSString TimeKey CacheFS Service FetchShape Scenarios Hosts.

(** *** An induction principle that follows the branches of [runQuery] *)

Section RunQueryInd.
Variable env : Env.
Variable P : nat -> Z -> Z -> World -> World * Outcome GribDataResponse -> Prop.

Let key (d : Z) : string := formatDateStamp (tz env) d.

Hypothesis P_fuel : forall d r w, P O d r w (w, OutOfFuel).
Hypothesis P_bound :
  forall fuel d r w,
    lookbackMs < clock w - d -> P (S fuel) d r w (w, Resolved unavailable).
Hypothesis P_retry :
  forall fuel d r w res,
    clock w - d <= lookbackMs ->
    failed (net env (requests w) (key d)) = true ->
    r < 3 ->
    P fuel d (r + 1) (setTimeout (2 ^ r * 1000) (request env (key d) d r w)) res ->
    P (S fuel) d r w res.
Hypothesis P_stepback :
  forall fuel d r w res,
    clock w - d <= lookbackMs ->
    failed (net env (requests w) (key d)) = true ->
    3 <= r ->
    P fuel (subHours d 6) 0 (request env (key d) d r w) res ->
    P (S fuel) d r w res.
Hypothesis P_download :
  forall fuel d r w,
    clock w - d <= lookbackMs ->
    net env (requests w) (key d) = Responded 200 ->
    existsJson (fs w) (key d ++ ".json") = false ->
    writeOk env (requests w) = true ->
    P (S fuel) d r w (emit (EvDownload (key d)) (download (key d) (request env (key d) d r w)),
             Resolved (mkResponse (Some (key d)) (Some d) true)).
Hypothesis P_writeError :
  forall fuel d r w,
    clock w - d <= lookbackMs ->
    net env (requests w) (key d) = Responded 200 ->
    existsJson (fs w) (key d ++ ".json") = false ->
    writeOk env (requests w) = false ->
    P (S fuel) d r w (failedDownload (request env (key d) d r w), Rejected WriteError).
Hypothesis P_cached :
  forall fuel d r w,
    clock w - d <= lookbackMs ->
    net env (requests w) (key d) = Responded 200 ->
    existsJson (fs w) (key d ++ ".json") = true ->
    P (S fuel) d r w (request env (key d) d r w,
             Resolved (mkResponse (Some (key d)) (Some d) false)).

Lemma runQuery_cases (fuel : nat) :
  forall d r w, P fuel d r w (runQuery env fuel d r w).
Proof.
  induction fuel as [|fuel IH]; intros d r w; [apply P_fuel|].
  cbn [runQuery].
  destruct (Z.gtb_spec (clock w - d) lookbackMs) as [Hb|Hb]; [apply P_bound; lia|].
  fold (key d).
  assert (Again :
    failed (net env (requests w) (key d)) = true ->
    P (S fuel) d r w (if r <? 3
             then runQuery env fuel d (r + 1)
                    (setTimeout (2 ^ r * 1000) (request env (key d) d r w))
             else runQuery env fuel (subHours d 6) 0 (request env (key d) d r w))).
  { intros Hf. destruct (Z.ltb_spec r 3) as [Hr|Hr].
    - apply P_retry; auto.
    - apply P_stepback; auto. }
  destruct (net env (requests w) (key d)) as [code|] eqn:Hnet.
  - destruct (Z.eqb_spec code 200) as [->|Hne]; cbn [negb].
    + change (fs (request env (key d) d r w)) with (fs w).
      destruct (existsJson (fs w) (key d ++ ".json")) eqn:Hex; cbn [negb].
      * apply P_cached; auto.
      * destruct (writeOk env (requests w)) eqn:Hw.
        -- apply P_download; auto.
        -- apply P_writeError; auto.
    + apply Again. simpl. apply negb_true_iff. apply Z.eqb_neq. exact Hne.
  - apply Again. reflexivity.
Qed.

End RunQueryInd.


(** *** The log of a fetch *)

Lemma app_cons_assoc (A : Type) (l : list A) (a : A) (r : list A) :
  (l ++ [a]) ++ r = l ++ a :: r.
Proof. rewrite <- app_assoc. reflexivity. Qed.

(** Every run of [runQuery] only appends to the log, and what it appends
    follows the retry discipline. *)
Lemma runQuery_discipline (env : Env) (fuel : nat) (d r : Z) (w : World) :
  exists evs,
    log (fst (runQuery env fuel d r w)) = log w ++ evs
    /\ RetryDiscipline (tz env) d r evs.
Proof.
  revert fuel d r w.
  apply (runQuery_cases env
           (fun _ d r w res => exists evs, log (fst res) = log w ++ evs
                                         /\ RetryDiscipline (tz env) d r evs)).
  - intros d r w. exists []. split; [symmetry; apply app_nil_r|constructor].
  - intros ? d r w _. exists []. split; [symmetry; apply app_nil_r|constructor].
  - intros ? d r w res _ _ Hr (evs & E & S).
    exists (EvRequest (formatDateStamp (tz env) d) d r (clock w)
              :: EvTimeout (2 ^ r * 1000) :: evs).
    split; [|apply rd_retry; assumption].
    rewrite E. cbn [setTimeout request elapse emit countRequest log].
    rewrite !app_cons_assoc. reflexivity.
  - intros ? d r w res _ _ Hr (evs & E & S).
    exists (EvRequest (formatDateStamp (tz env) d) d r (clock w) :: evs).
    split; [|apply rd_stepback; assumption].
    rewrite E. cbn [request elapse emit countRequest log].
    rewrite app_cons_assoc. reflexivity.
  - intros ? d r w _ _ _ _.
    exists [EvRequest (formatDateStamp (tz env) d) d r (clock w);
            EvDownload (formatDateStamp (tz env) d)].
    split; [|constructor].
    cbn [fst download failedDownload request elapse emit countRequest setFS log].
    rewrite app_cons_assoc. reflexivity.
  - intros ? d r w _ _ _ _.
    exists [EvRequest (formatDateStamp (tz env) d) d r (clock w)].
    split; [reflexivity|constructor].
  - intros ? d r w _ _ _.
    exists [EvRequest (formatDateStamp (tz env) d) d r (clock w)].
    split; [reflexivity|constructor].
Qed.

Lemma world_ext (w1 w2 : World) :
  clock w1 = clock w2 -> fs w1 = fs w2 -> requests w1 = requests w2 ->
  conversions w1 = conversions w2 -> log w1 = log w2 -> w1 = w2.
Proof. destruct w1, w2; simpl; intros; subst; reflexivity. Qed.

(** One retry, or the step back, unfolded. *)
Lemma runQuery_failed_step (env : Env) (fuel : nat) (d r : Z) (w : World) :
  clock w - d <= lookbackMs ->
  failed (net env (requests w) (formatDateStamp (tz env) d)) = true ->
  runQuery env (S fuel) d r w
  = if r <? 3
    then runQuery env fuel d (r + 1)
           (setTimeout (2 ^ r * 1000) (request env (formatDateStamp (tz env) d) d r w))
    else runQuery env fuel (subHours d 6) 0 (request env (formatDateStamp (tz env) d) d r w).
Proof.
  intros Hb Hf. cbn [runQuery].
  destruct (Z.gtb_spec (clock w - d) lookbackMs) as [Hgt|_]; [lia|].
  destruct (net env (requests w) (formatDateStamp (tz env) d)) as [code|]; [|reflexivity].
  simpl in Hf. rewrite Hf. reflexivity.
Qed.

(** C1.  What a fetch appends to the log follows the retry discipline: a
    key is retried while fewer than three retries were made, after a wait of
    [2^retryCount] seconds, and otherwise the fetch goes on at the date six
    hours before with a fresh retry count.  When the four requests for the
    key of a date all fail, the fetch made exactly three retries of that
    key, after waits of 1000, 2000 and 4000 ms, and then is the whole of
    [runQuery] (lookback bound, request, cache check) at the date six hours
    before. *)
Theorem fetch_retries_then_steps_back (env : Env) (fuel : nat) (d : Z) (w : World) :
  (exists evs,
      log (fst (runQuery env fuel d 0 w)) = log w ++ evs
      /\ RetryDiscipline (tz env) d 0 evs)
  /\ (let key := formatDateStamp (tz env) d in
      let n := requests w in
      let l0 := latency env n in
      let l1 := latency env (S n) in
      let l2 := latency env (S (S n)) in
      let l3 := latency env (S (S (S n))) in
      0 <= l0 -> 0 <= l1 -> 0 <= l2 ->
      clock w + l0 + 1000 + l1 + 2000 + l2 + 4000 - d <= lookbackMs ->
      failed (net env n key) = true ->
      failed (net env (S n) key) = true ->
      failed (net env (S (S n)) key) = true ->
      failed (net env (S (S (S n))) key) = true ->
      runQuery env (4 + fuel) d 0 w
      = runQuery env fuel (d - stepMs) 0
          (mkWorld (clock w + l0 + 1000 + l1 + 2000 + l2 + 4000 + l3) (fs w)
                   (4 + n) (conversions w)
                   (log w ++ failedKeyEvents (tz env) d (clock w) l0 l1 l2))).
Proof.
  split; [apply runQuery_discipline|].
  intros key n l0 l1 l2 l3 H0 H1 H2 Hb F0 F1 F2 F3.
  change (4 + fuel)%nat with (S (S (S (S fuel)))).
  rewrite runQuery_failed_step by (try assumption; lia).
  change (0 <? 3) with true. cbv iota.
  rewrite runQuery_failed_step
    by (cbn [setTimeout request elapse emit countRequest clock requests];
        try assumption; fold n l0; lia).
  change (0 + 1 <? 3) with true. cbv iota.
  rewrite runQuery_failed_step
    by (cbn [setTimeout request elapse emit countRequest clock requests];
        try assumption; fold n l0 l1; lia).
  change (0 + 1 + 1 <? 3) with true. cbv iota.
  rewrite runQuery_failed_step
    by (cbn [setTimeout request elapse emit countRequest clock requests];
        try assumption; fold n l0 l1 l2; lia).
  change (0 + 1 + 1 + 1 <? 3) with false. cbv iota.
  f_equal. apply world_ext;
    cbn [setTimeout request elapse emit countRequest clock requests fs conversions log];
    fold n l0 l1 l2 l3 key; try reflexivity.
  unfold failedKeyEvents. fold key. rewrite <- !app_assoc. reflexivity.
Qed.


(** The provider has 2024030100 only; at 2024-03-01T13:00Z the key
    2024030106 fails four times and the fetch goes on at 2024030100. *)
Lemma fetch_retries_then_steps_back_witness :
  let env := providerWith ["2024030100"%string] in
  let d := 1709272800000 in
  let w := coldStart in
  (0 <= latency env 0 /\ 0 <= latency env 1 /\ 0 <= latency env 2)
  /\ clock w + latency env 0 + 1000 + latency env 1 + 2000 + latency env 2 + 4000 - d
     <= lookbackMs
  /\ (failed (net env 0 "2024030106") = true /\ failed (net env 1 "2024030106") = true
      /\ failed (net env 2 "2024030106") = true /\ failed (net env 3 "2024030106") = true)
  /\ (exists evs,
         log (fst (runQuery env 10 d 0 w)) = log w ++ evs
         /\ RetryDiscipline (tz env) d 0 evs)
  /\ runQuery env (4 + 10) d 0 w
     = runQuery env 10 (d - stepMs) 0
         (mkWorld (clock w + 150 + 1000 + 150 + 2000 + 150 + 4000 + 150) (fs w) 4
                  (conversions w)
                  (log w ++ failedKeyEvents 0 d (clock w) 150 150 150)).
Proof.
  cbv zeta.
  split; [repeat split; discriminate|].
  split; [vm_compute; discriminate|].
  split; [repeat split|].
  destruct (fetch_retries_then_steps_back (providerWith ["2024030100"%string]) 10
              1709272800000 coldStart) as [A B].
  split; [exact A|].
  apply B; try reflexivity; vm_compute; discriminate.
Defined.

(** Under the retry discipline from retry count 0, the waits are 1, 2 and
    4 seconds. *)
Lemma discipline_timeouts (tz d r : Z) (evs : list Event) :
  RetryDiscipline tz d r evs -> 0 <= r ->
  forall x, In x (timeouts evs) -> exists k, 0 <= k < 3 /\ x = 2 ^ k * 1000.
Proof.
  induction 1 as [d r|d r now|d r now|d r now rest Hr S IH|d r now rest Hr S IH];
    intros H0 x Hx; cbn [timeouts flat_map app In] in Hx; try contradiction.
  - fold (timeouts rest) in Hx. destruct Hx as [<-|Hx].
    + exists r. split; [lia|reflexivity].
    + exact (IH ltac:(lia) x Hx).
  - fold (timeouts rest) in Hx. exact (IH ltac:(lia) x Hx).
Qed.

Lemma fetch_timeouts (env : Env) (fuel : nat) (d : Z) (w : World) (evs : list Event) :
  log (fst (runQuery env fuel d 0 w)) = log w ++ evs ->
  forall x, In x (timeouts evs) -> x = 1000 \/ x = 2000 \/ x = 4000.
Proof.
  intros E x Hx.
  destruct (runQuery_discipline env fuel d 0 w) as (evs' & E' & S).
  rewrite E in E'. apply app_inv_head in E'. subst evs'.
  destruct (discipline_timeouts _ _ _ _ S ltac:(lia) x Hx) as (k & Hk & ->).
  assert (k = 0 \/ k = 1 \/ k = 2) as [->|[->| ->]] by lia; auto.
Qed.

Lemma countDate_cons (d' d : Z) (l : list Z) :
  countDate d' (d :: l) = if d' =? d then S (countDate d' l) else countDate d' l.
Proof. unfold countDate. cbn [filter]. destruct (d' =? d); reflexivity. Qed.

(** Under the retry discipline, a date gets at most [4 - retryCount]
    requests when it is the current one, at most four when it is older, and
    none when it is younger. *)
Lemma discipline_requests (tz d r : Z) (evs : list Event) :
  RetryDiscipline tz d r evs -> 0 <= r <= 3 ->
  forall d',
    (Z.of_nat (countDate d' (requestDates evs))
     <= if d' =? d then 4 - r else if d' <? d then 4 else 0).
Proof.
  induction 1 as [d r|d r now|d r now|d r now rest Hr S IH|d r now rest Hr S IH];
    intros H0 d';
    repeat match goal with
      | |- context [requestDates (EvRequest ?s ?x ?y ?z :: ?l)] =>
          change (requestDates (EvRequest s x y z :: l)) with (x :: requestDates l)
      | |- context [requestDates (EvTimeout ?x :: ?l)] =>
          change (requestDates (EvTimeout x :: l)) with (requestDates l)
      | |- context [requestDates [EvDownload ?x]] =>
          change (requestDates [EvDownload x]) with (@nil Z)
      end;
    change (requestDates (@nil Event)) with (@nil Z);
    rewrite ?countDate_cons; change (countDate d' []) with O.
  - destruct (d' =? d); [lia|]. destruct (d' <? d); lia.
  - destruct (Z.eqb_spec d' d); [lia|]. destruct (d' <? d); lia.
  - destruct (Z.eqb_spec d' d); [lia|]. destruct (d' <? d); lia.
  - specialize (IH ltac:(lia) d').
    destruct (Z.eqb_spec d' d); [lia|exact IH].
  - specialize (IH ltac:(lia) d'). unfold stepMs, msPerHour in *.
    destruct (Z.eqb_spec d' d) as [->|Hne].
    + destruct (Z.eqb_spec d (d - 6 * 3600000)); [lia|].
      destruct (Z.ltb_spec d (d - 6 * 3600000)); lia.
    + destruct (Z.eqb_spec d' (d - 6 * 3600000)); [destruct (Z.ltb_spec d' d); lia|].
      destruct (Z.ltb_spec d' (d - 6 * 3600000)); destruct (Z.ltb_spec d' d); lia.
Qed.

(** No date is requested more than four times in a fetch: once, and three
    retries. *)
Lemma fetch_requests_per_date (env : Env) (fuel : nat) (d : Z) (w : World) (evs : list Event) :
  log (fst (runQuery env fuel d 0 w)) = log w ++ evs ->
  forall d', (countDate d' (requestDates evs) <= 4)%nat.
Proof.
  intros E d'.
  destruct (runQuery_discipline env fuel d 0 w) as (evs' & E' & S).
  rewrite E in E'. apply app_inv_head in E'. subst evs'.
  pose proof (discipline_requests _ _ _ _ S ltac:(lia) d') as H.
  destruct (d' =? d); [lia|]. destruct (d' <? d); lia.
Qed.

(** *** The lookback bound *)

Lemma runQuery_within_lookback (env : Env) (fuel : nat) (d r : Z) (w : World) :
  exists evs,
    log (fst (runQuery env fuel d r w)) = log w ++ evs
    /\ Forall withinLookback evs
    /\ Forall (keyOfItsDate (tz env)) evs.
Proof.
  revert fuel d r w.
  apply (runQuery_cases env
           (fun _ d r w res => exists evs, log (fst res) = log w ++ evs
                                         /\ Forall withinLookback evs
                                         /\ Forall (keyOfItsDate (tz env)) evs)).
  - intros d r w. exists []. split; [symmetry; apply app_nil_r|split; constructor].
  - intros ? d r w _. exists []. split; [symmetry; apply app_nil_r|split; constructor].
  - intros ? d r w res Hb _ Hr (evs & E & F & K).
    exists (EvRequest (formatDateStamp (tz env) d) d r (clock w)
              :: EvTimeout (2 ^ r * 1000) :: evs).
    split.
    + rewrite E. cbn [setTimeout request elapse emit countRequest log].
      rewrite !app_cons_assoc. reflexivity.
    + split; repeat constructor; simpl; auto.
  - intros ? d r w res Hb _ Hr (evs & E & F & K).
    exists (EvRequest (formatDateStamp (tz env) d) d r (clock w) :: evs).
    split.
    + rewrite E. cbn [request elapse emit countRequest log].
      rewrite app_cons_assoc. reflexivity.
    + split; constructor; simpl; auto.
  - intros ? d r w Hb _ _ _.
    exists [EvRequest (formatDateStamp (tz env) d) d r (clock w);
            EvDownload (formatDateStamp (tz env) d)].
    split.
    + cbn [fst download failedDownload request elapse emit countRequest setFS log].
      rewrite app_cons_assoc. reflexivity.
    + split; repeat constructor; simpl; auto.
  - intros ? d r w Hb _ _ _.
    exists [EvRequest (formatDateStamp (tz env) d) d r (clock w)].
    split; [reflexivity|split; repeat constructor; simpl; auto].
  - intros ? d r w Hb _ _.
    exists [EvRequest (formatDateStamp (tz env) d) d r (clock w)].
    split; [reflexivity|split; repeat constructor; simpl; auto].
Qed.

Lemma truncate_within_step (d : Z) : d - stepMs < truncate d 6 <= d.
Proof.
  rewrite TimeKeyFacts.truncate_grid.
  pose proof (CalendarFacts.hour_of_day d) as H.
  pose proof (TimeKeyFacts.roundedHours_range d) as (Hr & _ & _).
  unfold roundedHours, getUTCHours, stepMs, msPerHour in *.
  pose proof (Z.div_mod (HourFromTime d) 6 ltac:(lia)) as H1.
  pose proof (Z.mod_pos_bound (HourFromTime d) 6 ltac:(lia)) as H2.
  lia.
Qed.

Lemma withinLookback_grid (e : Event) : withinLookback e -> gridWithinLookback e.
Proof.
  destruct e as [s d r now| | | | |]; cbn [withinLookback gridWithinLookback]; auto.
  intros H. pose proof (truncate_within_step d). lia.
Qed.

(** On a host in UTC the key of a date reads back as the grid point of
    that date. *)
Lemma key_within_lookback (tz : Z) (e : Event) :
  withinLookback e -> keyOfItsDate tz e -> keyWithinLookback tz e.
Proof.
  destruct e as [s d r now| | | | |];
    cbn [withinLookback keyOfItsDate keyWithinLookback]; auto.
  intros H -> -> Hy.
  destruct (TimeKeyFacts.stampToDate_formatDateStamp 0 d Hy) as [_ E].
  rewrite TimeKeyFacts.LocalTime_utc, <- TimeKeyFacts.truncate_grid in E.
  exists (truncate d 6). split; [exact E|].
  pose proof (truncate_within_step d). lia.
Qed.

(** C2 (as amended).  A fetch never issues a request for a date
    ([currentDate], the time the key is derived from) that is more than ten
    days before the time of the request, so that the 6-hour grid point of
    that date is less than ten days and six hours before it; every request
    carries the key of its date, and on a host in UTC (dates with a
    four-digit year) the grid time read back from the requested key is that
    grid point, less than ten days and six hours before the request; and
    whenever the date is more than ten days before now, the fetch ends at
    once with the unavailable outcome, the world untouched. *)
Theorem fetch_within_lookback (env : Env) (fuel : nat) (target : Z) (w : World) :
  (exists evs,
      log (fst (getGribData env fuel target w)) = log w ++ evs
      /\ Forall withinLookback evs
      /\ Forall gridWithinLookback evs
      /\ Forall (keyOfItsDate (tz env)) evs
      /\ Forall (keyWithinLookback (tz env)) evs)
  /\ (forall d r, lookbackMs < clock w - d ->
        runQuery env (S fuel) d r w = (w, Resolved unavailable)).
Proof.
  split.
  - unfold getGribData.
    destruct (runQuery_within_lookback env fuel
                (if target >? getLatestAvailableTimestamp (tz env) (clock w)
                 then getLatestAvailableTimestamp (tz env) (clock w) else target) 0 w)
      as (evs & E & F & K).
    exists evs. split; [exact E|]. split; [exact F|].
    split; [apply (Forall_impl _ withinLookback_grid F)|].
    split; [exact K|].
    clear E. induction evs as [|e evs IH]; [constructor|].
    inversion F; inversion K; subst.
    constructor; [apply key_within_lookback; assumption|apply IH; assumption].
  - intros d r H. cbn [runQuery].
    destruct (Z.gtb_spec (clock w - d) lookbackMs); [reflexivity|lia].
Qed.


(** *** Termination *)

Lemma keysLeft_nonneg (a : Z) : 0 <= keysLeft a.
Proof.
  unfold keysLeft, lookbackMs, stepMs, msPerDay, msPerHour.
  destruct (Z.gtb_spec a (10 * 86400000)); [lia|].
  assert (0 <= (10 * 86400000 - a) / (6 * 3600000)) by (apply Z.div_pos; lia). lia.
Qed.

Lemma keysLeft_pos (a : Z) : a <= lookbackMs -> 1 <= keysLeft a.
Proof.
  unfold keysLeft, lookbackMs, stepMs, msPerDay, msPerHour. intros H.
  destruct (Z.gtb_spec a (10 * 86400000)); [lia|].
  assert (0 <= (10 * 86400000 - a) / (6 * 3600000)) by (apply Z.div_pos; lia). lia.
Qed.

Lemma keysLeft_mono (a b : Z) : a <= b -> keysLeft b <= keysLeft a.
Proof.
  intros H. pose proof (keysLeft_nonneg a) as Ha. revert Ha.
  unfold keysLeft, lookbackMs, stepMs, msPerDay, msPerHour.
  destruct (Z.gtb_spec b (10 * 86400000)); [lia|].
  destruct (Z.gtb_spec a (10 * 86400000)); [lia|]. intros _.
  assert ((10 * 86400000 - b) / (6 * 3600000) <= (10 * 86400000 - a) / (6 * 3600000))
    by (apply Z.div_le_mono; lia).
  lia.
Qed.

Lemma keysLeft_step (a b : Z) :
  a <= lookbackMs -> a + stepMs <= b -> keysLeft b <= keysLeft a - 1.
Proof.
  intros Ha H. pose proof (keysLeft_pos a Ha) as Hp. revert Hp.
  unfold keysLeft, lookbackMs, stepMs, msPerDay, msPerHour in *.
  destruct (Z.gtb_spec b (10 * 86400000)); [lia|].
  destruct (Z.gtb_spec a (10 * 86400000)); [lia|]. intros _.
  assert (D : (10 * 86400000 - b) / (6 * 3600000)
              <= (10 * 86400000 - a + (-1) * (6 * 3600000)) / (6 * 3600000))
    by (apply Z.div_le_mono; lia).
  rewrite Z.div_add in D by lia.
  lia.
Qed.

Lemma keysLeft_recent (a : Z) : stepMs <= a -> keysLeft a <= 40.
Proof.
  intros H. pose proof (keysLeft_mono _ _ H) as M.
  assert (keysLeft stepMs = 40) by (vm_compute; reflexivity). lia.
Qed.

(** With a clock that does not run backwards, [runQuery] settles within
    four requests per key that is left, and one more step. *)
Lemma runQuery_terminates (env : Env) :
  (forall n, 0 <= latency env n) ->
  forall fuel d r w,
    0 <= r <= 3 ->
    (0 < fuel)%nat ->
    4 * keysLeft (clock w - d) - r < Z.of_nat fuel ->
    snd (runQuery env fuel d r w) <> OutOfFuel.
Proof.
  intros Hlat fuel.
  apply (runQuery_cases env
           (fun fuel d r w res =>
              0 <= r <= 3 -> (0 < fuel)%nat ->
              4 * keysLeft (clock w - d) - r < Z.of_nat fuel ->
              snd res <> OutOfFuel)).
  - intros d r w _ H. lia.
  - intros; discriminate.
  - intros f d r w res Hb _ Hr IH H0 _ Hm.
    pose proof (keysLeft_pos _ Hb) as Hp.
    assert (R : 0 <= 2 ^ r * 1000) by (apply Z.mul_nonneg_nonneg; [apply Z.pow_nonneg|]; lia).
    pose proof (Hlat (requests w)) as Hl.
    apply IH; [lia|lia|].
    cbn [setTimeout request elapse emit countRequest clock].
    pose proof (keysLeft_mono (clock w - d)
                  (clock w + latency env (requests w) + 2 ^ r * 1000 - d) ltac:(lia)).
    lia.
  - intros f d r w res Hb _ Hr IH H0 _ Hm.
    pose proof (keysLeft_pos _ Hb) as Hp.
    pose proof (Hlat (requests w)) as Hl.
    apply IH; [lia|lia|].
    cbn [request elapse emit countRequest clock]. unfold subHours.
    pose proof (keysLeft_step (clock w - d)
                  (clock w + latency env (requests w) - (d - 6 * msPerHour)) Hb
                  ltac:(unfold stepMs; lia)).
    lia.
  - intros; discriminate.
  - intros; discriminate.
  - intros; discriminate.
Qed.

(** [getLatestAvailableTimestamp] is at least six hours behind the clock. *)
Lemma latestAvailable_behind (tz now : Z) :
  - msPerDay <= now + tz * msPerMinute ->
  getLatestAvailableTimestamp tz now <= now - stepMs.
Proof.
  intros H.
  unfold getLatestAvailableTimestamp, newDate, getFullYear, getMonth, getDate, getHours.
  pose proof (CalendarFacts.year_after_epoch (LocalTime tz now) H) as Hy.
  assert (E : (0 <=? getUTCFullYear (LocalTime tz now))
              && (getUTCFullYear (LocalTime tz now) <=? 99) = false).
  { apply andb_false_iff. right. apply Z.leb_gt. lia. }
  cbv zeta. rewrite E. rewrite CalendarFacts.DateUTC_of_fields.
  pose proof (CalendarFacts.hour_of_day (LocalTime tz now)) as Hd.
  pose proof (CalendarFacts.HourFromTime_range (LocalTime tz now)) as Hr.
  unfold getUTCHours, subHours, stepMs, LocalTime, msPerHour in *.
  pose proof (Z.div_mod (HourFromTime (now + tz * msPerMinute)) 6 ltac:(lia)) as H1.
  pose proof (Z.mod_pos_bound (HourFromTime (now + tz * msPerMinute)) 6 ltac:(lia)) as H2.
  lia.
Qed.

(** [getGribData] settles within 161 steps. *)
Lemma getGribData_terminates (env : Env) (fuel : nat) (target : Z) (w : World) :
  (forall n, 0 <= latency env n) ->
  - msPerDay <= clock w + tz env * msPerMinute ->
  (161 <= fuel)%nat ->
  snd (getGribData env fuel target w) <> OutOfFuel.
Proof.
  intros Hlat Hc Hf. unfold getGribData.
  pose proof (latestAvailable_behind (tz env) (clock w) Hc) as Hl.
  apply runQuery_terminates; [exact Hlat|lia|lia|].
  set (t := if target >? getLatestAvailableTimestamp (tz env) (clock w)
            then getLatestAvailableTimestamp (tz env) (clock w) else target).
  assert (Ht : t <= clock w - stepMs).
  { unfold t. destruct (Z.gtb_spec target (getLatestAvailableTimestamp (tz env) (clock w))); lia. }
  pose proof (keysLeft_recent (clock w - t) ltac:(lia)). lia.
Qed.

(** *** What a fetch leaves alone *)

(** A fetch does not turn the clock back. *)
Lemma runQuery_clock (env : Env) (fuel : nat) (d r : Z) (w : World) :
  (forall n, 0 <= latency env n) -> 0 <= r ->
  clock w <= clock (fst (runQuery env fuel d r w)).
Proof.
  intros Hlat. revert fuel d r w.
  apply (runQuery_cases env
           (fun _ d r w res => 0 <= r -> clock w <= clock (fst res))).
  - intros; simpl; lia.
  - intros; simpl; lia.
  - intros f d r w res _ _ Hr IH H0. specialize (IH ltac:(lia)).
    assert (R : 0 <= 2 ^ r * 1000) by (apply Z.mul_nonneg_nonneg; [apply Z.pow_nonneg|]; lia).
    pose proof (Hlat (requests w)).
    cbn [setTimeout request elapse emit countRequest clock] in IH. lia.
  - intros f d r w res _ _ Hr IH H0. specialize (IH ltac:(lia)).
    pose proof (Hlat (requests w)).
    cbn [request elapse emit countRequest clock] in IH. lia.
  - intros f d r w _ _ _ _ _. pose proof (Hlat (requests w)).
    cbn [fst download failedDownload request elapse emit countRequest setFS clock]. lia.
  - intros f d r w _ _ _ _ _. pose proof (Hlat (requests w)).
    cbn [fst download failedDownload request elapse emit countRequest setFS clock]. lia.
  - intros f d r w _ _ _ _. pose proof (Hlat (requests w)).
    cbn [fst request elapse emit countRequest clock]. lia.
Qed.

Lemma nearestEntries_app (l1 l2 : list Event) :
  nearestEntries (l1 ++ l2) = nearestEntries l1 ++ nearestEntries l2.
Proof. apply flat_map_app. Qed.

Lemma converted_app (l1 l2 : list Event) :
  converted (l1 ++ l2) = converted l1 ++ converted l2.
Proof. apply flat_map_app. Qed.

(** A fetch does not run the converter, does not touch the structured area,
    and logs no call of the resolver and no conversion. *)
Lemma runQuery_frame (env : Env) (fuel : nat) (d r : Z) (w : World) :
  let w' := fst (runQuery env fuel d r w) in
  conversions w' = conversions w
  /\ jsonData (fs w') = jsonData (fs w)
  /\ mtime (fs w') = mtime (fs w)
  /\ nearestEntries (log w') = nearestEntries (log w)
  /\ converted (log w') = converted (log w).
Proof.
  revert fuel d r w.
  apply (runQuery_cases env
           (fun _ d r w res =>
              conversions (fst res) = conversions w
              /\ jsonData (fs (fst res)) = jsonData (fs w)
              /\ mtime (fs (fst res)) = mtime (fs w)
              /\ nearestEntries (log (fst res)) = nearestEntries (log w)
              /\ converted (log (fst res)) = converted (log w))).
  - intros; simpl; repeat split.
  - intros; simpl; repeat split.
  - intros f d r w res _ _ _ (N & J & M & L & V).
    cbn [setTimeout request elapse emit countRequest conversions fs log] in *.
    rewrite !nearestEntries_app, !converted_app in *.
    cbn [nearestEntries converted flat_map app] in *. rewrite !app_nil_r in *.
    repeat split; assumption.
  - intros f d r w res _ _ _ (N & J & M & L & V).
    cbn [request elapse emit countRequest conversions fs log] in *.
    rewrite !nearestEntries_app, !converted_app in *.
    cbn [nearestEntries converted flat_map app] in *. rewrite !app_nil_r in *.
    repeat split; assumption.
  - intros f d r w _ _ _ _.
    cbn [fst download failedDownload request elapse emit countRequest setFS conversions fs log
         writeGrib mkdirGrib jsonData mtime].
    rewrite !nearestEntries_app, !converted_app.
    cbn [nearestEntries converted flat_map app]. rewrite !app_nil_r.
    repeat split.
  - intros f d r w _ _ _ _.
    cbn [fst download failedDownload request elapse emit countRequest setFS conversions fs log
         writeGrib mkdirGrib jsonData mtime].
    rewrite !nearestEntries_app, !converted_app.
    cbn [nearestEntries converted flat_map app]. rewrite !app_nil_r.
    repeat split.
  - intros f d r w _ _ _.
    cbn [fst request elapse emit countRequest conversions fs log].
    rewrite !nearestEntries_app, !converted_app.
    cbn [nearestEntries converted flat_map app]. rewrite !app_nil_r.
    repeat split.
Qed.

(** While the provider answers no request with a 200, a fetch that settles
    is unavailable, and both cache areas stay as they were. *)
Lemma runQuery_provider_down (env : Env) (fuel : nat) (d r : Z) (w : World) :
  (forall n s, failed (net env n s) = true) ->
  let res := runQuery env fuel d r w in
  (snd res = OutOfFuel \/ snd res = Resolved unavailable) /\ fs (fst res) = fs w.
Proof.
  intros Hdown. revert fuel d r w.
  apply (runQuery_cases env
           (fun _ d r w res =>
              (snd res = OutOfFuel \/ snd res = Resolved unavailable)
              /\ fs (fst res) = fs w)).
  - intros; simpl; auto.
  - intros; simpl; auto.
  - intros f d r w res _ _ _ IH. exact IH.
  - intros f d r w res _ _ _ IH. exact IH.
  - intros f d r w _ Hn. specialize (Hdown (requests w) (formatDateStamp (tz env) d)).
    rewrite Hn in Hdown. discriminate.
  - intros f d r w _ Hn. specialize (Hdown (requests w) (formatDateStamp (tz env) d)).
    rewrite Hn in Hdown. discriminate.
  - intros f d r w _ Hn. specialize (Hdown (requests w) (formatDateStamp (tz env) d)).
    rewrite Hn in Hdown. discriminate.
Qed.


(** Ten days and one hour after the date, the fetch ends at once; the
    host is in UTC and the date requested has a four-digit year. *)
Lemma fetch_within_lookback_witness :
  lookbackMs < clock tenDaysLater - 1709265600000
  /\ tz (providerWith ["2024030100"%string]) = 0
  /\ 1 <= getFullYear 0 1709272740000 <= 9999
  /\ log (fst (getGribData (providerWith ["2024030100"%string]) 10 1709272740000
                 tenDaysLater))
     = [EvRequest "2024030100" 1709272740000 0 1710133200000; EvDownload "2024030100"]
  /\ (exists evs,
         log (fst (getGribData (providerWith ["2024030100"%string]) 10 1709272740000
                     tenDaysLater))
         = log tenDaysLater ++ evs
         /\ Forall withinLookback evs
         /\ Forall gridWithinLookback evs
         /\ Forall (keyOfItsDate (tz (providerWith ["2024030100"%string]))) evs
         /\ Forall (keyWithinLookback (tz (providerWith ["2024030100"%string]))) evs)
  /\ runQuery (providerWith ["2024030100"%string]) 11 1709265600000 0 tenDaysLater
     = (tenDaysLater, Resolved unavailable).
Proof.
  split; [vm_compute; reflexivity|].
  split; [reflexivity|].
  split; [vm_compute; split; discriminate|].
  split; [vm_compute; reflexivity|].
  destruct (fetch_within_lookback (providerWith ["2024030100"%string]) 10 1709272740000
              tenDaysLater) as [A B].
  split; [exact A|].
  apply (B 1709265600000 0). vm_compute. reflexivity.
Defined.

(** Off UTC the key is not the key of the grid point (it joins the local
    day to the UTC hour slot), and its grid time can be further back: ten
    hours west of UTC, at 2024-03-11T05:00Z, a fetch for 2024-03-01T05:00Z
    requests the key 2024022900, which reads back as 2024-02-29T00:00Z, 11
    days and 5 hours before the request. *)
Lemma fetch_key_older_off_utc :
  let res := getGribData (farWest ["2024022900"%string]) 10 1709269200000 tenDaysLater in
  log (fst res)
  = [EvRequest "2024022900" 1709269200000 0 1710133200000; EvDownload "2024022900"]
  /\ stampToDate "2024022900" = Some 1709164800000
  /\ 1710133200000 - 1709164800000 = 968400000
  /\ lookbackMs + stepMs = 885600000.
Proof. vm_compute. repeat split; reflexivity. Qed.

Lemma fetch_requests_key_older_than_lookback :
  let res := getGribData (providerWith ["2024030100"%string]) 10 1709272740000 tenDaysLater in
  log (fst res)
  = [EvRequest "2024030100" 1709272740000 0 1710133200000; EvDownload "2024030100"]
  /\ snd res = Resolved (mkResponse (Some "2024030100"%string) (Some 1709272740000) true)
  /\ stampToDate "2024030100" = Some 1709251200000
  /\ 1710133200000 - 1709251200000 > lookbackMs.
Proof. vm_compute. repeat split. Qed.

End FetchFacts.

(** ** ConversionInvoker *)

Module ConvertFacts.
Import JSDate JSString TimeKey CacheFS Service FetchShape ConvertShape Scenarios.
Import CacheFacts FetchFacts.
Local Open Scope string_scope.

(** *** Files after a write, an unlink, a mkdir *)

Lemma includes_app (l : list string) (n x : string) :
  includes (l ++ [n]) x = includes l x || String.eqb x n.
Proof.
  unfold includes. rewrite existsb_app. simpl. rewrite orb_false_r. reflexivity.
Qed.

Lemma dirHas_mkdir (dir : option (list string)) (x : string) :
  dirHas (mkdir dir) x = dirHas dir x.
Proof. destruct dir; reflexivity. Qed.

Lemma dirHas_addFile (n : string) (dir : option (list string)) (x : string) :
  dirHas (addFile n (mkdir dir)) x = String.eqb x n || dirHas dir x.
Proof.
  destruct dir as [l|]; simpl.
  - destruct (includes l n) eqn:E.
    + destruct (String.eqb_spec x n) as [->|]; [rewrite E|]; reflexivity.
    + rewrite includes_app. apply orb_comm.
  - rewrite orb_false_r. reflexivity.
Qed.

Lemma dirHas_addFile_some (n : string) (dir : option (list string)) (x : string) :
  dir <> None -> dirHas (addFile n dir) x = String.eqb x n || dirHas dir x.
Proof.
  intros H. rewrite <- (dirHas_addFile n dir x).
  destruct dir; [reflexivity|contradiction].
Qed.

Lemma dirHas_removeFile (n : string) (dir : option (list string)) (x : string) :
  dirHas (removeFile n dir) x = negb (String.eqb x n) && dirHas dir x.
Proof.
  destruct dir as [l|]; simpl; [|apply eq_sym, andb_false_r].
  rewrite includes_filter. apply andb_comm.
Qed.

Lemma mkdir_some (dir : option (list string)) : mkdir dir <> None.
Proof. destruct dir; discriminate. Qed.

Lemma addFile_some (n : string) (dir : option (list string)) :
  dir <> None -> addFile n dir <> None.
Proof. destruct dir; [discriminate|auto]. Qed.

Lemma removeFile_some (n : string) (dir : option (list string)) :
  dir <> None -> removeFile n dir <> None.
Proof. destruct dir; [discriminate|auto]. Qed.

Lemma dirHas_some (dir : option (list string)) (x : string) :
  dirHas dir x = true -> dir <> None.
Proof. destruct dir; [discriminate|intros H; discriminate H]. Qed.

Lemma append_length (a b : string) :
  String.length (a ++ b) = (String.length a + String.length b)%nat.
Proof. induction a as [|c a IH]; simpl; [reflexivity|]. rewrite IH. reflexivity. Qed.

(** Two keys with the same file name are the same key. *)
Lemma append_cancel_r (a b p : string) : a ++ p = b ++ p -> a = b.
Proof.
  revert b. induction a as [|c a IH]; intros [|c' b] H; simpl in H.
  - reflexivity.
  - apply (f_equal String.length) in H. simpl in H. rewrite append_length in H. lia.
  - apply (f_equal String.length) in H. simpl in H. rewrite append_length in H. lia.
  - injection H as -> H. f_equal. apply IH. exact H.
Qed.


(** *** A converted key stays converted *)

Lemma runQuery_keeps_converted (env : Env) (k : string) (fuel : nat) (d r : Z) (w : World) :
  convertedOnly k (fs w) -> convertedOnly k (fs (fst (runQuery env fuel d r w))).
Proof.
  revert fuel d r w.
  apply (runQuery_cases env
           (fun _ d r w res => convertedOnly k (fs w) -> convertedOnly k (fs (fst res)))).
  - intros; assumption.
  - intros; assumption.
  - intros f d r w res _ _ _ IH H. apply IH. exact H.
  - intros f d r w res _ _ _ IH H. apply IH. exact H.
  - intros f d r w _ _ Hex _ (Hj & Hg & Hs).
    cbn [fst download failedDownload request elapse emit countRequest setFS fs].
    unfold convertedOnly, existsJson, existsGrib in *.
    cbn [writeGrib mkdirGrib jsonData gribData].
    split; [exact Hj|]. split; [|apply addFile_some, mkdir_some].
    rewrite dirHas_addFile, Hg, orb_false_r.
    apply String.eqb_neq. intros E. apply append_cancel_r in E. subst k.
    unfold jsonName in Hj. congruence.
  - intros f d r w _ _ Hex _ (Hj & Hg & Hs).
    cbn [fst download failedDownload request elapse emit countRequest setFS fs].
    unfold convertedOnly, existsJson, existsGrib in *.
    cbn [writeGrib mkdirGrib jsonData gribData].
    split; [exact Hj|]. split; [|apply mkdir_some].
    rewrite dirHas_mkdir. exact Hg.
  - intros; assumption.
Qed.

Lemma getGribData_keeps_converted (env : Env) (k : string) (fuel : nat) (t : Z) (w : World) :
  convertedOnly k (fs w) -> convertedOnly k (fs (fst (getGribData env fuel t w))).
Proof. unfold getGribData. apply runQuery_keeps_converted. Qed.

Lemma mkdirJson_keeps_converted (k : string) (f : FS) :
  convertedOnly k f -> convertedOnly k (mkdirJson f).
Proof.
  unfold convertedOnly, existsJson, existsGrib. cbn [mkdirJson jsonData gribData].
  rewrite dirHas_mkdir. auto.
Qed.

Lemma converter_step_keeps_converted (k s : string) (now : Z) (f : FS) :
  convertedOnly k f ->
  convertedOnly k (unlinkGrib (s ++ ".f000") (writeJson (s ++ ".json") now f)).
Proof.
  unfold convertedOnly, existsJson, existsGrib.
  cbn [unlinkGrib writeJson jsonData gribData]. intros (Hj & Hg & Hs).
  split; [|split].
  - rewrite dirHas_addFile_some by (apply (dirHas_some _ _ Hj)).
    rewrite Hj. apply orb_true_r.
  - rewrite dirHas_removeFile, Hg. apply andb_false_r.
  - apply removeFile_some. exact Hs.
Qed.

Lemma convertGribToJson_keeps_converted (env : Env) (k : string) (fuel : nat) :
  forall s d w,
    convertedOnly k (fs w) ->
    convertedOnly k (fs (fst (convertGribToJson env fuel s d w))).
Proof.
  induction fuel as [|fuel IH]; intros s d w H; [exact H|].
  cbn [convertGribToJson].
  assert (H0 : convertedOnly k (fs (setFS (mkdirJson (fs w)) w)))
    by (apply mkdirJson_keeps_converted; exact H).
  set (w0 := setFS (mkdirJson (fs w)) w) in *.
  destruct (existsGrib (fs w0) (s ++ ".f000")); cbn [negb].
  - set (w1 := elapse (convTime env (conversions w0)) (countConversion w0)).
    destruct (converter env (conversions w0) s).
    + set (w2 := emit (EvConvert s true)
                   (setFS (unlinkGrib (s ++ ".f000")
                             (writeJson (s ++ ".json") (clock w1) (fs w1))) w1)).
      assert (H2 : convertedOnly k (fs w2))
        by (apply converter_step_keeps_converted; exact H0).
      destruct (existsJson (fs w2)
                  (formatDateStamp (tz env) (subHours d 6) ++ ".json")); cbn [negb];
        [exact H2|].
      pose proof (getGribData_keeps_converted env k fuel (subHours d 6) w2 H2) as H3.
      destruct (getGribData env fuel (subHours d 6) w2) as [w3 [resp|e|]];
        cbn [fst] in H3; try exact H3.
      destruct (truthy (stamp resp) && downloaded resp); [|exact H3].
      destruct (stamp resp) as [s'|]; [|exact H3].
      destruct (targetDate resp) as [d'|]; [|exact H3].
      pose proof (IH s' d' w3 H3) as H4.
      destruct (convertGribToJson env fuel s' d' w3) as [w4 [u|e|]]; exact H4.
    + exact H0.
  - pose proof (getGribData_keeps_converted env k fuel d w0 H0) as H1.
    destruct (getGribData env fuel d w0) as [w1 [resp|e|]]; cbn [fst] in H1; try exact H1.
    destruct (truthy (stamp resp) && downloaded resp); [|exact H1].
    destruct (stamp resp) as [s'|]; [|exact H1].
    destruct (targetDate resp) as [d'|]; [|exact H1].
    apply IH. exact H1.
Qed.

(** *** Termination *)

(** What a fetch that downloaded something answers: the date it ended at,
    not after the date it started from and at most ten days old when the
    fetch began, the key of that date, and the raw artifact is on disk. *)
Lemma runQuery_downloaded (env : Env) (fuel : nat) (d r : Z) (w : World) :
  (forall n, 0 <= latency env n) -> 0 <= r ->
  forall resp,
    snd (runQuery env fuel d r w) = Resolved resp ->
    downloaded resp = true ->
    exists d',
      targetDate resp = Some d'
      /\ stamp resp = Some (formatDateStamp (tz env) d')
      /\ d' <= d
      /\ clock w - d' <= lookbackMs
      /\ existsGrib (fs (fst (runQuery env fuel d r w)))
           (formatDateStamp (tz env) d' ++ ".f000") = true.
Proof.
  intros Hlat. revert fuel d r w.
  apply (runQuery_cases env
           (fun _ d r w res =>
              0 <= r ->
              forall resp,
                snd res = Resolved resp -> downloaded resp = true ->
                exists d',
                  targetDate resp = Some d'
                  /\ stamp resp = Some (formatDateStamp (tz env) d')
                  /\ d' <= d
                  /\ clock w - d' <= lookbackMs
                  /\ existsGrib (fs (fst res)) (formatDateStamp (tz env) d' ++ ".f000")
                     = true)).
  - intros d r w _ resp H. discriminate.
  - intros f d r w _ _ resp H Hd. injection H as <-. discriminate.
  - intros f d r w res _ _ Hr IH H0 resp H Hd.
    destruct (IH ltac:(lia) resp H Hd) as (d' & T & S & Hle & Hc & Hg).
    exists d'. repeat split; try assumption.
    assert (R : 0 <= 2 ^ r * 1000) by (apply Z.mul_nonneg_nonneg; [apply Z.pow_nonneg|]; lia).
    pose proof (Hlat (requests w)).
    cbn [setTimeout request elapse emit countRequest clock] in Hc. lia.
  - intros f d r w res _ _ Hr IH H0 resp H Hd.
    destruct (IH ltac:(lia) resp H Hd) as (d' & T & S & Hle & Hc & Hg).
    exists d'. repeat split; try assumption.
    + unfold subHours, msPerHour in Hle. lia.
    + pose proof (Hlat (requests w)).
      cbn [request elapse emit countRequest clock] in Hc. lia.
  - intros f d r w Hb _ _ _ _ resp H _. injection H as <-.
    exists d. cbn [targetDate stamp fst]. repeat split; try lia.
    cbn [download failedDownload request elapse emit countRequest setFS fs].
    unfold existsGrib. cbn [writeGrib mkdirGrib gribData].
    rewrite dirHas_addFile, String.eqb_refl. reflexivity.
  - intros f d r w _ _ _ _ _ resp H. discriminate.
  - intros f d r w _ _ _ _ resp H Hd. injection H as <-. discriminate.
Qed.

Lemma getGribData_clock (env : Env) (fuel : nat) (t : Z) (w : World) :
  (forall n, 0 <= latency env n) ->
  clock w <= clock (fst (getGribData env fuel t w)).
Proof. intros Hlat. unfold getGribData. apply runQuery_clock; [exact Hlat|lia]. Qed.

(** The same for [getGribData], whose date is at least six hours old. *)
Lemma getGribData_downloaded (env : Env) (fuel : nat) (t : Z) (w : World) :
  (forall n, 0 <= latency env n) ->
  - msPerDay <= clock w + tz env * msPerMinute ->
  forall resp,
    snd (getGribData env fuel t w) = Resolved resp ->
    downloaded resp = true ->
    exists d',
      targetDate resp = Some d'
      /\ stamp resp = Some (formatDateStamp (tz env) d')
      /\ d' <= t /\ d' <= clock w - stepMs
      /\ clock w - d' <= lookbackMs
      /\ existsGrib (fs (fst (getGribData env fuel t w)))
           (formatDateStamp (tz env) d' ++ ".f000") = true.
Proof.
  intros Hlat Hs resp H Hd. unfold getGribData in *.
  pose proof (latestAvailable_behind (tz env) (clock w) Hs) as Hl.
  set (t' := if t >? getLatestAvailableTimestamp (tz env) (clock w)
             then getLatestAvailableTimestamp (tz env) (clock w) else t) in *.
  assert (Ht : t' <= t /\ t' <= clock w - stepMs).
  { unfold t'. destruct (Z.gtb_spec t (getLatestAvailableTimestamp (tz env) (clock w))); lia. }
  destruct (runQuery_downloaded env fuel t' 0 w Hlat ltac:(lia) resp H Hd)
    as (d' & T & S & Hle & Hc & Hg).
  exists d'. repeat split; try assumption; lia.
Qed.

(** How deep the harvest of older keys can still go. *)
Lemma harvest_depth (a b : Z) :
  a <= lookbackMs -> a + stepMs <= b -> stepMs <= b ->
  Z.min (keysLeft b) 41 <= Z.min (keysLeft a) 41 - 1.
Proof.
  intros Ha Hab Hb.
  pose proof (keysLeft_step a b Ha Hab). pose proof (keysLeft_recent b Hb). lia.
Qed.

Lemma convertGribToJson_terminates (env : Env) :
  (forall n, 0 <= latency env n) ->
  (forall n, 0 <= convTime env n) ->
  forall fuel s d w,
    - msPerDay <= clock w + tz env * msPerMinute ->
    (if existsGrib (fs w) (s ++ ".f000")
     then 162 + Z.min (keysLeft (clock w - d)) 41 <= Z.of_nat fuel
     else 205 <= Z.of_nat fuel) ->
    snd (convertGribToJson env fuel s d w) <> OutOfFuel.
Proof.
  intros Hlat Hconv fuel.
  induction fuel as [|fuel IH]; intros s d w Hs Hf.
  { pose proof (keysLeft_nonneg (clock w - d)).
    destruct (existsGrib (fs w) (s ++ ".f000")); change (Z.of_nat 0) with 0 in Hf; lia. }
  cbn [convertGribToJson].
  set (w0 := setFS (mkdirJson (fs w)) w).
  change (existsGrib (fs w0) (s ++ ".f000")) with (existsGrib (fs w) (s ++ ".f000")).
  pose proof (keysLeft_nonneg (clock w - d)) as Hk.
  destruct (existsGrib (fs w) (s ++ ".f000")) eqn:Hin; cbn [negb].
  - set (w1 := elapse (convTime env (conversions w0)) (countConversion w0)).
    destruct (converter env (conversions w0) s); [|discriminate].
    set (w2 := emit (EvConvert s true)
                 (setFS (unlinkGrib (s ++ ".f000")
                           (writeJson (s ++ ".json") (clock w1) (fs w1))) w1)).
    assert (C2 : clock w <= clock w2).
    { pose proof (Hconv (conversions w0)).
      cbn [w2 w1 w0 emit setFS elapse countConversion clock]. lia. }
    destruct (existsJson (fs w2) (formatDateStamp (tz env) (subHours d 6) ++ ".json"));
      cbn [negb]; [discriminate|].
    pose proof (getGribData_terminates env fuel (subHours d 6) w2 Hlat ltac:(lia)
                  ltac:(lia)) as T.
    pose proof (getGribData_downloaded env fuel (subHours d 6) w2 Hlat ltac:(lia)) as D.
    pose proof (getGribData_clock env fuel (subHours d 6) w2 Hlat) as C3.
    destruct (getGribData env fuel (subHours d 6) w2) as [w3 [resp|e|]];
      cbn [fst snd] in *; try discriminate; [|contradiction].
    destruct (truthy (stamp resp) && downloaded resp) eqn:Hb; [|discriminate].
    apply andb_true_iff in Hb as [_ Hd].
    destruct (D resp eq_refl Hd) as (d' & -> & -> & Hle & Hrec & Hage & Hg).
    assert (M : Z.min (keysLeft (clock w3 - d')) 41
                <= Z.min (keysLeft (clock w - d)) 41 - 1).
    { unfold subHours, msPerHour in Hle.
      apply harvest_depth; unfold stepMs, msPerHour in *; lia. }
    pose proof (IH (formatDateStamp (tz env) d') d' w3 ltac:(lia)) as R.
    rewrite Hg in R. specialize (R ltac:(lia)).
    destruct (convertGribToJson env fuel (formatDateStamp (tz env) d') d' w3)
      as [w4 [u|e|]]; cbn [snd] in *; [discriminate|discriminate|contradiction].
  - pose proof (getGribData_terminates env fuel d w0 Hlat Hs ltac:(lia)) as T.
    pose proof (getGribData_downloaded env fuel d w0 Hlat Hs) as D.
    pose proof (getGribData_clock env fuel d w0 Hlat) as C1.
    destruct (getGribData env fuel d w0) as [w1 [resp|e|]];
      cbn [fst snd] in *; try discriminate; [|contradiction].
    destruct (truthy (stamp resp) && downloaded resp) eqn:Hb; [|discriminate].
    apply andb_true_iff in Hb as [_ Hd].
    destruct (D resp eq_refl Hd) as (d' & -> & -> & Hle & Hrec & Hage & Hg).
    apply IH; [change (clock w0) with (clock w) in C1; lia|].
    rewrite Hg. lia.
Qed.

(** With 205 steps, a conversion settles. *)
Lemma convertGribToJson_settles (env : Env) (fuel : nat) (s : string) (d : Z) (w : World) :
  (forall n, 0 <= latency env n) ->
  (forall n, 0 <= convTime env n) ->
  - msPerDay <= clock w + tz env * msPerMinute ->
  (205 <= fuel)%nat ->
  snd (convertGribToJson env fuel s d w) <> OutOfFuel.
Proof.
  intros Hlat Hconv Hs Hf. apply convertGribToJson_terminates; try assumption.
  destruct (existsGrib (fs w) (s ++ ".f000")); lia.
Qed.

(** After a successful run of the converter on a key whose raw artifact is
    on disk, the key is converted, whatever the harvest of older keys does,
    and the call is not rejected. *)
Lemma converter_success (env : Env) (fuel : nat) (k : string) (d : Z) (w : World) :
  existsGrib (fs w) (gribName k) = true ->
  converter env (conversions w) k = true ->
  convertedOnly k (fs (fst (convertGribToJson env (S fuel) k d w)))
  /\ (forall e, snd (convertGribToJson env (S fuel) k d w) <> Rejected e).
Proof.
  intros Hin Hc. cbn [convertGribToJson].
  set (w0 := setFS (mkdirJson (fs w)) w).
  change (existsGrib (fs w0) (k ++ ".f000")) with (existsGrib (fs w) (gribName k)).
  rewrite Hin. cbn [negb].
  change (conversions w0) with (conversions w). rewrite Hc.
  set (w1 := elapse (convTime env (conversions w)) (countConversion w0)).
  set (w2 := emit (EvConvert k true)
               (setFS (unlinkGrib (k ++ ".f000")
                         (writeJson (k ++ ".json") (clock w1) (fs w1))) w1)).
  assert (H2 : convertedOnly k (fs w2)).
  { unfold convertedOnly, existsJson, existsGrib.
    cbn [w2 w1 w0 emit setFS elapse countConversion fs unlinkGrib writeJson mkdirJson
         jsonData gribData].
    split; [|split].
    - rewrite dirHas_addFile. unfold jsonName. rewrite String.eqb_refl. reflexivity.
    - rewrite dirHas_removeFile. unfold gribName. rewrite String.eqb_refl. reflexivity.
    - apply removeFile_some. apply (dirHas_some _ _ Hin). }
  destruct (existsJson (fs w2) (formatDateStamp (tz env) (subHours d 6) ++ ".json"));
    cbn [negb]; [split; [exact H2|intros e; discriminate]|].
  pose proof (getGribData_keeps_converted env k fuel (subHours d 6) w2 H2) as H3.
  destruct (getGribData env fuel (subHours d 6) w2) as [w3 [resp|e|]]; cbn [fst] in H3;
    try (split; [exact H3|intros e'; discriminate]).
  destruct (truthy (stamp resp) && downloaded resp);
    [|split; [exact H3|intros e'; discriminate]].
  destruct (stamp resp) as [s'|]; [|split; [exact H3|intros e'; discriminate]].
  destruct (targetDate resp) as [d'|]; [|split; [exact H3|intros e'; discriminate]].
  pose proof (convertGribToJson_keeps_converted env k fuel s' d' w3 H3) as H4.
  destruct (convertGribToJson env fuel s' d' w3) as [w4 [u|e|]]; cbn [fst] in H4;
    (split; [exact H4|intros e'; discriminate]).
Qed.

(** C9.  Converting a key whose raw artifact is on disk: when the converter
    succeeds, the raw artifact is gone and the structured one is there,
    whatever the harvest of older keys does afterwards, the call is not
    rejected, and it resolves once it is given 205 steps (on a host whose
    clock does not run backwards); when the converter fails, the call is
    rejected with the conversion error, the raw area is as it was, and no
    structured artifact has appeared or disappeared. *)
Theorem conversion_success_and_failure (env : Env) (fuel : nat) (k : string) (d : Z) (w : World) :
  existsGrib (fs w) (gribName k) = true ->
  let res := convertGribToJson env (S fuel) k d w in
  (converter env (conversions w) k = true ->
     existsGrib (fs (fst res)) (gribName k) = false
     /\ existsJson (fs (fst res)) (jsonName k) = true
     /\ (forall e, snd res <> Rejected e)
     /\ ((forall n, 0 <= latency env n) ->
         (forall n, 0 <= convTime env n) ->
         - msPerDay <= clock w + tz env * msPerMinute ->
         (204 <= fuel)%nat ->
         snd res = Resolved tt))
  /\ (converter env (conversions w) k = false ->
        snd res = Rejected ConversionError
        /\ gribData (fs (fst res)) = gribData (fs w)
        /\ existsGrib (fs (fst res)) (gribName k) = true
        /\ (forall name, existsJson (fs (fst res)) name = existsJson (fs w) name)).
Proof.
  intros Hin res. split; intros Hc.
  - destruct (converter_success env fuel k d w Hin Hc) as ((Hj & Hg & _) & Hr).
    fold res in Hj, Hg, Hr.
    split; [exact Hg|]. split; [exact Hj|]. split; [exact Hr|].
    intros Hlat Hconv Hs Hf.
    pose proof (convertGribToJson_settles env (S fuel) k d w Hlat Hconv Hs ltac:(lia)) as T.
    fold res in T. destruct (snd res) as [[]|e|]; [reflexivity| |contradiction].
    exfalso. exact (Hr e eq_refl).
  - subst res. cbn [convertGribToJson].
    change (existsGrib (fs (setFS (mkdirJson (fs w)) w)) (k ++ ".f000"))
      with (existsGrib (fs w) (gribName k)).
    rewrite Hin. cbn [negb].
    change (conversions (setFS (mkdirJson (fs w)) w)) with (conversions w). rewrite Hc.
    cbn [fst snd emit setFS elapse countConversion fs mkdirJson gribData].
    split; [reflexivity|]. split; [reflexivity|]. split; [exact Hin|].
    intros name. unfold existsJson. cbn [jsonData]. apply dirHas_mkdir.
Qed.

(** The raw artifact of 2024030100 is on disk: with a converter that works
    it is replaced by the structured one; with one that fails it stays and
    the call is rejected. *)
Lemma conversion_success_and_failure_witness :
  existsGrib (fs pendingWorld) (gribName "2024030100") = true
  /\ converter (providerWith []) (conversions pendingWorld) "2024030100" = true
  /\ converter (brokenConverter []) (conversions pendingWorld) "2024030100" = false
  /\ (let res := convertGribToJson (providerWith []) 205 "2024030100" 1709251200000
                   pendingWorld in
      existsGrib (fs (fst res)) (gribName "2024030100") = false
      /\ existsJson (fs (fst res)) (jsonName "2024030100") = true
      /\ (forall e, snd res <> Rejected e)
      /\ snd res = Resolved tt)
  /\ (let res := convertGribToJson (brokenConverter []) 205 "2024030100" 1709251200000
                   pendingWorld in
      snd res = Rejected ConversionError
      /\ gribData (fs (fst res)) = gribData (fs pendingWorld)
      /\ existsGrib (fs (fst res)) (gribName "2024030100") = true
      /\ (forall name, existsJson (fs (fst res)) name = existsJson (fs pendingWorld) name)).
Proof.
  split; [reflexivity|]. split; [reflexivity|]. split; [reflexivity|].
  split.
  - destruct (conversion_success_and_failure (providerWith []) 204 "2024030100"
                1709251200000 pendingWorld eq_refl) as [A _].
    destruct (A eq_refl) as (A1 & A2 & A3 & A4).
    split; [exact A1|]. split; [exact A2|]. split; [exact A3|].
    apply A4.
    + intros n. cbn [latency providerWith]. lia.
    + intros n. cbn [convTime providerWith]. lia.
    + cbn [clock pendingWorld tz providerWith]. unfold msPerDay, msPerMinute. lia.
    + lia.
  - apply (conversion_success_and_failure (brokenConverter []) 204 "2024030100"
             1709251200000 pendingWorld); reflexivity.
Defined.

Lemma cleanupFiles_some (f : FS) :
  jsonData f <> None -> gribData f <> None -> exists f', cleanupFiles f = Some f'.
Proof.
  intros Hj Hg. unfold cleanupFiles.
  destruct (jsonData f); [|contradiction]. destruct (gribData f); [|contradiction].
  eauto.
Qed.

(** C6.  A key whose conversion succeeds has its raw artifact unlinked, so
    that [cleanupFiles], run on the cache as the conversion leaves it,
    deletes the key's structured artifact; and whenever the raw area holds
    no raw artifact at all, [cleanupFiles] leaves no structured artifact. *)
Theorem cleanup_deletes_converted_keys (env : Env) (fuel : nat) (k : string) (d : Z) (w : World) :
  isKey k = true ->
  existsGrib (fs w) (gribName k) = true ->
  converter env (conversions w) k = true ->
  let w' := fst (convertGribToJson env (S fuel) k d w) in
  existsGrib (fs w') (gribName k) = false
  /\ existsJson (fs w') (jsonName k) = true
  /\ (exists f', cleanupFiles (fs w') = Some f' /\ existsJson f' (jsonName k) = false)
  /\ (forall f f',
        (forall name, In name (listing (gribData f)) -> endsWith ".f000" name = false) ->
        cleanupFiles f = Some f' ->
        forall name, In name (listing (jsonData f')) -> endsWith ".json" name = false).
Proof.
  intros Hk Hin Hc w'.
  destruct (converter_success env fuel k d w Hin Hc) as ((Hj & Hg & Hs) & _).
  fold w' in Hj, Hg, Hs.
  split; [exact Hg|]. split; [exact Hj|]. split.
  - destruct (cleanupFiles_some (fs w') (dirHas_some _ _ Hj) Hs) as (f' & E).
    exists f'. split; [exact E|].
    apply (cleanupFiles_deletes_unpaired_json (fs w') f' k Hk Hg E).
  - apply cleanupFiles_purges_steady_state.
Qed.


Lemma cleanup_deletes_converted_keys_witness :
  isKey "2024030100" = true
  /\ existsGrib (fs pendingWorld) (gribName "2024030100") = true
  /\ converter (providerWith []) (conversions pendingWorld) "2024030100" = true
  /\ (let w' := fst (convertGribToJson (providerWith []) 6 "2024030100" 1709251200000
                       pendingWorld) in
      existsGrib (fs w') (gribName "2024030100") = false
      /\ existsJson (fs w') (jsonName "2024030100") = true
      /\ (exists f', cleanupFiles (fs w') = Some f'
                     /\ existsJson f' (jsonName "2024030100") = false)
      /\ (forall f f',
            (forall name, In name (listing (gribData f)) -> endsWith ".f000" name = false) ->
            cleanupFiles f = Some f' ->
            forall name, In name (listing (jsonData f')) -> endsWith ".json" name = false)).
Proof.
  split; [reflexivity|]. split; [reflexivity|]. split; [reflexivity|].
  apply (cleanup_deletes_converted_keys (providerWith []) 5 "2024030100" 1709251200000
           pendingWorld); reflexivity.
Defined.

(** After the conversion of 2024030100, [cleanupFiles] empties the
    structured area. *)
Lemma cleanup_after_conversion_example :
  let w' := fst (convertGribToJson (providerWith []) 6 "2024030100" 1709251200000
                   pendingWorld) in
  jsonData (fs w') = Some ["2024022918.json"; "2024030100.json"]
  /\ gribData (fs w') = Some []
  /\ option_map jsonData (cleanupFiles (fs w')) = Some (Some []).
Proof. vm_compute. repeat split. Qed.

End ConvertFacts.

(** ** Freshness *)

Module FreshnessFacts.
Import JSDate JSString TimeKey CacheFS Service FetchShape ConvertShape SearchShape Scenarios.
Import CalendarFacts TimeKeyFacts CacheFacts FetchFacts ConvertFacts.

(** *** What a conversion logs *)

Lemma getGribData_log (env : Env) (fuel : nat) (t : Z) (w : World) :
  exists evs,
    log (fst (getGribData env fuel t w)) = log w ++ evs /\ nearestEntries evs = [].
Proof.
  unfold getGribData.
  set (t' := if t >? getLatestAvailableTimestamp (tz env) (clock w)
             then getLatestAvailableTimestamp (tz env) (clock w) else t).
  destruct (runQuery_discipline env fuel t' 0 w) as (evs & E & _).
  exists evs. split; [exact E|].
  destruct (runQuery_frame env fuel t' 0 w) as (_ & _ & _ & N & _).
  rewrite E, nearestEntries_app in N.
  apply (app_inv_head (nearestEntries (log w))). rewrite N, app_nil_r. reflexivity.
Qed.

Lemma log_extends_trans (l0 l1 l2 : list Event) :
  (exists e1, l1 = l0 ++ e1 /\ nearestEntries e1 = []) ->
  (exists e2, l2 = l1 ++ e2 /\ nearestEntries e2 = []) ->
  exists e, l2 = l0 ++ e /\ nearestEntries e = [].
Proof.
  intros (e1 & -> & N1) (e2 & -> & N2). exists (e1 ++ e2).
  rewrite app_assoc, nearestEntries_app, N1, N2. auto.
Qed.

Lemma log_extends_refl (l : list Event) :
  exists e, l = l ++ e /\ nearestEntries e = [].
Proof. exists []. rewrite app_nil_r. auto. Qed.

Lemma log_extends_emit (l : list Event) (e : Event) :
  nearestEntries [e] = [] -> exists evs, l ++ [e] = l ++ evs /\ nearestEntries evs = [].
Proof. intros H. exists [e]. auto. Qed.

(** A conversion only appends to the log, and no call of the resolver. *)
Lemma convertGribToJson_log (env : Env) (fuel : nat) :
  forall s d w,
  exists evs,
    log (fst (convertGribToJson env fuel s d w)) = log w ++ evs
    /\ nearestEntries evs = [].
Proof.
  induction fuel as [|fuel IH]; intros s d w; [apply log_extends_refl|].
  cbn [convertGribToJson].
  set (w0 := setFS (mkdirJson (fs w)) w).
  change (log w) with (log w0).
  destruct (existsGrib (fs w0) (s ++ ".f000")); cbn [negb].
  - set (w1 := elapse (convTime env (conversions w0)) (countConversion w0)).
    change (log w0) with (log w1).
    destruct (converter env (conversions w0) s).
    + set (w2 := emit (EvConvert s true)
                   (setFS (unlinkGrib (s ++ ".f000")
                             (writeJson (s ++ ".json") (clock w1) (fs w1))) w1)).
      assert (E2 : exists e, log w2 = log w1 ++ e /\ nearestEntries e = [])
        by (apply log_extends_emit; reflexivity).
      destruct (existsJson (fs w2)
                  (formatDateStamp (tz env) (subHours d 6) ++ ".json")); cbn [negb];
        [exact E2|].
      pose proof (getGribData_log env fuel (subHours d 6) w2) as E3.
      pose proof (log_extends_trans _ _ _ E2 E3) as E23.
      destruct (getGribData env fuel (subHours d 6) w2) as [w3 [resp|e|]];
        cbn [fst] in *; try exact E23.
      destruct (truthy (stamp resp) && downloaded resp); [|exact E23].
      destruct (stamp resp) as [s'|]; [|exact E23].
      destruct (targetDate resp) as [d'|]; [|exact E23].
      pose proof (log_extends_trans _ _ _ E23 (IH s' d' w3)) as E4.
      destruct (convertGribToJson env fuel s' d' w3) as [w4 [u|e|]]; exact E4.
    + apply log_extends_emit. reflexivity.
  - pose proof (getGribData_log env fuel d w0) as E1.
    destruct (getGribData env fuel d w0) as [w1 [resp|e|]]; cbn [fst] in *; try exact E1.
    destruct (truthy (stamp resp) && downloaded resp); [|exact E1].
    destruct (stamp resp) as [s'|]; [|exact E1].
    destruct (targetDate resp) as [d'|]; [|exact E1].
    exact (log_extends_trans _ _ _ E1 (IH s' d' w1)).
Qed.

(** *** Staleness *)

Lemma isStale_iff (now maxAgeHours : Z) (f : FS) (name : string) :
  0 <= maxAgeHours ->
  isStale now maxAgeHours f name = true
  <-> (maxAgeHours + 1) * msPerHour <= now - mtime f name.
Proof.
  intros Hm. unfold isStale, differenceInHours, msPerHour.
  set (x := now - mtime f name).
  rewrite Z.gtb_lt.
  destruct (Z.lt_ge_cases x 0) as [Hneg|Hpos].
  - pose proof (Z.quot_opp_l x 3600000 ltac:(lia)) as Hq.
    assert (0 <= Z.quot (- x) 3600000) by (apply Z.quot_pos; lia).
    lia.
  - rewrite Z.quot_div_nonneg by lia.
    split; intros H.
    + assert (maxAgeHours + 1 <= x / 3600000) by lia.
      pose proof (Z.mul_div_le x 3600000 ltac:(lia)). nia.
    + assert ((maxAgeHours + 1) * 3600000 / 3600000 <= x / 3600000)
        by (apply Z.div_le_mono; lia).
      rewrite Z.div_mul in H0 by lia. lia.
Qed.

Lemma checkDataFreshness_tasks (maxAgeHours : Z) (w : World) (js : list string) :
  jsonData (fs w) = Some js ->
  checkDataFreshness maxAgeHours w
  = Some (map freshnessTaskOf (staleArtifacts maxAgeHours w)).
Proof.
  intros Hj. unfold checkDataFreshness, staleArtifacts. rewrite Hj. cbn [listing].
  f_equal. clear Hj. induction js as [|a js IH]; [reflexivity|].
  cbn [filter]. destruct (endsWith ".json" a); cbn [andb flat_map].
  - destruct (isStale (clock w) maxAgeHours (fs w) a); cbn [map app]; rewrite IH; reflexivity.
  - exact IH.
Qed.

(** The promise chain of a task resolves, whatever the fetch does: its
    rejection is caught. *)
Lemma runFreshnessTask_chain (env : Env) (fuel : nat) (task : FreshnessTask) (w : World) :
  chain (snd (runFreshnessTask env fuel task w)) = Resolved tt
  \/ chain (snd (runFreshnessTask env fuel task w)) = OutOfFuel.
Proof.
  unfold runFreshnessTask.
  destruct (taskDate task) as [d|]; [|left; reflexivity].
  destruct (getGribData env fuel d w) as [w1 [resp|e1|]];
    [|left; reflexivity|right; reflexivity].
  destruct (truthy (stamp resp) && downloaded resp); [|left; reflexivity].
  destruct (stamp resp) as [s|]; [|left; reflexivity].
  destruct (targetDate resp) as [d'|]; [|left; reflexivity].
  destruct (convertGribToJson env fuel s d' w1) as [w2 o]. left; reflexivity.
Qed.

(** A task begins with the fetch of its date. *)
Lemma runFreshnessTask_fetch_first (env : Env) (fuel : nat) (task : FreshnessTask)
    (d : Z) (w : World) :
  taskDate task = Some d ->
  exists evs,
    log (fst (runFreshnessTask env fuel task w))
    = log (fst (getGribData env fuel d w)) ++ evs.
Proof.
  intros Hd. unfold runFreshnessTask. rewrite Hd.
  destruct (getGribData env fuel d w) as [w1 [resp|e1|]]; cbn [fst];
    try (exists []; symmetry; apply app_nil_r).
  destruct (truthy (stamp resp) && downloaded resp);
    [|exists []; symmetry; apply app_nil_r].
  destruct (stamp resp) as [s|]; [|exists []; symmetry; apply app_nil_r].
  destruct (targetDate resp) as [d'|]; [|exists []; symmetry; apply app_nil_r].
  destruct (convertGribToJson_log env fuel s d' w1) as (evs & E & _).
  exists evs.
  destruct (convertGribToJson env fuel s d' w1) as [w2 o]; exact E.
Qed.

(** C3.  The task that [checkDataFreshness] starts for a stale artifact
    does not refresh it.  The artifact of key 2024030100 is thirty hours
    old, and one task is started for it, with the date read from the key.
    When the provider has that key, the task's one request is answered with
    200, the fetch finds the structured artifact on disk and resolves with
    [downloaded: false]: nothing is downloaded, no conversion is started,
    the cache is as it was, and the next check finds the same artifact
    stale.  When the provider has only the key before it, the task
    downloads and converts 2024022918, an adjacent key, and the stale
    artifact again keeps its modification time and stays stale. *)
Theorem freshness_does_not_refresh_stale_key :
  let task := mkTask "2024030100" (Some 1709251200000) in
  checkDataFreshness 24 staleWorld = Some [task]
  /\ (let res := runFreshnessTask (providerWith ["2024030100"%string]) 205 task staleWorld in
      requestStamps (log (fst res)) = ["2024030100"%string]
      /\ downloads (log (fst res)) = []
      /\ converted (log (fst res)) = []
      /\ snd res = mkTaskRun (Resolved tt) None
      /\ fs (fst res) = fs staleWorld
      /\ checkDataFreshness 24 (fst res) = Some [task])
  /\ (let res := runFreshnessTask (providerWith ["2024022918"%string]) 205 task staleWorld in
      requestStamps (firstn 8 (log (fst res)))
      = ["2024030100"; "2024030100"; "2024030100"; "2024030100"; "2024022918"]%string
      /\ downloads (log (fst res)) = ["2024022918"%string]
      /\ converted (log (fst res)) = ["2024022918"%string]
      /\ snd res = mkTaskRun (Resolved tt) (Some (Resolved tt))
      /\ mtime (fs (fst res)) "2024030100.json" = mtime (fs staleWorld) "2024030100.json"
      /\ checkDataFreshness 24 (fst res) = Some [task]).
Proof. vm_compute. repeat split. Qed.

(** The conversion a task starts is on its own: with a converter that
    fails, the chain has resolved and the conversion rejects with the
    converter's error, which nothing catches. *)
Lemma freshness_conversion_rejection_is_unhandled :
  snd (runFreshnessTask (brokenConverter ["2024022918"%string]) 205
         (mkTask "2024030100" (Some 1709251200000)) staleWorld)
  = mkTaskRun (Resolved tt) (Some (Rejected ConversionError)).
Proof. vm_compute. reflexivity. Qed.

(** An artifact that is 24 hours and 30 minutes old starts no task. *)
Lemma freshness_counts_whole_hours :
  clock halfHourWorld - mtime (fs halfHourWorld) "2024030100.json" > 24 * msPerHour
  /\ checkDataFreshness 24 halfHourWorld = Some [].
Proof. vm_compute. repeat split. Qed.

End FreshnessFacts.

(** ** NearestResolver *)

Module NearestFacts.
Import JSDate JSString TimeKey CacheFS Service FetchShape ConvertShape SearchShape Scenarios.
Import CalendarFacts TimeKeyFacts CacheFacts FetchFacts ConvertFacts FreshnessFacts.

(** *** The calls of a search *)

Lemma entries_emit_nearest (w : World) (t : Z) (f : bool) (now : Z) :
  nearestEntries (log (emit (EvNearest t f now) w))
  = nearestEntries (log w) ++ [(t, f, now)].
Proof. cbn [emit log]. rewrite nearestEntries_app. reflexivity. Qed.

Lemma entries_emit_sendFile (w : World) (s : string) (ok : bool) :
  nearestEntries (log (emit (EvSendFile s ok) w)) = nearestEntries (log w).
Proof. cbn [emit log]. rewrite nearestEntries_app. apply app_nil_r. Qed.

Lemma entries_getGribData (env : Env) (fuel : nat) (t : Z) (w : World) :
  nearestEntries (log (fst (getGribData env fuel t w))) = nearestEntries (log w).
Proof.
  destruct (getGribData_log env fuel t w) as (evs & E & N).
  rewrite E, nearestEntries_app, N. apply app_nil_r.
Qed.

Lemma entries_convert (env : Env) (fuel : nat) (s : string) (d : Z) (w : World) :
  nearestEntries (log (fst (convertGribToJson env fuel s d w))) = nearestEntries (log w).
Proof.
  destruct (convertGribToJson_log env fuel s d w) as (evs & E & N).
  rewrite E, nearestEntries_app, N. apply app_nil_r.
Qed.

Lemma sixHours : 6 * 60 * 60 * 1000 = stepMs.
Proof. reflexivity. Qed.

Lemma limit_in_days (l : Z) : l * 24 * 60 * 60 * 1000 = l * msPerDay.
Proof. unfold msPerDay. lia. Qed.

(** Every search only adds calls that follow the discipline. *)
Lemma sendNearestTo_discipline (env : Env) (fetchFuel : nat) (limit : option Z) (fuel : nat) :
  forall t f w,
  exists entries,
    nearestEntries (log (fst (sendNearestTo env fuel fetchFuel t limit f w)))
    = nearestEntries (log w) ++ entries
    /\ NearestDiscipline limit t f entries.
Proof.
  induction fuel as [|fuel IH]; intros t f w.
  { exists []. split; [symmetry; apply app_nil_r|constructor]. }
  cbn [sendNearestTo].
  set (w0 := emit (EvNearest t f (clock w)) w).
  assert (E0 : nearestEntries (log w0) = nearestEntries (log w) ++ [(t, f, clock w)])
    by apply entries_emit_nearest.
  change (clock w0) with (clock w).
  assert (Last : forall x : World * Outcome NearestResult,
             nearestEntries (log (fst x)) = nearestEntries (log w0) ->
             exists entries,
               nearestEntries (log (fst x)) = nearestEntries (log w) ++ entries
               /\ NearestDiscipline limit t f entries).
  { intros x Hx. exists [(t, f, clock w)]. rewrite Hx, E0. split; [reflexivity|constructor]. }
  destruct (limitReached limit (clock w) t) eqn:Hlim.
  - destruct f; cbn [negb].
    + apply Last. reflexivity.
    + rewrite limit_in_days.
      destruct (IH (t + limitDays limit * msPerDay) true w0) as (es & E & S).
      exists ((t, false, clock w) :: es). split.
      * rewrite E, E0, <- app_assoc. reflexivity.
      * apply nd_reverse; assumption.
  - assert (Step : forall w',
               nearestEntries (log w') = nearestEntries (log w0) ->
               exists entries,
                 nearestEntries
                   (log (fst (sendNearestTo env fuel fetchFuel
                                (if f then t + 6 * 60 * 60 * 1000 else t - 6 * 60 * 60 * 1000)
                                limit f w')))
                 = nearestEntries (log w) ++ entries
                 /\ NearestDiscipline limit t f entries).
    { intros w' Hw'. rewrite sixHours.
      destruct (IH (if f then t + stepMs else t - stepMs) f w') as (es & E & S).
      exists ((t, f, clock w) :: es). split.
      - rewrite E, Hw', E0, <- app_assoc. reflexivity.
      - apply nd_step; assumption. }
    pose proof (entries_getGribData env fetchFuel t w0) as E1.
    destruct (getGribData env fetchFuel t w0) as [w1 [resp|e|]]; cbn [fst] in E1;
      try (apply Last; exact E1).
    destruct (stamp resp) as [s|]; [|apply Step; exact E1].
    destruct (targetDate resp) as [d|]; [|apply Step; exact E1].
    destruct (truthy (Some s)); [|apply Step; exact E1].
    set (w2 := emit (EvSendFile s (existsJson (fs w1) (s ++ ".json"))) w1).
    assert (E2 : nearestEntries (log w2) = nearestEntries (log w0))
      by (unfold w2; rewrite entries_emit_sendFile; exact E1).
    pose proof (entries_convert env fetchFuel s d w2) as E3. rewrite E2 in E3.
    destruct (convertGribToJson env fetchFuel s d w2) as [w3 [u|e|]]; cbn [fst] in E3;
      try (apply Last; exact E3);
      (destruct (existsJson (fs w1) (s ++ ".json")); [apply Last|apply Step]; exact E3).
Qed.

(** Forward calls are followed by forward calls only. *)
Lemma discipline_forward (limit : option Z) (t : Z) (f : bool) (es : list (Z * bool * Z)) :
  NearestDiscipline limit t f es -> f = true ->
  Forall (fun e => snd (fst e) = true) es.
Proof.
  induction 1 as [t f|t f now|t now rest Hl S IH|t f now rest Hl S IH]; intros Hf.
  - constructor.
  - subst. repeat constructor.
  - discriminate.
  - subst. constructor; [reflexivity|]. apply IH. reflexivity.
Qed.

(** The backward calls of a search all come before its forward calls. *)
Lemma discipline_backward_first (limit : option Z) (t : Z) (f : bool) (es : list (Z * bool * Z)) :
  NearestDiscipline limit t f es ->
  exists backs fwds,
    es = backs ++ fwds
    /\ Forall (fun e => snd (fst e) = false) backs
    /\ Forall (fun e => snd (fst e) = true) fwds.
Proof.
  induction 1 as [t f|t f now|t now rest Hl S IH|t f now rest Hl S IH].
  - exists [], []. repeat constructor.
  - destruct f.
    + exists [], [(t, true, now)]. repeat constructor.
    + exists [(t, false, now)], []. repeat constructor.
  - exists [(t, false, now)], rest. split; [reflexivity|]. split; [repeat constructor|].
    apply (discipline_forward _ _ _ _ S). reflexivity.
  - destruct f.
    + exists [], ((t, true, now) :: rest). split; [reflexivity|]. split; [constructor|].
      constructor; [reflexivity|]. apply (discipline_forward _ _ _ _ S). reflexivity.
    + destruct IH as (b & fw & -> & Hb & Hf).
      exists ((t, false, now) :: b), fw. split; [reflexivity|].
      split; [constructor; [reflexivity|exact Hb]|exact Hf].
Qed.


(** C4 (as amended).  The calls of a search follow the discipline, so the
    backward calls all come before the forward ones.  When a limit that is
    not zero is supplied and the current target is at least that many days
    away from now, a backward search goes on forwards from the current
    target plus the limit in days, and a forward search is rejected with
    "No data within searchLimit". *)
Theorem nearest_reverses_at_limit (env : Env) (fetchFuel fuel : nat)
    (requestedTime : Z) (limit : option Z) (w : World) :
  (exists entries,
      nearestEntries
        (log (fst (sendNearestTo env fuel fetchFuel requestedTime limit false w)))
      = nearestEntries (log w) ++ entries
      /\ NearestDiscipline limit requestedTime false entries
      /\ exists backs fwds,
           entries = backs ++ fwds
           /\ Forall (fun e => snd (fst e) = false) backs
           /\ Forall (fun e => snd (fst e) = true) fwds)
  /\ (forall t w0,
        limitReached limit (clock w0) t = true ->
        sendNearestTo env (S fuel) fetchFuel t limit false w0
        = sendNearestTo env fuel fetchFuel (t + limitDays limit * msPerDay) limit true
            (emit (EvNearest t false (clock w0)) w0)
        /\ sendNearestTo env (S fuel) fetchFuel t limit true w0
           = (emit (EvNearest t true (clock w0)) w0, Rejected NoDataWithinSearchLimit)).
Proof.
  split.
  - destruct (sendNearestTo_discipline env fetchFuel limit fuel requestedTime false w)
      as (es & E & S).
    exists es. split; [exact E|]. split; [exact S|].
    apply (discipline_backward_first _ _ _ _ S).
  - intros t w0 H. split; cbn [sendNearestTo];
      change (clock (emit (EvNearest t false (clock w0)) w0)) with (clock w0);
      change (clock (emit (EvNearest t true (clock w0)) w0)) with (clock w0);
      rewrite H; cbn [negb]; [rewrite limit_in_days|]; reflexivity.
Qed.

Lemma nearest_reverses_at_limit_witness :
  limitReached (Some 1) (clock coldStart) 1709211600000 = true
  /\ (exists entries,
         nearestEntries
           (log (fst (sendNearestTo providerDown 20 161 1709254800000 (Some 1) false coldStart)))
         = nearestEntries (log coldStart) ++ entries
         /\ NearestDiscipline (Some 1) 1709254800000 false entries
         /\ exists backs fwds,
              entries = backs ++ fwds
              /\ Forall (fun e => snd (fst e) = false) backs
              /\ Forall (fun e => snd (fst e) = true) fwds)
  /\ sendNearestTo providerDown 21 161 1709211600000 (Some 1) false coldStart
     = sendNearestTo providerDown 20 161 (1709211600000 + limitDays (Some 1) * msPerDay)
         (Some 1) true (emit (EvNearest 1709211600000 false (clock coldStart)) coldStart)
  /\ sendNearestTo providerDown 21 161 1709211600000 (Some 1) true coldStart
     = (emit (EvNearest 1709211600000 true (clock coldStart)) coldStart,
        Rejected NoDataWithinSearchLimit).
Proof.
  split; [reflexivity|].
  destruct (nearest_reverses_at_limit providerDown 161 20 1709254800000 (Some 1) coldStart)
    as [A B].
  split; [exact A|].
  apply (B 1709211600000 coldStart). reflexivity.
Defined.

(** C4 (counterexample).  At 2024-03-01T13:00Z, with the provider down, the
    nearest snapshot to 01:00Z of that day is asked for with a limit of one
    day.  The search reverses at its third backward target, 12 hours before
    the requested time, and goes on forwards from 13:00Z, the requested time
    plus 12 hours, not plus one day. *)
Lemma nearest_forward_start_is_not_requested_plus_limit :
  let res := sendNearestTo providerDown 100 161 1709254800000 (Some 1) false coldStart in
  snd res = Rejected NoDataWithinSearchLimit
  /\ nearestCalls (log (fst res))
     = [(1709254800000, false); (1709233200000, false); (1709211600000, false);
        (1709298000000, true); (1709319600000, true); (1709341200000, true);
        (1709362800000, true); (1709384400000, true); (1709406000000, true)]
  /\ 1709298000000 = 1709254800000 + 12 * msPerHour
  /\ 1709298000000 <> 1709254800000 + 1 * msPerDay.
Proof. vm_compute. repeat split; discriminate. Qed.

(** *** A search without a limit *)







End NearestFacts.

(** * Further properties *)

(** ** Keys and the latest available cycle *)

Module KeyFacts.
Import JSDate JSString TimeKey CacheFS Range KeyShape.
Import CalendarFacts TimeKeyFacts CacheFacts ConvertFacts.

Lemma parseDigitsAcc_isKey (s : string) :
  forall acc v, parseDigitsAcc s acc = Some v -> isKey s = true.
Proof.
  induction s as [|c s IH]; intros acc v H; [reflexivity|].
  cbn [parseDigitsAcc] in H. cbn [isKey]. unfold isDigit.
  destruct (digitVal c) as [dv|]; [|discriminate].
  cbn [andb]. exact (IH _ _ H).
Qed.

Lemma parseDigits_isKey (s : string) (v : Z) : parseDigits s = Some v -> isKey s = true.
Proof.
  destruct s as [|c s]; [discriminate|]. unfold parseDigits.
  apply parseDigitsAcc_isKey.
Qed.

Lemma isKey_app (a b : string) : isKey (a ++ b) = isKey a && isKey b.
Proof.
  induction a as [|c a IH]; [reflexivity|].
  cbn [append isKey]. rewrite IH. apply andb_assoc.
Qed.

Lemma cycleOk_all (h : Z) : 0 <= h < 24 -> cycleOk h = true.
Proof.
  intros H.
  assert (A : allFrom (Z.to_nat 24) 0 cycleOk = true) by (vm_compute; reflexivity).
  apply (allFrom_spec _ _ _ A). lia.
Qed.

(** The four fields of a key. *)
Lemma formatDateStamp_fields (tz t : Z) :
  1 <= getFullYear tz t <= 9999 ->
  exists ys ms ds,
    formatDateStamp tz t = (ys ++ ms ++ ds ++ roundHours t 6)%string
    /\ String.length ys = 4%nat /\ String.length ms = 2%nat
    /\ String.length ds = 2%nat /\ String.length (roundHours t 6) = 2%nat
    /\ isKey ys = true /\ isKey ms = true /\ isKey ds = true
    /\ isKey (roundHours t 6) = true.
Proof.
  intros Hy.
  unfold formatDateStamp, format_yyyyMMdd.
  unfold getFullYear, getMonth, getDate in *.
  unfold getUTCFullYear, getUTCMonth, getUTCDate in *.
  pose proof (civil_from_days_valid (Day (LocalTime tz t))) as V.
  destruct (civil_from_days (Day (LocalTime tz t))) as [[y m] d].
  simpl fst in *. simpl snd in *.
  destruct V as (Hm & Hd & _ & _).
  pose proof (daysInMonth_le_31 y m) as H31.
  pose proof (roundedHours_range t) as (Hh & Hh24 & _).
  assert (Hyr : (if y >? 0 then y else 1 - y) = y).
  { destruct (Z.gtb_spec y 0); lia. }
  cbv zeta. rewrite Hyr.
  assert (Hhr : roundHours t 6 = addLeadingZeros (roundedHours t 6) 2).
  { rewrite roundHours_six. apply String.eqb_eq. apply (hourOk_all (getUTCHours t)).
    unfold getUTCHours. apply HourFromTime_range. }
  rewrite append_assoc3.
  destruct (paddedOk_inv _ _ (paddedOk_year y Hy)) as [Ly Py].
  destruct (paddedOk_inv _ _ (paddedOk_two (m - 1 + 1) ltac:(lia))) as [Lm Pm].
  destruct (paddedOk_inv _ _ (paddedOk_two d ltac:(lia))) as [Ld Pd].
  destruct (paddedOk_inv _ _ (paddedOk_two (roundedHours t 6) ltac:(lia))) as [Lh Ph].
  exists (addLeadingZeros y 4), (addLeadingZeros (m - 1 + 1) 2), (addLeadingZeros d 2).
  rewrite Hhr.
  repeat split; try assumption; eapply parseDigits_isKey; eassumption.
Qed.

(** The hour slot is one of the four cycles, so a key is never empty. *)
Lemma roundHours_cycle (t : Z) : In (roundHours t 6) cycleHours.
Proof.
  apply includes_In. rewrite roundHours_six. unfold roundedHours.
  apply (cycleOk_all (getUTCHours t)). unfold getUTCHours. apply HourFromTime_range.
Qed.

Lemma formatDateStamp_nonempty (tz t : Z) : formatDateStamp tz t <> ""%string.
Proof.
  intros E. apply (f_equal String.length) in E.
  unfold formatDateStamp in E. rewrite append_length in E.
  pose proof (roundHours_cycle t) as H. unfold cycleHours in H.
  cbn [In] in H.
  destruct H as [H|[H|[H|[H|[]]]]]; rewrite <- H in E; cbn [String.length] in E; lia.
Qed.

(** X1.  On any host, the key of a timestamp whose local year has four
    digits is made of ten decimal digits, and its last two are the hour slot
    of [roundHours], one of 00, 06, 12 and 18. *)
Theorem key_is_ten_digits (tz t : Z) :
  1 <= getFullYear tz t <= 9999 ->
  String.length (formatDateStamp tz t) = 10%nat
  /\ isKey (formatDateStamp tz t) = true
  /\ slice 8 10 (formatDateStamp tz t) = roundHours t 6
  /\ In (roundHours t 6) cycleHours.
Proof.
  intros Hy.
  destruct (formatDateStamp_fields tz t Hy)
    as (ys & ms & ds & E & Ly & Lm & Ld & Lh & Ky & Km & Kd & Kh).
  rewrite E. split; [|split; [|split]].
  - rewrite !append_length, Ly, Lm, Ld, Lh. reflexivity.
  - rewrite !isKey_app, Ky, Km, Kd, Kh. reflexivity.
  - destruct (length4_inv _ Ly) as (y1 & y2 & y3 & y4 & ->).
    destruct (length2_inv _ Lm) as (m1 & m2 & ->).
    destruct (length2_inv _ Ld) as (d1 & d2 & ->).
    destruct (length2_inv _ Lh) as (h1 & h2 & Eh). rewrite Eh.
    reflexivity.
  - apply roundHours_cycle.
Qed.

Lemma key_is_ten_digits_witness :
  1 <= getFullYear 120 1709334000000 <= 9999
  /\ String.length (formatDateStamp 120 1709334000000) = 10%nat
  /\ isKey (formatDateStamp 120 1709334000000) = true
  /\ slice 8 10 (formatDateStamp 120 1709334000000) = roundHours 1709334000000 6
  /\ In (roundHours 1709334000000 6) cycleHours.
Proof.
  split; [vm_compute; split; discriminate|].
  apply (key_is_ten_digits 120 1709334000000). vm_compute; split; discriminate.
Defined.


(** Truncating keeps the day and the hour slot. *)
Lemma truncate_day_and_slot (t : Z) :
  Day (truncate t 6) = Day t /\ roundedHours (truncate t 6) 6 = roundedHours t 6.
Proof.
  rewrite truncate_grid.
  pose proof (roundedHours_range t) as (Hr & H24 & Hm).
  set (rh := roundedHours t 6) in *.
  assert (Hq : rh = rh / 6 * 6).
  { pose proof (Z.div_mod rh 6 ltac:(lia)). lia. }
  unfold roundedHours at 1, getUTCHours, HourFromTime, Day, msPerDay, msPerHour.
  assert (D1 : (t / 86400000 * 86400000 + rh * 3600000) / 86400000 = t / 86400000).
  { rewrite Z.add_comm, Z.div_add by lia. rewrite Z.div_small by lia. lia. }
  assert (D2 : (t / 86400000 * 86400000 + rh * 3600000) / 3600000
               = t / 86400000 * 24 + rh).
  { replace (t / 86400000 * 86400000 + rh * 3600000)
      with ((t / 86400000 * 24 + rh) * 3600000) by lia.
    apply Z.div_mul. lia. }
  split; [exact D1|].
  rewrite D2. rewrite Z.add_comm, Z.mod_add by lia. rewrite Z.mod_small by lia.
  symmetry. exact Hq.
Qed.

Lemma formatDateStamp_truncate (t : Z) :
  formatDateStamp 0 (truncate t 6) = formatDateStamp 0 t.
Proof.
  destruct (truncate_day_and_slot t) as [HD HR].
  unfold formatDateStamp, format_yyyyMMdd. rewrite !roundHours_six.
  unfold getFullYear, getMonth, getDate, getUTCFullYear, getUTCMonth, getUTCDate.
  rewrite !LocalTime_utc, HD, HR. reflexivity.
Qed.

(** X2.  On a host in UTC, two timestamps with four-digit years have the
    same key exactly when they truncate to the same 6-hour grid point, and
    the key of a timestamp is the key of its grid point. *)
Theorem key_identifies_grid_point (t1 t2 : Z) :
  1 <= getFullYear 0 t1 <= 9999 ->
  1 <= getFullYear 0 t2 <= 9999 ->
  (formatDateStamp 0 t1 = formatDateStamp 0 t2 <-> truncate t1 6 = truncate t2 6)
  /\ formatDateStamp 0 (truncate t1 6) = formatDateStamp 0 t1.
Proof.
  intros H1 H2. split; [|apply formatDateStamp_truncate]. split; intros E.
  - destruct (stampToDate_formatDateStamp 0 t1 H1) as [_ E1].
    destruct (stampToDate_formatDateStamp 0 t2 H2) as [_ E2].
    rewrite E, E2 in E1. injection E1 as E1.
    rewrite !LocalTime_utc in E1. rewrite !truncate_grid. symmetry. exact E1.
  - rewrite <- (formatDateStamp_truncate t1), <- (formatDateStamp_truncate t2), E.
    reflexivity.
Qed.

(** 05:00Z and 00:30Z of 2024-03-01 share the key 2024030100. *)
Lemma key_identifies_grid_point_witness :
  1 <= getFullYear 0 1709269200000 <= 9999
  /\ 1 <= getFullYear 0 1709253000000 <= 9999
  /\ (formatDateStamp 0 1709269200000 = formatDateStamp 0 1709253000000
      <-> truncate 1709269200000 6 = truncate 1709253000000 6)
  /\ formatDateStamp 0 (truncate 1709269200000 6) = formatDateStamp 0 1709269200000.
Proof.
  split; [vm_compute; split; discriminate|].
  split; [vm_compute; split; discriminate|].
  apply (key_identifies_grid_point 1709269200000 1709253000000);
    vm_compute; split; discriminate.
Defined.

(** X3.  On a host whose zone keeps one offset from UTC all year (no
    daylight saving), from 1970 on, [getLatestAvailableTimestamp] lies at
    least six hours and less than twelve hours behind the clock. *)
Theorem latest_available_window (tz now : Z) :
  - msPerDay <= now + tz * msPerMinute ->
  now - 12 * msPerHour < getLatestAvailableTimestamp tz now <= now - 6 * msPerHour.
Proof.
  intros H.
  unfold getLatestAvailableTimestamp, newDate, getFullYear, getMonth, getDate, getHours.
  pose proof (year_after_epoch (LocalTime tz now) H) as Hy.
  assert (E : (0 <=? getUTCFullYear (LocalTime tz now))
              && (getUTCFullYear (LocalTime tz now) <=? 99) = false).
  { apply andb_false_iff. right. apply Z.leb_gt. lia. }
  cbv zeta. rewrite E. rewrite DateUTC_of_fields.
  pose proof (hour_of_day (LocalTime tz now)) as Hd.
  pose proof (HourFromTime_range (LocalTime tz now)) as Hr.
  unfold getUTCHours, subHours, LocalTime, msPerHour in *.
  pose proof (Z.div_mod (HourFromTime (now + tz * msPerMinute)) 6 ltac:(lia)) as H1.
  pose proof (Z.mod_pos_bound (HourFromTime (now + tz * msPerMinute)) 6 ltac:(lia)) as H2.
  lia.
Qed.

Lemma latest_available_window_witness :
  - msPerDay <= 1709271000000 + 60 * msPerMinute
  /\ 1709271000000 - 12 * msPerHour
     < getLatestAvailableTimestamp 60 1709271000000
     <= 1709271000000 - 6 * msPerHour.
Proof.
  split; [vm_compute; discriminate|].
  apply (latest_available_window 60 1709271000000). vm_compute; discriminate.
Defined.

End KeyFacts.

(** ** RemoteFetcher, further *)

Module FetchEffects.
Import JSDate JSString TimeKey CacheFS Service FetchShape Scenarios Hosts.
Import CalendarFacts TimeKeyFacts CacheFacts FetchFacts ConvertFacts.

(** The start of a fetch: the target, or the latest available timestamp
    when the target is later. *)
Lemma getGribData_start (env : Env) (fuel : nat) (target : Z) (w : World) :
  getGribData env fuel target w
  = runQuery env fuel (Z.min target (getLatestAvailableTimestamp (tz env) (clock w))) 0 w.
Proof.
  unfold getGribData.
  destruct (Z.gtb_spec target (getLatestAvailableTimestamp (tz env) (clock w)));
    [rewrite Z.min_r by lia|rewrite Z.min_l by lia]; reflexivity.
Qed.

(** [runQuery] sends at most four requests per key that is left. *)
Lemma runQuery_request_bound (env : Env) :
  (forall n, 0 <= latency env n) ->
  forall fuel d r w,
    0 <= r <= 3 ->
    Z.of_nat (requests (fst (runQuery env fuel d r w)))
    <= Z.of_nat (requests w) + Z.max 0 (4 * keysLeft (clock w - d) - r).
Proof.
  intros Hlat fuel.
  apply (runQuery_cases env
           (fun fuel d r w res =>
              0 <= r <= 3 ->
              Z.of_nat (requests (fst res))
              <= Z.of_nat (requests w) + Z.max 0 (4 * keysLeft (clock w - d) - r))).
  - intros d r w _. cbn [fst]. lia.
  - intros f d r w _ _. cbn [fst]. lia.
  - intros f d r w res Hb _ Hr IH H0.
    pose proof (keysLeft_pos _ Hb) as Hp.
    assert (R : 0 <= 2 ^ r * 1000) by (apply Z.mul_nonneg_nonneg; [apply Z.pow_nonneg|]; lia).
    pose proof (Hlat (requests w)) as Hl.
    specialize (IH ltac:(lia)).
    cbn [setTimeout request elapse emit countRequest clock requests] in IH.
    pose proof (keysLeft_mono (clock w - d)
                  (clock w + latency env (requests w) + 2 ^ r * 1000 - d) ltac:(lia)).
    lia.
  - intros f d r w res Hb _ Hr IH H0.
    pose proof (keysLeft_pos _ Hb) as Hp.
    pose proof (Hlat (requests w)) as Hl.
    specialize (IH ltac:(lia)).
    cbn [request elapse emit countRequest clock requests] in IH. unfold subHours in IH.
    pose proof (keysLeft_step (clock w - d)
                  (clock w + latency env (requests w) - (d - 6 * msPerHour)) Hb
                  ltac:(unfold stepMs; lia)).
    pose proof (keysLeft_nonneg (clock w + latency env (requests w) - (d - 6 * msPerHour))).
    lia.
  - intros f d r w Hb _ _ _ H0. pose proof (keysLeft_pos _ Hb) as Hp.
    cbn [fst download failedDownload request elapse emit countRequest setFS requests]. lia.
  - intros f d r w Hb _ _ _ H0. pose proof (keysLeft_pos _ Hb) as Hp.
    cbn [fst download failedDownload request elapse emit countRequest setFS requests]. lia.
  - intros f d r w Hb _ _ H0. pose proof (keysLeft_pos _ Hb) as Hp.
    cbn [fst request elapse emit countRequest requests]. lia.
Qed.

(** X4.  On a host whose clock does not run backwards (from 1970 on), a
    fetch sends at most 160 requests, four for each of the forty keys of the
    ten days behind the latest available timestamp, and it settles: 161
    steps are enough. *)
Theorem fetch_settles_within_160_requests
    (env : Env) (fuel : nat) (target : Z) (w : World) :
  (forall n, 0 <= latency env n) ->
  - msPerDay <= clock w + tz env * msPerMinute ->
  (requests (fst (getGribData env fuel target w)) <= requests w + 160)%nat
  /\ ((161 <= fuel)%nat -> snd (getGribData env fuel target w) <> OutOfFuel).
Proof.
  intros Hlat Hc. split.
  - rewrite getGribData_start.
    pose proof (latestAvailable_behind (tz env) (clock w) Hc) as Hl.
    set (t := Z.min target (getLatestAvailableTimestamp (tz env) (clock w))).
    assert (Ht : t <= clock w - stepMs) by (unfold t; lia).
    pose proof (keysLeft_recent (clock w - t) ltac:(lia)).
    pose proof (runQuery_request_bound env Hlat fuel t 0 w ltac:(lia)). lia.
  - intros Hf. apply getGribData_terminates; assumption.
Qed.

(** The provider has nothing: 160 requests, and the fetch gives up. *)
Lemma fetch_settles_within_160_requests_witness :
  (forall n, 0 <= latency (providerWith []) n)
  /\ - msPerDay <= clock coldStart + tz (providerWith []) * msPerMinute
  /\ (requests (fst (getGribData (providerWith []) 161 1709298000000 coldStart))
      <= requests coldStart + 160)%nat
  /\ ((161 <= 161)%nat ->
      snd (getGribData (providerWith []) 161 1709298000000 coldStart) <> OutOfFuel).
Proof.
  assert (H1 : forall n, 0 <= latency (providerWith []) n) by (intros n; simpl; lia).
  assert (H2 : - msPerDay <= clock coldStart + tz (providerWith []) * msPerMinute)
    by (vm_compute; discriminate).
  split; [exact H1|]. split; [exact H2|].
  exact (fetch_settles_within_160_requests (providerWith []) 161 1709298000000 coldStart H1 H2).
Defined.

(** How [runQuery] can reject. *)
Lemma runQuery_rejects (env : Env) (fuel : nat) (d r : Z) (w : World) (e : Error) :
  snd (runQuery env fuel d r w) = Rejected e ->
  e = WriteError
  /\ fs (fst (runQuery env fuel d r w)) = mkdirGrib (fs w)
  /\ exists n d',
       (requests w <= n)%nat
       /\ requests (fst (runQuery env fuel d r w)) = S n
       /\ net env n (formatDateStamp (tz env) d') = Responded 200
       /\ writeOk env n = false.
Proof.
  revert fuel d r w.
  apply (runQuery_cases env
           (fun _ d r w res =>
              snd res = Rejected e ->
              e = WriteError
              /\ fs (fst res) = mkdirGrib (fs w)
              /\ exists n d',
                   (requests w <= n)%nat /\ requests (fst res) = S n
                   /\ net env n (formatDateStamp (tz env) d') = Responded 200
                   /\ writeOk env n = false)).
  - intros; discriminate.
  - intros; discriminate.
  - intros f d r w res _ _ _ IH H. destruct (IH H) as (E & F & n & d' & Hn & Hr & Hk & Hw).
    split; [exact E|]. split; [exact F|]. exists n, d'.
    cbn [setTimeout request elapse emit countRequest requests] in Hn.
    repeat split; [lia|exact Hr|exact Hk|exact Hw].
  - intros f d r w res _ _ _ IH H. destruct (IH H) as (E & F & n & d' & Hn & Hr & Hk & Hw).
    split; [exact E|]. split; [exact F|]. exists n, d'.
    cbn [request elapse emit countRequest requests] in Hn.
    repeat split; [lia|exact Hr|exact Hk|exact Hw].
  - intros; discriminate.
  - intros f d r w _ Hk _ Hw H. cbn [snd] in H. injection H as <-.
    split; [reflexivity|]. split; [reflexivity|]. exists (requests w), d.
    cbn [fst failedDownload request elapse emit countRequest setFS requests].
    repeat split; [lia|exact Hk|exact Hw].
  - intros; discriminate.
Qed.

(** X5.  Called with a date (a valid one: the dates of the model are
    numbers), a fetch rejects only with the error of the write stream: no
    transport error and no status makes it reject.  When it rejects, its
    last request was answered with 200 and the write stream of that request
    emitted [error]; the stream is taken to leave no raw artifact, so that
    the cache is as it was, but for the raw area, which now exists. *)
Theorem fetch_rejects_only_with_write_error
    (env : Env) (fuel : nat) (target : Z) (w : World) (e : Error) :
  snd (getGribData env fuel target w) = Rejected e ->
  e = WriteError
  /\ fs (fst (getGribData env fuel target w)) = mkdirGrib (fs w)
  /\ exists n d,
       (requests w <= n)%nat
       /\ requests (fst (getGribData env fuel target w)) = S n
       /\ net env n (formatDateStamp (tz env) d) = Responded 200
       /\ writeOk env n = false.
Proof. rewrite getGribData_start. apply runQuery_rejects. Qed.

Lemma fetch_rejects_only_with_write_error_witness :
  snd (getGribData (diskFull ["2024030106"%string]) 5 1709298000000 coldStart)
  = Rejected WriteError
  /\ gribData (fs (fst (getGribData (diskFull ["2024030106"%string]) 5 1709298000000
                          coldStart))) = Some []
  /\ WriteError = WriteError
  /\ fs (fst (getGribData (diskFull ["2024030106"%string]) 5 1709298000000 coldStart))
     = mkdirGrib (fs coldStart)
  /\ exists n d,
       (requests coldStart <= n)%nat
       /\ requests (fst (getGribData (diskFull ["2024030106"%string]) 5
                           1709298000000 coldStart)) = S n
       /\ net (diskFull ["2024030106"%string]) n
            (formatDateStamp (tz (diskFull ["2024030106"%string])) d) = Responded 200
       /\ writeOk (diskFull ["2024030106"%string]) n = false.
Proof.
  assert (H : snd (getGribData (diskFull ["2024030106"%string]) 5 1709298000000 coldStart)
              = Rejected WriteError) by (vm_compute; reflexivity).
  split; [exact H|]. split; [vm_compute; reflexivity|].
  exact (fetch_rejects_only_with_write_error (diskFull ["2024030106"%string]) 5
           1709298000000 coldStart WriteError H).
Defined.

(** What [runQuery] does to the cache, by the way it resolves. *)
Lemma runQuery_cache (env : Env) (fuel : nat) (d r : Z) (w : World)
    (resp : GribDataResponse) :
  snd (runQuery env fuel d r w) = Resolved resp ->
  let w' := fst (runQuery env fuel d r w) in
  if downloaded resp
  then exists d', targetDate resp = Some d'
         /\ stamp resp = Some (formatDateStamp (tz env) d')
         /\ existsJson (fs w) (jsonName (formatDateStamp (tz env) d')) = false
         /\ fs w' = writeGrib (gribName (formatDateStamp (tz env) d')) (mkdirGrib (fs w))
  else fs w' = fs w
       /\ forall s, stamp resp = Some s -> existsJson (fs w) (jsonName s) = true.
Proof.
  revert fuel d r w.
  apply (runQuery_cases env
           (fun _ d r w res =>
              snd res = Resolved resp ->
              if downloaded resp
              then exists d', targetDate resp = Some d'
                     /\ stamp resp = Some (formatDateStamp (tz env) d')
                     /\ existsJson (fs w) (jsonName (formatDateStamp (tz env) d')) = false
                     /\ fs (fst res)
                        = writeGrib (gribName (formatDateStamp (tz env) d')) (mkdirGrib (fs w))
              else fs (fst res) = fs w
                   /\ forall s, stamp resp = Some s -> existsJson (fs w) (jsonName s) = true)).
  - intros; discriminate.
  - intros f d r w _ H. cbn [snd fst] in *. injection H as <-.
    cbn [downloaded unavailable stamp]. split; [reflexivity|]. intros s; discriminate.
  - intros f d r w res _ _ _ IH H. exact (IH H).
  - intros f d r w res _ _ _ IH H. exact (IH H).
  - intros f d r w _ _ Hj _ H. cbn [snd fst] in *. injection H as <-.
    cbn [downloaded targetDate stamp]. exists d.
    split; [reflexivity|]. split; [reflexivity|]. split; [exact Hj|].
    cbn [download failedDownload request elapse emit countRequest setFS fs]. reflexivity.
  - intros; discriminate.
  - intros f d r w _ _ Hj H. cbn [snd fst] in *. injection H as <-.
    cbn [downloaded targetDate stamp]. split; [reflexivity|].
    intros s E. injection E as <-. exact Hj.
Qed.

(** X6.  What a fetch does to the cache.  It never touches the structured
    area and never runs the converter.  Resolving with [downloaded: false]
    it has written nothing, and a key it names has its structured artifact
    on disk; resolving with [downloaded: true] it names the key of the date
    it returns, whose structured artifact was not on disk, and it has written
    exactly the raw artifact of that key. *)
Theorem fetch_cache_effects
    (env : Env) (fuel : nat) (target : Z) (w : World) :
  let w' := fst (getGribData env fuel target w) in
  (jsonData (fs w') = jsonData (fs w) /\ mtime (fs w') = mtime (fs w)
   /\ conversions w' = conversions w)
  /\ forall resp, snd (getGribData env fuel target w) = Resolved resp ->
       if downloaded resp
       then exists d, targetDate resp = Some d
              /\ stamp resp = Some (formatDateStamp (tz env) d)
              /\ existsJson (fs w) (jsonName (formatDateStamp (tz env) d)) = false
              /\ fs w' = writeGrib (gribName (formatDateStamp (tz env) d)) (mkdirGrib (fs w))
              /\ existsGrib (fs w') (gribName (formatDateStamp (tz env) d)) = true
       else fs w' = fs w
            /\ forall s, stamp resp = Some s -> existsJson (fs w) (jsonName s) = true.
Proof.
  cbv zeta. rewrite getGribData_start.
  set (t := Z.min target (getLatestAvailableTimestamp (tz env) (clock w))).
  split.
  - destruct (runQuery_frame env fuel t 0 w) as (N & J & M & _). auto.
  - intros resp H. pose proof (runQuery_cache env fuel t 0 w resp H) as C.
    cbv zeta in C. destruct (downloaded resp); [|exact C].
    destruct C as (d & Hd & Hs & Hj & Hf). exists d.
    repeat split; try assumption.
    rewrite Hf. unfold existsGrib, writeGrib, mkdirGrib. cbn [gribData].
    rewrite dirHas_addFile, String.eqb_refl. reflexivity.
Qed.

(** At 13:00Z the fetch of the 06:00Z key downloads it. *)
Lemma fetch_cache_effects_witness :
  let env := providerWith ["2024030106"%string] in
  let res := getGribData env 5 1709298000000 coldStart in
  snd res = Resolved (mkResponse (Some "2024030106"%string) (Some 1709272800000) true)
  /\ exists d, Some 1709272800000 = Some d
       /\ Some "2024030106"%string = Some (formatDateStamp (tz env) d)
       /\ existsJson (fs coldStart) (jsonName (formatDateStamp (tz env) d)) = false
       /\ fs (fst res)
          = writeGrib (gribName (formatDateStamp (tz env) d)) (mkdirGrib (fs coldStart))
       /\ existsGrib (fs (fst res)) (gribName (formatDateStamp (tz env) d)) = true.
Proof.
  cbv zeta.
  assert (H : snd (getGribData (providerWith ["2024030106"%string]) 5 1709298000000 coldStart)
              = Resolved (mkResponse (Some "2024030106"%string) (Some 1709272800000) true))
    by (vm_compute; reflexivity).
  split; [exact H|].
  exact (proj2 (fetch_cache_effects (providerWith ["2024030106"%string]) 5 1709298000000
                  coldStart) _ H).
Defined.

(** The dates of a trace that keeps the retry discipline lie on the 6-hour
    steps back from its start. *)
Lemma discipline_dates (tz d r : Z) (evs : list Event) :
  RetryDiscipline tz d r evs ->
  Forall (fun e => match e with
                   | EvRequest s d' _ _ =>
                       s = formatDateStamp tz d'
                       /\ exists j, 0 <= j /\ d' = d - j * stepMs
                   | _ => True
                   end) evs.
Proof.
  induction 1.
  - constructor.
  - repeat constructor. exists 0. lia.
  - repeat constructor. exists 0. lia.
  - constructor; [split; [reflexivity|exists 0; lia]|]. constructor; [exact I|assumption].
  - constructor; [split; [reflexivity|exists 0; lia]|].
    eapply Forall_impl; [|exact IHRetryDiscipline].
    intros [s d' r' n| | | | |]; auto.
    intros (E & j & Hj & Hd). split; [exact E|]. exists (j + 1). lia.
Qed.

(** The date [runQuery] returns. *)
Lemma runQuery_date (env : Env) (fuel : nat) (d r : Z) (w : World)
    (resp : GribDataResponse) (d' : Z) :
  snd (runQuery env fuel d r w) = Resolved resp ->
  targetDate resp = Some d' ->
  stamp resp = Some (formatDateStamp (tz env) d')
  /\ exists j, 0 <= j /\ d' = d - j * stepMs.
Proof.
  revert fuel d r w.
  apply (runQuery_cases env
           (fun _ d r w res =>
              snd res = Resolved resp -> targetDate resp = Some d' ->
              stamp resp = Some (formatDateStamp (tz env) d')
              /\ exists j, 0 <= j /\ d' = d - j * stepMs)).
  - intros; discriminate.
  - intros f d r w _ H T. cbn [snd] in H. injection H as <-. discriminate.
  - intros f d r w res Hb _ Hr IH H T. exact (IH H T).
  - intros f d r w res Hb _ Hr IH H T.
    destruct (IH H T) as (S1 & j & Hj & E). split; [exact S1|].
    unfold subHours in E. exists (j + 1). unfold stepMs in *. lia.
  - intros f d r w Hb _ _ _ H T. cbn [snd] in H. injection H as <-.
    cbn [targetDate stamp] in *. injection T as <-.
    split; [reflexivity|]. exists 0. lia.
  - intros; discriminate.
  - intros f d r w Hb _ _ H T. cbn [snd] in H. injection H as <-.
    cbn [targetDate stamp] in *. injection T as <-.
    split; [reflexivity|]. exists 0. lia.
Qed.

(** X7.  A fetch never looks ahead.  It starts from the target, or from
    the latest available timestamp when the target is later; every date it
    requests, and the date it returns, is that start minus a whole number of
    6-hour steps; and every key it requests or returns is the key of its
    date. *)
Theorem fetch_never_looks_ahead
    (env : Env) (fuel : nat) (target : Z) (w : World) :
  let start := Z.min target (getLatestAvailableTimestamp (tz env) (clock w)) in
  let res := getGribData env fuel target w in
  (exists evs,
      log (fst res) = log w ++ evs
      /\ Forall (fun e => match e with
                          | EvRequest s d _ _ =>
                              s = formatDateStamp (tz env) d
                              /\ exists j, 0 <= j /\ d = start - j * stepMs
                          | _ => True
                          end) evs)
  /\ forall resp d,
       snd res = Resolved resp -> targetDate resp = Some d ->
       stamp resp = Some (formatDateStamp (tz env) d)
       /\ exists j, 0 <= j /\ d = start - j * stepMs.
Proof.
  cbv zeta. rewrite getGribData_start.
  set (t := Z.min target (getLatestAvailableTimestamp (tz env) (clock w))).
  split.
  - destruct (runQuery_discipline env fuel t 0 w) as (evs & E & D).
    exists evs. split; [exact E|]. apply (discipline_dates _ _ _ _ D).
  - intros resp d H T. exact (runQuery_date env fuel t 0 w resp d H T).
Qed.

(** With a provider that never answers 200, a fetch gives up. *)
Lemma getGribData_provider_down (env : Env) (fuel : nat) (target : Z) (w : World) :
  (forall n s, failed (net env n s) = true) ->
  (forall n, 0 <= latency env n) ->
  - msPerDay <= clock w + tz env * msPerMinute ->
  (161 <= fuel)%nat ->
  snd (getGribData env fuel target w) = Resolved unavailable
  /\ fs (fst (getGribData env fuel target w)) = fs w.
Proof.
  intros Hdown Hlat Hc Hf.
  pose proof (getGribData_terminates env fuel target w Hlat Hc Hf) as T.
  unfold getGribData in *.
  destruct (runQuery_provider_down env fuel
              (if target >? getLatestAvailableTimestamp (tz env) (clock w)
               then getLatestAvailableTimestamp (tz env) (clock w) else target) 0 w Hdown)
    as [[O|O] F]; [contradiction|].
  split; assumption.
Qed.

(** X8.  When no request comes back with status 200, a fetch sends its
    requests in vain: on a host whose clock does not run backwards it
    resolves, within 161 steps, with [stamp: false, targetDate: false,
    downloaded: false], it does not reject, and the cache is as it was. *)
Theorem fetch_provider_down
    (env : Env) (fuel : nat) (target : Z) (w : World) :
  (forall n s, failed (net env n s) = true) ->
  (forall n, 0 <= latency env n) ->
  - msPerDay <= clock w + tz env * msPerMinute ->
  (161 <= fuel)%nat ->
  snd (getGribData env fuel target w) = Resolved unavailable
  /\ fs (fst (getGribData env fuel target w)) = fs w.
Proof. apply getGribData_provider_down. Qed.

Lemma fetch_provider_down_witness :
  (forall n s, failed (net providerDown n s) = true)
  /\ (forall n, 0 <= latency providerDown n)
  /\ - msPerDay <= clock coldStart + tz providerDown * msPerMinute
  /\ (161 <= 161)%nat
  /\ snd (getGribData providerDown 161 1709298000000 coldStart) = Resolved unavailable
  /\ fs (fst (getGribData providerDown 161 1709298000000 coldStart)) = fs coldStart.
Proof.
  assert (H1 : forall n s, failed (net providerDown n s) = true) by (intros; reflexivity).
  assert (H2 : forall n, 0 <= latency providerDown n) by (intros n; simpl; lia).
  assert (H3 : - msPerDay <= clock coldStart + tz providerDown * msPerMinute)
    by (vm_compute; discriminate).
  assert (H4 : (161 <= 161)%nat) by lia.
  split; [exact H1|]. split; [exact H2|]. split; [exact H3|]. split; [exact H4|].
  exact (fetch_provider_down providerDown 161 1709298000000 coldStart H1 H2 H3 H4).
Defined.

End FetchEffects.

(** ** Converter, further *)

Module ConvertEffects.
Import JSDate JSString TimeKey CacheFS Service FetchShape ConvertShape Scenarios Hosts.
Import CalendarFacts TimeKeyFacts CacheFacts FetchFacts ConvertFacts FreshnessFacts.
Import FetchEffects.

(** *** A relation that every step of a conversion keeps *)

Section ConvertInd.
Variable env : Env.
Variable R : World -> World -> Prop.

Hypothesis R_refl : forall w, R w w.
Hypothesis R_trans : forall a b c, R a b -> R b c -> R a c.
Hypothesis R_mkdir : forall w, R w (setFS (mkdirJson (fs w)) w).
Hypothesis R_fetch : forall fuel t w, R w (fst (getGribData env fuel t w)).
Hypothesis R_converted :
  forall s w,
    jsonData (fs w) <> None ->
    existsGrib (fs w) (s ++ ".f000") = true ->
    converter env (conversions w) s = true ->
    R w (emit (EvConvert s true)
           (setFS (unlinkGrib (s ++ ".f000")
                     (writeJson (s ++ ".json")
                        (clock (elapse (convTime env (conversions w)) (countConversion w)))
                        (fs (elapse (convTime env (conversions w)) (countConversion w)))))
              (elapse (convTime env (conversions w)) (countConversion w)))).
Hypothesis R_failed :
  forall s w,
    converter env (conversions w) s = false ->
    R w (emit (EvConvert s false) (elapse (convTime env (conversions w)) (countConversion w))).

Lemma convertGribToJson_rel (fuel : nat) :
  forall s d w, R w (fst (convertGribToJson env fuel s d w)).
Proof.
  induction fuel as [|fuel IH]; intros s d w; [apply R_refl|].
  cbn [convertGribToJson].
  pose proof (R_mkdir w) as H0.
  set (w0 := setFS (mkdirJson (fs w)) w) in *.
  destruct (existsGrib (fs w0) (s ++ ".f000")) eqn:Hg; cbn [negb].
  - destruct (converter env (conversions w0) s) eqn:Hc.
    + pose proof (R_trans _ _ _ H0 (R_converted s w0 (mkdir_some _) Hg Hc)) as H2.
      set (w1 := elapse (convTime env (conversions w0)) (countConversion w0)) in *.
      set (w2 := emit (EvConvert s true)
                   (setFS (unlinkGrib (s ++ ".f000")
                             (writeJson (s ++ ".json") (clock w1) (fs w1))) w1)) in *.
      destruct (existsJson (fs w2)
                  (formatDateStamp (tz env) (subHours d 6) ++ ".json")); cbn [negb];
        [exact H2|].
      pose proof (R_trans _ _ _ H2 (R_fetch fuel (subHours d 6) w2)) as H3.
      destruct (getGribData env fuel (subHours d 6) w2) as [w3 [resp|e|]];
        cbn [fst] in H3; try exact H3.
      destruct (truthy (stamp resp) && downloaded resp); [|exact H3].
      destruct (stamp resp) as [s'|]; [|exact H3].
      destruct (targetDate resp) as [d'|]; [|exact H3].
      pose proof (R_trans _ _ _ H3 (IH s' d' w3)) as H4.
      destruct (convertGribToJson env fuel s' d' w3) as [w4 [u|e|]]; exact H4.
    + exact (R_trans _ _ _ H0 (R_failed s w0 Hc)).
  - pose proof (R_trans _ _ _ H0 (R_fetch fuel d w0)) as H1.
    destruct (getGribData env fuel d w0) as [w1 [resp|e|]]; cbn [fst] in H1; try exact H1.
    destruct (truthy (stamp resp) && downloaded resp); [|exact H1].
    destruct (stamp resp) as [s'|]; [|exact H1].
    destruct (targetDate resp) as [d'|]; [|exact H1].
    exact (R_trans _ _ _ H1 (IH s' d' w1)).
Qed.

End ConvertInd.

(** *** The structured area only grows *)

Lemma getGribData_frame (env : Env) (fuel : nat) (t : Z) (w : World) :
  let w' := fst (getGribData env fuel t w) in
  conversions w' = conversions w
  /\ jsonData (fs w') = jsonData (fs w)
  /\ mtime (fs w') = mtime (fs w)
  /\ converted (log w') = converted (log w).
Proof.
  cbv zeta. rewrite getGribData_start.
  destruct (runQuery_frame env fuel
              (Z.min t (getLatestAvailableTimestamp (tz env) (clock w))) 0 w)
    as (A & B & C & _ & E).
  auto.
Qed.

Lemma convertGribToJson_keeps_json (env : Env) (fuel : nat) (s : string) (d : Z) (w : World) :
  forall name,
    existsJson (fs w) name = true ->
    existsJson (fs (fst (convertGribToJson env fuel s d w))) name = true.
Proof.
  apply (convertGribToJson_rel env
           (fun w w' => forall name, existsJson (fs w) name = true ->
                                     existsJson (fs w') name = true)).
  - auto.
  - auto.
  - intros w0 name H. unfold existsJson in *. cbn [setFS fs mkdirJson jsonData].
    rewrite dirHas_mkdir. exact H.
  - intros f t w0 name H. unfold existsJson in *.
    destruct (getGribData_frame env f t w0) as (_ & J & _). cbv zeta in J.
    rewrite J. exact H.
  - intros k w0 _ _ _ name H. unfold existsJson in *.
    cbn [emit setFS fs elapse countConversion unlinkGrib writeJson jsonData].
    rewrite dirHas_addFile_some by (apply (dirHas_some _ _ H)).
    rewrite H. apply orb_true_r.
  - intros k w0 _ name H. exact H.
Qed.

(** X9.  Neither a fetch nor a conversion, with the harvest of older keys
    that follows it, deletes a structured artifact: a file of the structured
    area that was on disk before the call is on disk after it. *)
Theorem structured_artifacts_are_kept
    (env : Env) (fuel : nat) (s : string) (d : Z) (w : World) (name : string) :
  existsJson (fs w) name = true ->
  existsJson (fs (fst (convertGribToJson env fuel s d w))) name = true
  /\ existsJson (fs (fst (getGribData env fuel d w))) name = true.
Proof.
  intros H. split.
  - apply convertGribToJson_keeps_json. exact H.
  - unfold existsJson in *.
    destruct (getGribData_frame env fuel d w) as (_ & J & _). cbv zeta in J.
    rewrite J. exact H.
Qed.

Lemma structured_artifacts_are_kept_witness :
  existsJson (fs pendingWorld) "2024022918.json" = true
  /\ existsJson (fs (fst (convertGribToJson (providerWith []) 205 "2024030100"
                            1709251200000 pendingWorld))) "2024022918.json" = true
  /\ existsJson (fs (fst (getGribData (providerWith []) 205 1709251200000 pendingWorld)))
       "2024022918.json" = true.
Proof.
  assert (H : existsJson (fs pendingWorld) "2024022918.json" = true) by reflexivity.
  split; [exact H|].
  exact (structured_artifacts_are_kept (providerWith []) 205 "2024030100" 1709251200000
           pendingWorld "2024022918.json" H).
Defined.

(** *** The keys converted during a call *)

Lemma getGribData_converts_nothing (env : Env) (fuel : nat) (t : Z) (w : World) :
  exists evs,
    log (fst (getGribData env fuel t w)) = log w ++ evs /\ converted evs = [].
Proof.
  destruct (getGribData_log env fuel t w) as (evs & E & _).
  exists evs. split; [exact E|].
  destruct (getGribData_frame env fuel t w) as (_ & _ & _ & C). cbv zeta in C.
  rewrite E, converted_app in C.
  rewrite <- (app_nil_r (converted (log w))) in C at 2.
  apply app_inv_head in C. exact C.
Qed.

Lemma convertGribToJson_converted (env : Env) (fuel : nat) (s : string) (d : Z) (w : World) :
  let w' := fst (convertGribToJson env fuel s d w) in
  exists evs,
    log w' = log w ++ evs
    /\ (forall k, In k (converted evs) -> convertedOnly k (fs w'))
    /\ (forall k, convertedOnly k (fs w) -> convertedOnly k (fs w')).
Proof.
  cbv zeta.
  apply (convertGribToJson_rel env
           (fun w w' => exists evs,
                log w' = log w ++ evs
                /\ (forall k, In k (converted evs) -> convertedOnly k (fs w'))
                /\ (forall k, convertedOnly k (fs w) -> convertedOnly k (fs w')))).
  - intros w0. exists []. split; [symmetry; apply app_nil_r|].
    split; [intros k []|auto].
  - intros a b c (e1 & L1 & C1 & K1) (e2 & L2 & C2 & K2).
    exists (e1 ++ e2). split; [rewrite L2, L1, app_assoc; reflexivity|].
    split; [|auto].
    intros k Hk. rewrite converted_app in Hk. apply in_app_or in Hk.
    destruct Hk as [Hk|Hk]; auto.
  - intros w0. exists []. split; [symmetry; apply app_nil_r|].
    split; [intros k []|]. intros k Hk. apply mkdirJson_keeps_converted. exact Hk.
  - intros f t w0. destruct (getGribData_converts_nothing env f t w0) as (evs & E & C).
    exists evs. split; [exact E|]. rewrite C. split; [intros k []|].
    intros k Hk. apply getGribData_keeps_converted. exact Hk.
  - intros k w0 Hj Hg Hc. exists [EvConvert k true]. split; [reflexivity|].
    cbn [emit setFS fs elapse countConversion clock]. split.
    + intros k' [<-|[]].
      unfold convertedOnly, existsJson, existsGrib, jsonName, gribName.
      cbn [unlinkGrib writeJson jsonData gribData].
      unfold existsGrib in Hg.
      split; [|split].
      * rewrite dirHas_addFile_some by exact Hj.
        rewrite String.eqb_refl. reflexivity.
      * rewrite dirHas_removeFile, String.eqb_refl. reflexivity.
      * apply removeFile_some. apply (dirHas_some _ _ Hg).
    + intros k' Hk'. apply converter_step_keeps_converted. exact Hk'.
  - intros k w0 Hc. exists [EvConvert k false]. split; [reflexivity|].
    split; [intros k' []|]. intros k' Hk'. exact Hk'.
Qed.

Lemma convertGribToJson_converted_count (env : Env) (fuel : nat) (s : string) (d : Z)
    (w : World) :
  (List.length (converted (log w))
   <= List.length (converted (log (fst (convertGribToJson env fuel s d w)))))%nat.
Proof.
  destruct (convertGribToJson_converted env fuel s d w) as (evs & E & _).
  rewrite E, converted_app, length_app. lia.
Qed.

(** A fetch that downloaded names a key and a date. *)
Lemma getGribData_downloaded_names (env : Env) (fuel : nat) (t : Z) (w w1 : World)
    (resp : GribDataResponse) :
  getGribData env fuel t w = (w1, Resolved resp) ->
  truthy (stamp resp) && downloaded resp = true ->
  exists s' d', stamp resp = Some s' /\ targetDate resp = Some d'.
Proof.
  intros E H. apply andb_true_iff in H. destruct H as [_ Hd].
  rewrite getGribData_start in E.
  pose proof (runQuery_cache env fuel
                (Z.min t (getLatestAvailableTimestamp (tz env) (clock w))) 0 w resp) as C.
  rewrite E in C.
  specialize (C eq_refl). cbv zeta in C. rewrite Hd in C.
  destruct C as (d' & T & S & _). eauto.
Qed.

Lemma getGribData_rejects (env : Env) (fuel : nat) (t : Z) (w w1 : World) (e : Error) :
  getGribData env fuel t w = (w1, Rejected e) -> e = WriteError.
Proof.
  intros E. rewrite getGribData_start in E.
  pose proof (runQuery_rejects env fuel
                (Z.min t (getLatestAvailableTimestamp (tz env) (clock w))) 0 w e) as C.
  rewrite E in C.
  exact (proj1 (C eq_refl)).
Qed.

(** How a conversion settles: resolving, it has converted at least one key;
    rejecting, it carries one of three errors. *)
Lemma convertGribToJson_outcome (env : Env) (fuel : nat) :
  forall s d w,
    match snd (convertGribToJson env fuel s d w) with
    | Resolved _ =>
        (List.length (converted (log w))
         < List.length (converted (log (fst (convertGribToJson env fuel s d w)))))%nat
    | Rejected e =>
        e = ConversionError \/ e = WriteError \/ exists s', e = DownloadFailed s'
    | OutOfFuel => True
    end.
Proof.
  induction fuel as [|fuel IH]; intros s d w; [exact I|].
  cbn [convertGribToJson].
  set (w0 := setFS (mkdirJson (fs w)) w).
  change (log w) with (log w0).
  destruct (existsGrib (fs w0) (s ++ ".f000")) eqn:Hg; cbn [negb].
  - set (w1 := elapse (convTime env (conversions w0)) (countConversion w0)).
    destruct (converter env (conversions w0) s) eqn:Hc; [|cbn [snd]; auto].
    set (w2 := emit (EvConvert s true)
                 (setFS (unlinkGrib (s ++ ".f000")
                           (writeJson (s ++ ".json") (clock w1) (fs w1))) w1)).
    assert (L2 : (List.length (converted (log w0)) < List.length (converted (log w2)))%nat).
    { unfold w2. cbn [emit log setFS]. change (log w1) with (log w0).
      rewrite converted_app, length_app. cbn [converted flat_map app List.length]. lia. }
    destruct (existsJson (fs w2)
                (formatDateStamp (tz env) (subHours d 6) ++ ".json")); cbn [negb];
      [exact L2|].
    destruct (getGribData_frame env fuel (subHours d 6) w2) as (_ & _ & _ & C3).
    cbv zeta in C3.
    destruct (getGribData env fuel (subHours d 6) w2) as [w3 [resp|e|]];
      cbn [fst snd] in *; try (rewrite C3; exact L2); [|exact I].
    destruct (truthy (stamp resp) && downloaded resp);
      [|cbn [fst snd]; rewrite C3; exact L2].
    destruct (stamp resp) as [s'|]; [|cbn [fst snd]; rewrite C3; exact L2].
    destruct (targetDate resp) as [d'|]; [|cbn [fst snd]; rewrite C3; exact L2].
    pose proof (convertGribToJson_converted_count env fuel s' d' w3) as L4.
    rewrite <- C3 in L2.
    destruct (convertGribToJson env fuel s' d' w3) as [w4 [u|e|]];
      cbn [fst snd] in *; try exact I; lia.
  - destruct (getGribData_frame env fuel d w0) as (_ & _ & _ & C1). cbv zeta in C1.
    destruct (getGribData env fuel d w0) as [w1 [resp|e|]] eqn:E1; cbn [fst snd] in *.
    + destruct (truthy (stamp resp) && downloaded resp) eqn:Hd;
        [|cbn [snd]; right; right; eauto].
      destruct (getGribData_downloaded_names env fuel d w0 w1 resp E1 Hd)
        as (s' & d' & -> & ->).
      specialize (IH s' d' w1). rewrite C1 in IH. exact IH.
    + right. left. apply (getGribData_rejects env fuel d w0 w1 e E1).
    + exact I.
Qed.

(** X10.  Every key that a conversion, or the harvest of older keys that
    follows it, converts is left converted: its structured artifact is on
    disk and its raw artifact is gone.  A conversion that resolves has
    converted at least one key. *)
Theorem converted_keys_are_left_converted
    (env : Env) (fuel : nat) (s : string) (d : Z) (w : World) :
  let res := convertGribToJson env fuel s d w in
  exists evs,
    log (fst res) = log w ++ evs
    /\ (forall k, In k (converted evs) -> convertedOnly k (fs (fst res)))
    /\ (snd res = Resolved tt -> converted evs <> []).
Proof.
  cbv zeta.
  destruct (convertGribToJson_converted env fuel s d w) as (evs & E & C & _).
  exists evs. split; [exact E|]. split; [exact C|].
  intros H. pose proof (convertGribToJson_outcome env fuel s d w) as O.
  rewrite H in O. rewrite E, converted_app, length_app in O.
  destruct (converted evs); [cbn [List.length] in O; lia|discriminate].
Qed.

(** The raw artifact of 00:00Z is converted, then that of 18:00Z the day
    before is fetched and converted. *)
Lemma converted_keys_are_left_converted_witness :
  let res := convertGribToJson (providerWith ["2024022918"%string]) 205 "2024030100"
               1709251200000
               (mkWorld 1709298000000
                  (mkFS None (Some ["2024030100.f000"%string]) (fun _ => 0)) 0 0 []) in
  snd res = Resolved tt
  /\ converted (log (fst res)) = ["2024030100"; "2024022918"]%string
  /\ exists evs,
       log (fst res) = [] ++ evs
       /\ (forall k, In k (converted evs) -> convertedOnly k (fs (fst res)))
       /\ (snd res = Resolved tt -> converted evs <> []).
Proof.
  cbv zeta. split; [vm_compute; reflexivity|]. split; [vm_compute; reflexivity|].
  exact (converted_keys_are_left_converted (providerWith ["2024022918"%string]) 205
           "2024030100" 1709251200000
           (mkWorld 1709298000000
              (mkFS None (Some ["2024030100.f000"%string]) (fun _ => 0)) 0 0 [])).
Defined.

(** A conversion that rejects has converted nothing: its rejection comes
    from the re-download or from the first run of the converter, never from
    the harvest that follows a conversion. *)
Lemma convertGribToJson_rejects_early (env : Env) (fuel : nat) :
  forall s d w e,
    snd (convertGribToJson env fuel s d w) = Rejected e ->
    converted (log (fst (convertGribToJson env fuel s d w))) = converted (log w).
Proof.
  induction fuel as [|fuel IH]; intros s d w e; [discriminate|].
  cbn [convertGribToJson].
  set (w0 := setFS (mkdirJson (fs w)) w).
  change (log w) with (log w0).
  destruct (existsGrib (fs w0) (s ++ ".f000")) eqn:Hg; cbn [negb].
  - set (w1 := elapse (convTime env (conversions w0)) (countConversion w0)).
    destruct (converter env (conversions w0) s) eqn:Hc.
    + set (w2 := emit (EvConvert s true)
                   (setFS (unlinkGrib (s ++ ".f000")
                             (writeJson (s ++ ".json") (clock w1) (fs w1))) w1)).
      destruct (existsJson (fs w2)
                  (formatDateStamp (tz env) (subHours d 6) ++ ".json")); cbn [negb];
        [discriminate|].
      destruct (getGribData env fuel (subHours d 6) w2) as [w3 [resp|e3|]];
        try discriminate.
      destruct (truthy (stamp resp) && downloaded resp); [|discriminate].
      destruct (stamp resp) as [s'|]; [|discriminate].
      destruct (targetDate resp) as [d'|]; [|discriminate].
      destruct (convertGribToJson env fuel s' d' w3) as [w4 [u|e4|]]; discriminate.
    + intros _. cbn [fst emit log]. change (log w1) with (log w0).
      rewrite converted_app. cbn [converted flat_map app]. apply app_nil_r.
  - destruct (getGribData_frame env fuel d w0) as (_ & _ & _ & C1). cbv zeta in C1.
    destruct (getGribData env fuel d w0) as [w1 [resp|e1|]] eqn:E1; cbn [fst snd] in *;
      [|intros _; exact C1|discriminate].
    destruct (truthy (stamp resp) && downloaded resp) eqn:Hd;
      [|intros _; exact C1].
    destruct (getGribData_downloaded_names env fuel d w0 w1 resp E1 Hd)
      as (s' & d' & -> & ->).
    intros H. rewrite (IH s' d' w1 e H). exact C1.
Qed.

(** X11.  A conversion rejects only with the converter's error, with the
    error of a write stream, or with [Failed to download data for ..], and
    only when no key has been converted during the call: once the converter
    has succeeded on a key, the call does not reject any more, so that
    whatever the harvest of older keys throws is caught. *)
Theorem conversion_rejects_with_three_errors
    (env : Env) (fuel : nat) (s : string) (d : Z) (w : World) (e : Error) :
  snd (convertGribToJson env fuel s d w) = Rejected e ->
  (e = ConversionError \/ e = WriteError \/ exists s', e = DownloadFailed s')
  /\ exists evs,
       log (fst (convertGribToJson env fuel s d w)) = log w ++ evs
       /\ converted evs = [].
Proof.
  intros H. split.
  - pose proof (convertGribToJson_outcome env fuel s d w) as O.
    rewrite H in O. exact O.
  - destruct (convertGribToJson_converted env fuel s d w) as (evs & E & _).
    exists evs. split; [exact E|].
    pose proof (convertGribToJson_rejects_early env fuel s d w e H) as C.
    rewrite E, converted_app in C.
    rewrite <- (app_nil_r (converted (log w))) in C at 2.
    apply app_inv_head in C. exact C.
Qed.

(** The converter fails on the first key, and the call rejects; it
    succeeds on the first key and fails on the harvested one, and the call
    resolves. *)
Lemma conversion_rejects_with_three_errors_witness :
  snd (convertGribToJson (brokenConverter []) 205 "2024030100" 1709251200000 pendingWorld)
  = Rejected ConversionError
  /\ snd (convertGribToJson (failingAfter 1 ["2024022918"%string]) 205 "2024030100"
            1709251200000
            (mkWorld 1709298000000
               (mkFS None (Some ["2024030100.f000"%string]) (fun _ => 0)) 0 0 []))
     = Resolved tt
  /\ (ConversionError = ConversionError \/ ConversionError = WriteError
      \/ exists s', ConversionError = DownloadFailed s')
  /\ exists evs,
       log (fst (convertGribToJson (brokenConverter []) 205 "2024030100" 1709251200000
                   pendingWorld))
       = log pendingWorld ++ evs
       /\ converted evs = [].
Proof.
  assert (H : snd (convertGribToJson (brokenConverter []) 205 "2024030100" 1709251200000
                     pendingWorld) = Rejected ConversionError) by (vm_compute; reflexivity).
  split; [exact H|]. split; [vm_compute; reflexivity|].
  exact (conversion_rejects_with_three_errors (brokenConverter []) 205 "2024030100"
           1709251200000 pendingWorld ConversionError H).
Defined.

(** X12.  Without its raw artifact, and with a provider that never answers
    200, a conversion fails with [Failed to download data for <key>]: on a
    host whose clock does not run backwards it rejects within 162 steps, the
    converter is not run, and the cache is as it was, but for the structured
    area, which now exists. *)
Theorem conversion_without_raw_artifact_fails
    (env : Env) (fuel : nat) (k : string) (d : Z) (w : World) :
  existsGrib (fs w) (gribName k) = false ->
  (forall n s, failed (net env n s) = true) ->
  (forall n, 0 <= latency env n) ->
  - msPerDay <= clock w + tz env * msPerMinute ->
  (162 <= fuel)%nat ->
  let res := convertGribToJson env fuel k d w in
  snd res = Rejected (DownloadFailed k)
  /\ conversions (fst res) = conversions w
  /\ fs (fst res) = mkdirJson (fs w).
Proof.
  intros Hg Hdown Hlat Hc Hf. cbv zeta.
  destruct fuel as [|fuel]; [lia|].
  cbn [convertGribToJson].
  set (w0 := setFS (mkdirJson (fs w)) w).
  assert (Hg0 : existsGrib (fs w0) (k ++ ".f000") = false) by exact Hg.
  rewrite Hg0. cbn [negb].
  destruct (getGribData_provider_down env fuel d w0 Hdown Hlat Hc ltac:(lia)) as [O F].
  destruct (getGribData_frame env fuel d w0) as (N & _).
  cbv zeta in N.
  destruct (getGribData env fuel d w0) as [w1 out]. cbn [fst snd] in *.
  rewrite O. cbn [unavailable stamp truthy andb fst snd].
  split; [reflexivity|]. split; [exact N|exact F].
Qed.

Lemma conversion_without_raw_artifact_fails_witness :
  existsGrib (fs coldStart) (gribName "2024030100") = false
  /\ (forall n s, failed (net providerDown n s) = true)
  /\ (forall n, 0 <= latency providerDown n)
  /\ - msPerDay <= clock coldStart + tz providerDown * msPerMinute
  /\ (162 <= 162)%nat
  /\ snd (convertGribToJson providerDown 162 "2024030100" 1709251200000 coldStart)
     = Rejected (DownloadFailed "2024030100")
  /\ conversions (fst (convertGribToJson providerDown 162 "2024030100" 1709251200000
                         coldStart)) = conversions coldStart
  /\ fs (fst (convertGribToJson providerDown 162 "2024030100" 1709251200000 coldStart))
     = mkdirJson (fs coldStart).
Proof.
  assert (H0 : existsGrib (fs coldStart) (gribName "2024030100") = false) by reflexivity.
  assert (H1 : forall n s, failed (net providerDown n s) = true) by (intros; reflexivity).
  assert (H2 : forall n, 0 <= latency providerDown n) by (intros n; simpl; lia).
  assert (H3 : - msPerDay <= clock coldStart + tz providerDown * msPerMinute)
    by (vm_compute; discriminate).
  assert (H4 : (162 <= 162)%nat) by lia.
  split; [exact H0|]. split; [exact H1|]. split; [exact H2|]. split; [exact H3|].
  split; [exact H4|].
  exact (conversion_without_raw_artifact_fails providerDown 162 "2024030100" 1709251200000
           coldStart H0 H1 H2 H3 H4).
Defined.

End ConvertEffects.

(** ** CacheStore, further *)

Module CacheEffects.
Import JSDate JSString TimeKey CacheFS Service Scenarios.
Import CacheFacts.
Local Open Scope string_scope.

(** X13.  [cleanupFiles] throws exactly when one of the two areas is
    missing.  Otherwise it only removes files: it creates none, it leaves
    every modification time alone, and it keeps every file of the structured
    area whose name does not end in [.json] and every file of the raw area
    whose name does not end in [.f000]. *)
Theorem cleanupFiles_only_removes (f : FS) :
  (cleanupFiles f = None <-> jsonData f = None \/ gribData f = None)
  /\ forall f', cleanupFiles f = Some f' ->
       mtime f' = mtime f
       /\ (forall name, existsJson f' name = true -> existsJson f name = true)
       /\ (forall name, existsGrib f' name = true -> existsGrib f name = true)
       /\ (forall name, endsWith ".json" name = false ->
             existsJson f' name = existsJson f name)
       /\ (forall name, endsWith ".f000" name = false ->
             existsGrib f' name = existsGrib f name).
Proof.
  split.
  - unfold cleanupFiles.
    destruct (jsonData f) as [js|]; [|split; auto].
    destruct (gribData f) as [gs|]; [|split; auto].
    split; [discriminate|intros [H|H]; discriminate].
  - intros f' H. destruct (cleanupFiles_inv f f' H) as (js & gs & Hj & Hg & ->).
    unfold existsJson, existsGrib. cbn [jsonData gribData mtime dirHas].
    rewrite Hj, Hg. cbn [dirHas].
    split; [reflexivity|].
    split; [intros name; rewrite includes_filter; intros E;
            apply andb_true_iff in E; tauto|].
    split; [intros name; rewrite includes_filter; intros E;
            apply andb_true_iff in E; tauto|].
    split; intros name E; rewrite includes_filter.
    + unfold keepsJson. rewrite E. cbn [negb orb]. apply andb_true_r.
    + unfold keepsGrib. rewrite E. cbn [negb orb]. apply andb_true_r.
Qed.

(** Of the mixed cache, the pair stays and the two orphans go. *)
Lemma cleanupFiles_only_removes_witness :
  cleanupFiles mixedCache
  = Some (mkFS (Some ["2024030100.json"]) (Some ["2024030100.f000"]) (mtime mixedCache))
  /\ (cleanupFiles mixedCache = None
      <-> jsonData mixedCache = None \/ gribData mixedCache = None)
  /\ forall f', cleanupFiles mixedCache = Some f' ->
       mtime f' = mtime mixedCache
       /\ (forall name, existsJson f' name = true -> existsJson mixedCache name = true)
       /\ (forall name, existsGrib f' name = true -> existsGrib mixedCache name = true)
       /\ (forall name, endsWith ".json" name = false ->
             existsJson f' name = existsJson mixedCache name)
       /\ (forall name, endsWith ".f000" name = false ->
             existsGrib f' name = existsGrib mixedCache name).
Proof.
  split; [vm_compute; reflexivity|].
  exact (cleanupFiles_only_removes mixedCache).
Defined.

End CacheEffects.

(** ** FreshnessMonitor, further *)

Module FreshnessEffects.
Import JSDate JSString TimeKey CacheFS Service FetchShape ConvertShape SearchShape Scenarios.
Import CalendarFacts TimeKeyFacts CacheFacts FetchFacts ConvertFacts FreshnessFacts.
Import Hosts KeepShape FetchEffects ConvertEffects.
Local Open Scope string_scope.

(** A conversion does not turn the clock back. *)
Lemma convertGribToJson_clock (env : Env) (fuel : nat) (s : string) (d : Z) (w : World) :
  (forall n, 0 <= latency env n) ->
  (forall n, 0 <= convTime env n) ->
  clock w <= clock (fst (convertGribToJson env fuel s d w)).
Proof.
  intros Hlat Hconv.
  apply (convertGribToJson_rel env (fun w w' => clock w <= clock w')).
  - intros; lia.
  - intros; lia.
  - intros; cbn [setFS clock]; lia.
  - intros f t w0. apply getGribData_clock. exact Hlat.
  - intros k w0 _ _ _. cbn [emit setFS elapse countConversion clock].
    pose proof (Hconv (conversions w0)). lia.
  - intros k w0 _. cbn [emit setFS elapse countConversion clock].
    pose proof (Hconv (conversions w0)). lia.
Qed.

(** One task run on its own: its chain resolves, and the conversion it
    may start settles, rejecting with one of three errors at worst. *)
Lemma runFreshnessTask_settles (env : Env) (fuel : nat) (task : FreshnessTask) (w : World) :
  (forall n, 0 <= latency env n) ->
  (forall n, 0 <= convTime env n) ->
  - msPerDay <= clock w + tz env * msPerMinute ->
  (205 <= fuel)%nat ->
  chain (snd (runFreshnessTask env fuel task w)) = Resolved tt
  /\ match detached (snd (runFreshnessTask env fuel task w)) with
     | None => True
     | Some settled =>
         settled <> OutOfFuel
         /\ forall e, settled = Rejected e ->
              e = ConversionError \/ e = WriteError \/ exists s, e = DownloadFailed s
     end.
Proof.
  intros Hlat Hconv Hc Hf. unfold runFreshnessTask.
  destruct (taskDate task) as [date|]; [|cbn [fst snd chain detached]; auto].
  pose proof (getGribData_terminates env fuel date w Hlat Hc ltac:(lia)) as T.
  pose proof (getGribData_clock env fuel date w Hlat) as C.
  destruct (getGribData env fuel date w) as [w1 [resp|e|]]; cbn [fst snd] in *;
    [|cbn [chain detached]; auto|contradiction].
  destruct (truthy (stamp resp) && downloaded resp);
    [|cbn [snd chain detached]; auto].
  destruct (stamp resp) as [s|]; [|cbn [snd chain detached]; auto].
  destruct (targetDate resp) as [d|]; [|cbn [snd chain detached]; auto].
  pose proof (convertGribToJson_settles env fuel s d w1 Hlat Hconv ltac:(lia) Hf) as T2.
  pose proof (convertGribToJson_outcome env fuel s d w1) as O2.
  destruct (convertGribToJson env fuel s d w1) as [w2 settled].
  cbn [fst snd chain detached] in *.
  split; [reflexivity|]. split; [exact T2|].
  intros e ->. exact O2.
Qed.

(** X14.  A freshness check throws exactly when the structured area is
    missing.  Each task it starts, run on its own on a host whose clock does
    not run backwards, has a promise chain that resolves, a rejection of the
    fetch being caught; the conversion the chain may start is neither
    awaited nor caught: it settles on its own (205 steps for each fetch and
    conversion are enough), and when it rejects, with the converter's error,
    the error of a write stream or [Failed to download data for ..], nothing
    handles the rejection. *)
Theorem freshness_check_settles
    (env : Env) (fuel : nat) (maxAgeHours : Z) (w : World) :
  (forall n, 0 <= latency env n) ->
  (forall n, 0 <= convTime env n) ->
  - msPerDay <= clock w + tz env * msPerMinute ->
  (205 <= fuel)%nat ->
  (checkDataFreshness maxAgeHours w = None <-> jsonData (fs w) = None)
  /\ forall task,
       chain (snd (runFreshnessTask env fuel task w)) = Resolved tt
       /\ match detached (snd (runFreshnessTask env fuel task w)) with
          | None => True
          | Some settled =>
              settled <> OutOfFuel
              /\ forall e, settled = Rejected e ->
                   e = ConversionError \/ e = WriteError
                   \/ exists s, e = DownloadFailed s
          end.
Proof.
  intros Hlat Hconv Hc Hf. split.
  - unfold checkDataFreshness. destruct (jsonData (fs w)).
    + split; discriminate.
    + split; reflexivity.
  - intros task. apply runFreshnessTask_settles; assumption.
Qed.

(** The converter is broken: the chain of the one task of the stale world
    resolves, and the conversion it started rejects. *)
Lemma freshness_check_settles_witness :
  (forall n, 0 <= latency (brokenConverter ["2024022918"]) n)
  /\ (forall n, 0 <= convTime (brokenConverter ["2024022918"]) n)
  /\ - msPerDay <= clock staleWorld + tz (brokenConverter ["2024022918"]) * msPerMinute
  /\ (205 <= 205)%nat
  /\ checkDataFreshness 24 staleWorld = Some [mkTask "2024030100" (Some 1709251200000)]
  /\ snd (runFreshnessTask (brokenConverter ["2024022918"]) 205
            (mkTask "2024030100" (Some 1709251200000)) staleWorld)
     = mkTaskRun (Resolved tt) (Some (Rejected ConversionError))
  /\ (checkDataFreshness 24 staleWorld = None <-> jsonData (fs staleWorld) = None)
  /\ forall task,
       chain (snd (runFreshnessTask (brokenConverter ["2024022918"]) 205 task staleWorld))
       = Resolved tt
       /\ match detached (snd (runFreshnessTask (brokenConverter ["2024022918"]) 205 task
                                 staleWorld)) with
          | None => True
          | Some settled =>
              settled <> OutOfFuel
              /\ forall e, settled = Rejected e ->
                   e = ConversionError \/ e = WriteError
                   \/ exists s, e = DownloadFailed s
          end.
Proof.
  assert (H1 : forall n, 0 <= latency (brokenConverter ["2024022918"]) n)
    by (intros n; simpl; lia).
  assert (H2 : forall n, 0 <= convTime (brokenConverter ["2024022918"]) n)
    by (intros n; simpl; lia).
  assert (H3 : - msPerDay
               <= clock staleWorld + tz (brokenConverter ["2024022918"]) * msPerMinute)
    by (vm_compute; discriminate).
  assert (H4 : (205 <= 205)%nat) by lia.
  split; [exact H1|]. split; [exact H2|]. split; [exact H3|]. split; [exact H4|].
  split; [vm_compute; reflexivity|]. split; [vm_compute; reflexivity|].
  exact (freshness_check_settles (brokenConverter ["2024022918"]) 205 24 staleWorld
           H1 H2 H3 H4).
Defined.

(** *** What is on disk is not written again *)

Lemma preserved_refl (w : World) : preserved w w.
Proof. intros name H. auto. Qed.

Lemma preserved_trans (a b c : World) : preserved a b -> preserved b c -> preserved a c.
Proof.
  intros H1 H2 name H. destruct (H1 name H) as [E1 M1].
  destruct (H2 name E1) as [E2 M2]. split; [exact E2|congruence].
Qed.

Lemma preserved_same (w w' : World) :
  jsonData (fs w') = jsonData (fs w) -> mtime (fs w') = mtime (fs w) -> preserved w w'.
Proof.
  intros J M name H. unfold existsJson in *. rewrite J, M. auto.
Qed.

Lemma getGribData_preserved (env : Env) (fuel : nat) (t : Z) (w : World) :
  preserved w (fst (getGribData env fuel t w)).
Proof.
  destruct (getGribData_frame env fuel t w) as (_ & J & M & _). cbv zeta in *.
  apply preserved_same; assumption.
Qed.

(** The key a fetch downloaded has no structured artifact. *)
Lemma getGribData_downloaded_absent (env : Env) (fuel : nat) (t : Z) (w w1 : World)
    (resp : GribDataResponse) :
  getGribData env fuel t w = (w1, Resolved resp) ->
  truthy (stamp resp) && downloaded resp = true ->
  exists s' d',
    stamp resp = Some s' /\ targetDate resp = Some d'
    /\ existsJson (fs w1) (s' ++ ".json") = false.
Proof.
  intros E H. apply andb_true_iff in H. destruct H as [_ Hd].
  destruct (getGribData_frame env fuel t w) as (_ & J & _). cbv zeta in J.
  rewrite getGribData_start in E, J.
  pose proof (runQuery_cache env fuel
                (Z.min t (getLatestAvailableTimestamp (tz env) (clock w))) 0 w resp) as C.
  rewrite E in C, J. cbn [fst snd] in *.
  specialize (C eq_refl). cbv zeta in C. rewrite Hd in C.
  destruct C as (d' & T & S & A & _).
  exists (formatDateStamp (tz env) d'), d'.
  split; [exact S|]. split; [exact T|].
  unfold existsJson, jsonName in *. rewrite J. exact A.
Qed.

Lemma convertGribToJson_preserved (env : Env) (fuel : nat) :
  forall s d w,
    existsJson (fs w) (s ++ ".json") = false ->
    preserved w (fst (convertGribToJson env fuel s d w)).
Proof.
  induction fuel as [|fuel IH]; intros s d w Hs; [apply preserved_refl|].
  cbn [convertGribToJson].
  assert (H0 : preserved w (setFS (mkdirJson (fs w)) w)).
  { intros name H. unfold existsJson in *. cbn [setFS fs mkdirJson jsonData mtime].
    rewrite dirHas_mkdir. auto. }
  assert (Hs0 : existsJson (fs (setFS (mkdirJson (fs w)) w)) (s ++ ".json") = false).
  { unfold existsJson in *. cbn [setFS fs mkdirJson jsonData]. rewrite dirHas_mkdir.
    exact Hs. }
  set (w0 := setFS (mkdirJson (fs w)) w) in *.
  destruct (existsGrib (fs w0) (s ++ ".f000")); cbn [negb].
  - set (w1 := elapse (convTime env (conversions w0)) (countConversion w0)).
    destruct (converter env (conversions w0) s).
    + set (w2 := emit (EvConvert s true)
                   (setFS (unlinkGrib (s ++ ".f000")
                             (writeJson (s ++ ".json") (clock w1) (fs w1))) w1)).
      assert (H2 : preserved w w2).
      { apply (preserved_trans _ _ _ H0). intros name H.
        unfold w2, w1, existsJson in *.
        cbn [emit setFS fs elapse countConversion unlinkGrib writeJson jsonData mtime].
        rewrite dirHas_addFile_some by (apply (dirHas_some _ _ H)).
        rewrite H. split; [apply orb_true_r|].
        destruct (String.eqb_spec name (s ++ ".json")) as [->|]; [congruence|reflexivity]. }
      destruct (existsJson (fs w2)
                  (formatDateStamp (tz env) (subHours d 6) ++ ".json")); cbn [negb];
        [exact H2|].
      pose proof (preserved_trans _ _ _ H2
                    (getGribData_preserved env fuel (subHours d 6) w2)) as H3.
      destruct (getGribData env fuel (subHours d 6) w2) as [w3 [resp|e|]] eqn:E3;
        cbn [fst] in H3; try exact H3.
      destruct (truthy (stamp resp) && downloaded resp) eqn:Hd; [|exact H3].
      destruct (getGribData_downloaded_absent env fuel _ w2 w3 resp E3 Hd)
        as (s' & d' & -> & -> & A).
      pose proof (preserved_trans _ _ _ H3 (IH s' d' w3 A)) as H4.
      destruct (convertGribToJson env fuel s' d' w3) as [w4 [u|e|]]; exact H4.
    + exact H0.
  - pose proof (preserved_trans _ _ _ H0 (getGribData_preserved env fuel d w0)) as H1.
    destruct (getGribData env fuel d w0) as [w1 [resp|e|]] eqn:E1;
      cbn [fst] in H1; try exact H1.
    destruct (truthy (stamp resp) && downloaded resp) eqn:Hd; [|exact H1].
    destruct (getGribData_downloaded_absent env fuel _ w0 w1 resp E1 Hd)
      as (s' & d' & -> & -> & A).
    exact (preserved_trans _ _ _ H1 (IH s' d' w1 A)).
Qed.

Lemma runFreshnessTask_preserved (env : Env) (fuel : nat) (task : FreshnessTask) (w : World) :
  preserved w (fst (runFreshnessTask env fuel task w)).
Proof.
  unfold runFreshnessTask.
  destruct (taskDate task) as [date|]; [|apply preserved_refl].
  pose proof (getGribData_preserved env fuel date w) as H1.
  destruct (getGribData env fuel date w) as [w1 [resp|e|]] eqn:E1;
    cbn [fst] in *; try exact H1.
  destruct (truthy (stamp resp) && downloaded resp) eqn:Hd; [|exact H1].
  destruct (getGribData_downloaded_absent env fuel _ w w1 resp E1 Hd)
    as (s' & d' & -> & -> & A).
  pose proof (preserved_trans _ _ _ H1 (convertGribToJson_preserved env fuel s' d' w1 A))
    as H2.
  destruct (convertGribToJson env fuel s' d' w1) as [w2 settled]; exact H2.
Qed.

(** X15.  A freshness task, run on its own, writes no structured artifact
    again: an artifact that is on disk when the task starts, stale or not,
    is on disk when the task and the conversion it may start are done, with
    the modification time it had. *)
Theorem freshness_rewrites_no_artifact
    (env : Env) (fuel : nat) (task : FreshnessTask) (w : World) (name : string) :
  existsJson (fs w) name = true ->
  existsJson (fs (fst (runFreshnessTask env fuel task w))) name = true
  /\ mtime (fs (fst (runFreshnessTask env fuel task w))) name = mtime (fs w) name.
Proof. apply runFreshnessTask_preserved. Qed.

(** The stale artifact of 2024030100 stays as it is, while the key before
    it is downloaded and converted. *)
Lemma freshness_rewrites_no_artifact_witness :
  let env := providerWith ["2024022918"] in
  let w' := fst (runFreshnessTask env 205 (mkTask "2024030100" (Some 1709251200000))
                   staleWorld) in
  existsJson (fs staleWorld) "2024030100.json" = true
  /\ converted (log w') = ["2024022918"]
  /\ existsJson (fs w') "2024030100.json" = true
  /\ mtime (fs w') "2024030100.json" = mtime (fs staleWorld) "2024030100.json".
Proof.
  cbv zeta.
  assert (H : existsJson (fs staleWorld) "2024030100.json" = true) by reflexivity.
  split; [exact H|]. split; [vm_compute; reflexivity|].
  exact (freshness_rewrites_no_artifact (providerWith ["2024022918"]) 205
           (mkTask "2024030100" (Some 1709251200000)) staleWorld "2024030100.json" H).
Defined.

(** *** Which artifacts are stale *)

(** X23.  A freshness check starts one task for each file of the
    structured area whose name ends in [.json] and whose age in whole hours
    (rounded towards zero) exceeds the threshold, in listing order, and for
    no other file: the artifact of a key is stale exactly when it is at
    least [maxAgeHours + 1] hours old.  The task of the artifact of key [k]
    carries [k] and the date read from [k], and it begins with the fetch of
    that date. *)
Theorem freshness_starts_one_task_per_stale_artifact
    (env : Env) (maxAgeHours : Z) (w : World) (js : list string) :
  jsonData (fs w) = Some js ->
  0 <= maxAgeHours ->
  checkDataFreshness maxAgeHours w
  = Some (map freshnessTaskOf (staleArtifacts maxAgeHours w))
  /\ (forall k, isKey k = true ->
        (In (jsonName k) (staleArtifacts maxAgeHours w)
         <-> In (jsonName k) js
             /\ (maxAgeHours + 1) * msPerHour <= clock w - mtime (fs w) (jsonName k))
        /\ freshnessTaskOf (jsonName k) = mkTask k (stampToDate k))
  /\ (forall fuel task w0 d,
        taskDate task = Some d ->
        exists evs,
          log (fst (runFreshnessTask env fuel task w0))
          = (log (fst (getGribData env fuel d w0)) ++ evs)%list).
Proof.
  intros Hj Hm. split; [apply (checkDataFreshness_tasks _ _ js Hj)|]. split.
  - intros k Hk. split.
    + unfold staleArtifacts. rewrite Hj. cbn [listing]. rewrite filter_In.
      unfold jsonName at 2. rewrite endsWith_app. cbn [andb].
      rewrite (isStale_iff _ _ _ _ Hm). reflexivity.
    + unfold freshnessTaskOf. rewrite (removeFirst_jsonName k Hk). reflexivity.
  - intros fuel task w0 d Hd. apply runFreshnessTask_fetch_first. exact Hd.
Qed.

(** Thirty hours old, the artifact of 2024030100 is stale at a threshold of
    24; 24 hours and 30 minutes old, it is not. *)
Lemma freshness_starts_one_task_per_stale_artifact_witness :
  jsonData (fs staleWorld) = Some ["2024030100.json"]
  /\ 0 <= 24
  /\ checkDataFreshness 24 staleWorld = Some [mkTask "2024030100" (Some 1709251200000)]
  /\ checkDataFreshness 24 halfHourWorld = Some []
  /\ checkDataFreshness 24 staleWorld
     = Some (map freshnessTaskOf (staleArtifacts 24 staleWorld))
  /\ (forall k, isKey k = true ->
        (In (jsonName k) (staleArtifacts 24 staleWorld)
         <-> In (jsonName k) ["2024030100.json"]
             /\ (24 + 1) * msPerHour
                <= clock staleWorld - mtime (fs staleWorld) (jsonName k))
        /\ freshnessTaskOf (jsonName k) = mkTask k (stampToDate k))
  /\ (forall fuel task w0 d,
        taskDate task = Some d ->
        exists evs,
          log (fst (runFreshnessTask (providerWith []) fuel task w0))
          = (log (fst (getGribData (providerWith []) fuel d w0)) ++ evs)%list).
Proof.
  split; [reflexivity|]. split; [lia|].
  split; [vm_compute; reflexivity|]. split; [vm_compute; reflexivity|].
  apply (freshness_starts_one_task_per_stale_artifact
           (providerWith []) 24 staleWorld ["2024030100.json"]);
    [reflexivity|lia].
Defined.

End FreshnessEffects.

(** ** The route [/latest] *)

Module RouteFacts.
Import JSDate JSString TimeKey CacheFS Service FetchShape ConvertShape Scenarios.
Import Hosts Routes RouteScenarios.
Import CalendarFacts TimeKeyFacts CacheFacts FetchFacts ConvertFacts FreshnessFacts.
Import KeyFacts FetchEffects ConvertEffects FreshnessEffects.
Local Open Scope string_scope.

(** The key [runQuery] names is the key of the date it returns, which is
    not after the date it started from. *)
Lemma runQuery_named (env : Env) (fuel : nat) (d r : Z) (w : World)
    (resp : GribDataResponse) (s : string) :
  snd (runQuery env fuel d r w) = Resolved resp ->
  stamp resp = Some s ->
  exists d', targetDate resp = Some d' /\ s = formatDateStamp (tz env) d' /\ d' <= d.
Proof.
  revert fuel d r w.
  apply (runQuery_cases env
           (fun _ d r w res =>
              snd res = Resolved resp -> stamp resp = Some s ->
              exists d', targetDate resp = Some d'
                         /\ s = formatDateStamp (tz env) d' /\ d' <= d)).
  - intros; discriminate.
  - intros f d r w _ H T. cbn [snd] in H. injection H as <-. discriminate.
  - intros f d r w res _ _ _ IH H T. exact (IH H T).
  - intros f d r w res _ _ _ IH H T. destruct (IH H T) as (d' & A & B & C).
    exists d'. unfold subHours, msPerHour in C. repeat split; try assumption. lia.
  - intros f d r w _ _ _ _ H T. cbn [snd] in H. injection H as <-.
    cbn [targetDate stamp] in *. injection T as <-. exists d.
    split; [reflexivity|]. split; [reflexivity|lia].
  - intros; discriminate.
  - intros f d r w _ _ _ H T. cbn [snd] in H. injection H as <-.
    cbn [targetDate stamp] in *. injection T as <-. exists d.
    split; [reflexivity|]. split; [reflexivity|lia].
Qed.

(** What a fetch answers, and what it leaves of the cache. *)
Lemma getGribData_response (env : Env) (fuel : nat) (t : Z) (w w1 : World)
    (resp : GribDataResponse) :
  getGribData env fuel t w = (w1, Resolved resp) ->
  (forall s, stamp resp = Some s ->
     exists d, targetDate resp = Some d /\ s = formatDateStamp (tz env) d /\ d <= t)
  /\ if downloaded resp
     then exists s, stamp resp = Some s /\ truthy (stamp resp) = true
                    /\ existsJson (fs w1) (s ++ ".json") = false
     else fs w1 = fs w
          /\ forall s, stamp resp = Some s -> existsJson (fs w) (s ++ ".json") = true.
Proof.
  intros E.
  destruct (getGribData_frame env fuel t w) as (_ & J & _). cbv zeta in J.
  rewrite getGribData_start in E, J.
  set (start := Z.min t (getLatestAvailableTimestamp (tz env) (clock w))) in *.
  pose proof (runQuery_cache env fuel start 0 w resp) as C.
  assert (N : forall s, stamp resp = Some s ->
                exists d, targetDate resp = Some d
                          /\ s = formatDateStamp (tz env) d /\ d <= start).
  { intros s. apply (runQuery_named env fuel start 0 w resp s). rewrite E. reflexivity. }
  rewrite E in C, J. cbn [fst snd] in *. specialize (C eq_refl). cbv zeta in C.
  split.
  - intros s Hs. destruct (N s Hs) as (d & A & B & L). exists d.
    repeat split; try assumption. unfold start in L. lia.
  - destruct (downloaded resp); [|exact C].
    destruct C as (d & T & S & A & _).
    exists (formatDateStamp (tz env) d). split; [exact S|].
    unfold existsJson, jsonName in *. rewrite J. split; [|exact A].
    rewrite S. cbn [truthy].
    destruct (String.eqb_spec (formatDateStamp (tz env) d) "") as [e|]; [|reflexivity].
    exfalso. exact (formatDateStamp_nonempty _ _ e).
Qed.


Lemma six_hours_before (d t : Z) : d <= subHours t 6 -> d <= t - stepMs.
Proof. unfold subHours, stepMs. lia. Qed.

(** What the handler has found when it sends an artifact. *)
Lemma latestRoute_sent (env : Env) (readFile : string -> FileRead) (fuel : nat) (w : World) :
  match snd (latestRoute env readFile fuel w) with
  | Some (SendJson s) =>
      exists d,
        s = formatDateStamp (tz env) d
        /\ d <= getLatestAvailableTimestamp (tz env) (clock w) - stepMs
        /\ existsJson (fs w) (jsonName s) = true
        /\ readFile (jsonName s) = Parsed
        /\ fs (fst (latestRoute env readFile fuel w)) = fs w
  | _ => True
  end.
Proof.
  unfold latestRoute. cbv zeta.
  set (latest := getLatestAvailableTimestamp (tz env) (clock w)).
  destruct (getGribData env fuel latest w) as [w1 [first|e|]] eqn:E1;
    cbn [fst snd]; try exact I.
  destruct (getGribData_response env fuel latest w w1 first E1) as [N1 C1].
  destruct (downloaded first) eqn:D1; cbn [negb].
  - destruct C1 as (s1 & S1 & T1 & A1). rewrite T1, S1, A1.
    destruct (targetDate first) as [d1|]; [|exact I].
    destruct (convertGribToJson env fuel s1 d1 w1) as [w3 [u|e|]]; exact I.
  - destruct C1 as [F1 _].
    destruct (getGribData env fuel (subHours latest 6) w1) as [w2 [g|e|]] eqn:E2;
      cbn [fst snd]; try exact I.
    destruct (getGribData_response env fuel (subHours latest 6) w1 w2 g E2) as [N2 C2].
    destruct (truthy (stamp g)); [|exact I].
    destruct (stamp g) as [s2|] eqn:S2; [|exact I].
    destruct (existsJson (fs w2) (s2 ++ ".json")) eqn:X2.
    + destruct (readFile (s2 ++ ".json")) eqn:R; cbn [fst snd]; try exact I.
      destruct (downloaded g).
      * destruct C2 as (s3 & S3 & _ & A3). injection S3 as <-. congruence.
      * destruct C2 as [F2 Y2]. destruct (N2 s2 eq_refl) as (d & T & K & L).
        exists d. split; [exact K|].
        split; [exact (six_hours_before d latest L)|].
        split; [unfold jsonName; rewrite <- F1; exact (Y2 s2 eq_refl)|].
        split; [exact R|congruence].
    + destruct (targetDate g) as [d2|]; [|exact I].
      destruct (convertGribToJson env fuel s2 d2 w2) as [w3 [u|e|]]; exact I.
Qed.

(** X16.  [/latest] does not send the latest key.  When the handler sends
    the contents of a structured artifact, the key is that of a date at
    least six hours before the latest available timestamp: a first fetch
    that finds the latest key cached counts as a miss, and the handler moves
    on to the six hours before.  The artifact it sends was on disk when
    the request came in, and the request has changed nothing in the cache. *)
Theorem latest_sends_an_older_key
    (env : Env) (readFile : string -> FileRead) (fuel : nat) (w w' : World) (s : string) :
  latestRoute env readFile fuel w = (w', Some (SendJson s)) ->
  exists d,
    s = formatDateStamp (tz env) d
    /\ d <= getLatestAvailableTimestamp (tz env) (clock w) - stepMs
    /\ existsJson (fs w) (jsonName s) = true
    /\ readFile (jsonName s) = Parsed
    /\ fs w' = fs w.
Proof.
  intros H. pose proof (latestRoute_sent env readFile fuel w) as P.
  rewrite H in P. exact P.
Qed.

(** At 13:00Z the latest available key is 2024030106; it is cached, and so
    is 2024030100, which is the one sent. *)
Lemma latest_sends_an_older_key_witness :
  let env := providerWith ["2024030100"; "2024030106"] in
  let w' := fst (latestRoute env readable 5 warmWorld) in
  latestRoute env readable 5 warmWorld = (w', Some (SendJson "2024030100"))
  /\ existsJson (fs warmWorld) (jsonName "2024030106") = true
  /\ exists d,
       "2024030100" = formatDateStamp (tz env) d
       /\ d <= getLatestAvailableTimestamp (tz env) (clock warmWorld) - stepMs
       /\ existsJson (fs warmWorld) (jsonName "2024030100") = true
       /\ readable (jsonName "2024030100") = Parsed
       /\ fs w' = fs warmWorld.
Proof.
  cbv zeta.
  assert (H : latestRoute (providerWith ["2024030100"; "2024030106"]) readable 5 warmWorld
              = (fst (latestRoute (providerWith ["2024030100"; "2024030106"]) readable 5
                        warmWorld), Some (SendJson "2024030100")))
    by (vm_compute; reflexivity).
  split; [exact H|]. split; [reflexivity|].
  exact (latest_sends_an_older_key (providerWith ["2024030100"; "2024030106"]) readable 5
           warmWorld _ "2024030100" H).
Defined.

(** X17.  When no request comes back with status 200, [/latest] answers
    404: on a host whose clock does not run backwards the handler settles
    (161 steps for each of its two fetches are enough), it answers
    [No data available], and the cache is as it was. *)
Theorem latest_provider_down
    (env : Env) (readFile : string -> FileRead) (fuel : nat) (w : World) :
  (forall n s, failed (net env n s) = true) ->
  (forall n, 0 <= latency env n) ->
  - msPerDay <= clock w + tz env * msPerMinute ->
  (161 <= fuel)%nat ->
  snd (latestRoute env readFile fuel w)
  = Some (Status 404 "No data available. Please try again later.")
  /\ fs (fst (latestRoute env readFile fuel w)) = fs w.
Proof.
  intros Hdown Hlat Hc Hf. unfold latestRoute. cbv zeta.
  set (latest := getLatestAvailableTimestamp (tz env) (clock w)).
  destruct (getGribData_provider_down env fuel latest w Hdown Hlat Hc Hf) as [O1 F1].
  pose proof (getGribData_clock env fuel latest w Hlat) as C1.
  destruct (getGribData env fuel latest w) as [w1 out1]. cbn [fst snd] in *. subst out1.
  cbn [unavailable downloaded negb].
  destruct (getGribData_provider_down env fuel (subHours latest 6) w1 Hdown Hlat
              ltac:(lia) Hf) as [O2 F2].
  destruct (getGribData env fuel (subHours latest 6) w1) as [w2 out2].
  cbn [fst snd] in *. subst out2.
  cbn [unavailable stamp truthy fst snd]. split; [reflexivity|congruence].
Qed.

Lemma latest_provider_down_witness :
  (forall n s, failed (net providerDown n s) = true)
  /\ (forall n, 0 <= latency providerDown n)
  /\ - msPerDay <= clock warmWorld + tz providerDown * msPerMinute
  /\ (161 <= 161)%nat
  /\ snd (latestRoute providerDown readable 161 warmWorld)
     = Some (Status 404 "No data available. Please try again later.")
  /\ fs (fst (latestRoute providerDown readable 161 warmWorld)) = fs warmWorld.
Proof.
  assert (H1 : forall n s, failed (net providerDown n s) = true) by (intros; reflexivity).
  assert (H2 : forall n, 0 <= latency providerDown n) by (intros n; simpl; lia).
  assert (H3 : - msPerDay <= clock warmWorld + tz providerDown * msPerMinute)
    by (vm_compute; discriminate).
  assert (H4 : (161 <= 161)%nat) by lia.
  split; [exact H1|]. split; [exact H2|]. split; [exact H3|]. split; [exact H4|].
  exact (latest_provider_down providerDown readable 161 warmWorld H1 H2 H3 H4).
Defined.

(** X18.  What [/latest] answers.  On a host whose clock does not run
    backwards the handler settles (205 steps for each fetch and conversion
    are enough).  It answers 202 only after the converter has succeeded on
    some key during the request; what it passes to [next] is the error of a
    write stream, the converter's error or [Failed to download data for ..];
    and it answers 500 only for an artifact that is on disk and does not
    read. *)
Theorem latest_replies
    (env : Env) (readFile : string -> FileRead) (fuel : nat) (w : World) :
  (forall n, 0 <= latency env n) ->
  (forall n, 0 <= convTime env n) ->
  - msPerDay <= clock w + tz env * msPerMinute ->
  (205 <= fuel)%nat ->
  let w' := fst (latestRoute env readFile fuel w) in
  exists reply,
    snd (latestRoute env readFile fuel w) = Some reply
    /\ match reply with
       | SendJson s => existsJson (fs w') (jsonName s) = true /\ readFile (jsonName s) = Parsed
       | Status code _ =>
           (code = 202
            /\ (List.length (converted (log w)) < List.length (converted (log w')))%nat)
           \/ code = 404
           \/ (code = 500
               /\ exists s, existsJson (fs w') (jsonName s) = true
                            /\ readFile (jsonName s) <> Parsed)
       | Next e => e = ConversionError \/ e = WriteError \/ exists s, e = DownloadFailed s
       end.
Proof.
  intros Hlat Hconv Hc Hf. unfold latestRoute. cbv zeta.
  set (latest := getLatestAvailableTimestamp (tz env) (clock w)).
  pose proof (getGribData_terminates env fuel latest w Hlat Hc ltac:(lia)) as T1.
  pose proof (getGribData_clock env fuel latest w Hlat) as C1.
  destruct (getGribData_frame env fuel latest w) as (_ & _ & _ & V1). cbv zeta in V1.
  destruct (getGribData env fuel latest w) as [w1 [first|e|]] eqn:E1; cbn [fst snd] in *;
    [|exists (Next e); split; [reflexivity|];
      right; left; exact (getGribData_rejects env fuel latest w w1 e E1)
     |contradiction].
  set (second := if negb (downloaded first)
                 then getGribData env fuel (subHours latest 6) w1
                 else (w1, Resolved first)).
  assert (S2 : match second with
               | (w2, Resolved g) =>
                   clock w <= clock w2
                   /\ converted (log w2) = converted (log w)
                   /\ (forall s, stamp g = Some s -> exists d, targetDate g = Some d)
               | (w2, Rejected e) => e = WriteError
               | (w2, OutOfFuel) => False
               end).
  { unfold second. destruct (downloaded first); cbn [negb].
    - split; [exact C1|]. split; [exact V1|].
      intros s Hs.
      destruct (proj1 (getGribData_response env fuel latest w w1 first E1) s Hs)
        as (d & T & _). eauto.
    - pose proof (getGribData_terminates env fuel (subHours latest 6) w1 Hlat
                    ltac:(lia) ltac:(lia)) as T2.
      pose proof (getGribData_clock env fuel (subHours latest 6) w1 Hlat) as C2.
      destruct (getGribData_frame env fuel (subHours latest 6) w1) as (_ & _ & _ & V2).
      cbv zeta in V2.
      destruct (getGribData env fuel (subHours latest 6) w1) as [w2 [g|e|]] eqn:E2;
        cbn [fst snd] in *.
      + split; [lia|]. split; [congruence|].
        intros s Hs.
        destruct (proj1 (getGribData_response env fuel _ w1 w2 g E2) s Hs)
          as (d & T & _). eauto.
      + exact (getGribData_rejects env fuel _ w1 w2 e E2).
      + contradiction. }
  destruct second as [w2 [g|e|]]; cbn [fst snd];
    [|exists (Next e); split; [reflexivity|]; right; left; exact S2|contradiction].
  destruct S2 as (C2 & V2 & N2).
  destruct (truthy (stamp g));
    [|cbn [fst snd]; eexists; split; [reflexivity|]; right; left; reflexivity].
  destruct (stamp g) as [s|] eqn:Sg;
    [|cbn [fst snd]; eexists; split; [reflexivity|]; right; left; reflexivity].
  destruct (existsJson (fs w2) (s ++ ".json")) eqn:X.
  - destruct (readFile (s ++ ".json")) eqn:R; cbn [fst snd]; eexists;
      (split; [reflexivity|]).
    + split; assumption.
    + right; right. split; [reflexivity|]. exists s. unfold jsonName. rewrite R.
      split; [exact X|discriminate].
    + right; right. split; [reflexivity|]. exists s. unfold jsonName. rewrite R.
      split; [exact X|discriminate].
    + right; right. split; [reflexivity|]. exists s. unfold jsonName. rewrite R.
      split; [exact X|discriminate].
  - destruct (N2 s eq_refl) as (d & ->).
    pose proof (convertGribToJson_settles env fuel s d w2 Hlat Hconv ltac:(lia) Hf) as T3.
    pose proof (convertGribToJson_outcome env fuel s d w2) as O3.
    destruct (convertGribToJson env fuel s d w2) as [w3 [u|e|]]; cbn [fst snd] in *;
      [| |contradiction]; eexists; (split; [reflexivity|]).
    + left. split; [reflexivity|]. rewrite <- V2. exact O3.
    + exact O3.
Qed.

(** A cold start: the latest key is downloaded and converted, and the
    answer is 202. *)
Lemma latest_replies_witness :
  let env := providerWith ["2024030106"] in
  let w' := fst (latestRoute env readable 205 coldStart) in
  (forall n, 0 <= latency env n)
  /\ (forall n, 0 <= convTime env n)
  /\ - msPerDay <= clock coldStart + tz env * msPerMinute
  /\ (205 <= 205)%nat
  /\ snd (latestRoute env readable 205 coldStart)
     = Some (Status 202 "Data is being processed. Please try again in a few moments.")
  /\ exists reply,
       snd (latestRoute env readable 205 coldStart) = Some reply
       /\ match reply with
          | SendJson s =>
              existsJson (fs w') (jsonName s) = true /\ readable (jsonName s) = Parsed
          | Status code _ =>
              (code = 202
               /\ (List.length (converted (log coldStart))
                   < List.length (converted (log w')))%nat)
              \/ code = 404
              \/ (code = 500
                  /\ exists s, existsJson (fs w') (jsonName s) = true
                               /\ readable (jsonName s) <> Parsed)
          | Next e => e = ConversionError \/ e = WriteError \/ exists s, e = DownloadFailed s
          end.
Proof.
  cbv zeta.
  assert (H1 : forall n, 0 <= latency (providerWith ["2024030106"]) n)
    by (intros n; simpl; lia).
  assert (H2 : forall n, 0 <= convTime (providerWith ["2024030106"]) n)
    by (intros n; simpl; lia).
  assert (H3 : - msPerDay <= clock coldStart + tz (providerWith ["2024030106"]) * msPerMinute)
    by (vm_compute; discriminate).
  assert (H4 : (205 <= 205)%nat) by lia.
  split; [exact H1|]. split; [exact H2|]. split; [exact H3|]. split; [exact H4|].
  split; [vm_compute; reflexivity|].
  exact (latest_replies (providerWith ["2024030106"]) readable 205 coldStart H1 H2 H3 H4).
Defined.

End RouteFacts.

(** ** NearestResolver, further *)

Module NearestEffects.
Import JSDate JSString TimeKey CacheFS Service FetchShape ConvertShape SearchShape Scenarios.
Import CalendarFacts TimeKeyFacts CacheFacts FetchFacts ConvertFacts FreshnessFacts NearestFacts.
Import FetchEffects ConvertEffects FreshnessEffects.

(** The calls of a search are made at times that are not before its start. *)
Lemma sendNearestTo_times (env : Env) (fetchFuel : nat) (limit : option Z) (fuel : nat) :
  (forall n, 0 <= latency env n) ->
  (forall n, 0 <= convTime env n) ->
  forall t f w,
  exists entries,
    nearestEntries (log (fst (sendNearestTo env fuel fetchFuel t limit f w)))
    = nearestEntries (log w) ++ entries
    /\ NearestDiscipline limit t f entries
    /\ Forall (fun e => clock w <= snd e) entries.
Proof.
  intros Hlat Hconv.
  induction fuel as [|fuel IH]; intros t f w.
  { exists []. split; [symmetry; apply app_nil_r|]. split; constructor. }
  cbn [sendNearestTo].
  set (w0 := emit (EvNearest t f (clock w)) w).
  assert (E0 : nearestEntries (log w0) = nearestEntries (log w) ++ [(t, f, clock w)])
    by apply entries_emit_nearest.
  change (clock w0) with (clock w).
  assert (Last : forall x : World * Outcome NearestResult,
             nearestEntries (log (fst x)) = nearestEntries (log w0) ->
             exists entries,
               nearestEntries (log (fst x)) = nearestEntries (log w) ++ entries
               /\ NearestDiscipline limit t f entries
               /\ Forall (fun e => clock w <= snd e) entries).
  { intros x Hx. exists [(t, f, clock w)]. rewrite Hx, E0.
    split; [reflexivity|]. split; [constructor|]. repeat constructor. cbn [snd]. lia. }
  destruct (limitReached limit (clock w) t) eqn:Hlim.
  - destruct f; cbn [negb].
    + apply Last. reflexivity.
    + rewrite limit_in_days.
      destruct (IH (t + limitDays limit * msPerDay) true w0) as (es & E & S & T).
      exists ((t, false, clock w) :: es). split.
      * rewrite E, E0, <- app_assoc. reflexivity.
      * split; [apply nd_reverse; assumption|].
        constructor; [cbn [snd]; lia|exact T].
  - assert (Step : forall w',
               nearestEntries (log w') = nearestEntries (log w0) ->
               clock w <= clock w' ->
               exists entries,
                 nearestEntries
                   (log (fst (sendNearestTo env fuel fetchFuel
                                (if f then t + 6 * 60 * 60 * 1000 else t - 6 * 60 * 60 * 1000)
                                limit f w')))
                 = nearestEntries (log w) ++ entries
                 /\ NearestDiscipline limit t f entries
                 /\ Forall (fun e => clock w <= snd e) entries).
    { intros w' Hw' Hc. rewrite sixHours.
      destruct (IH (if f then t + stepMs else t - stepMs) f w') as (es & E & S & T).
      exists ((t, f, clock w) :: es). split.
      - rewrite E, Hw', E0, <- app_assoc. reflexivity.
      - split; [apply nd_step; assumption|].
        constructor; [cbn [snd]; lia|].
        eapply Forall_impl; [|exact T]. cbv beta. intros a Ha. lia. }
    pose proof (entries_getGribData env fetchFuel t w0) as E1.
    pose proof (getGribData_clock env fetchFuel t w0 Hlat) as C1.
    change (clock w0) with (clock w) in C1.
    destruct (getGribData env fetchFuel t w0) as [w1 [resp|e|]]; cbn [fst] in E1, C1;
      try (apply Last; exact E1).
    destruct (stamp resp) as [s|]; [|apply Step; [exact E1|exact C1]].
    destruct (targetDate resp) as [d|]; [|apply Step; [exact E1|exact C1]].
    destruct (truthy (Some s)); [|apply Step; [exact E1|exact C1]].
    set (w2 := emit (EvSendFile s (existsJson (fs w1) (s ++ ".json"))) w1).
    assert (E2 : nearestEntries (log w2) = nearestEntries (log w0))
      by (unfold w2; rewrite entries_emit_sendFile; exact E1).
    pose proof (entries_convert env fetchFuel s d w2) as E3. rewrite E2 in E3.
    pose proof (convertGribToJson_clock env fetchFuel s d w2 Hlat Hconv) as C3.
    change (clock w2) with (clock w1) in C3.
    destruct (convertGribToJson env fetchFuel s d w2) as [w3 [u|e|]]; cbn [fst] in E3, C3;
      try (apply Last; exact E3);
      (destruct (existsJson (fs w1) (s ++ ".json"));
       [apply Last; exact E3|apply Step; [exact E3|lia]]).
Qed.

Lemma forward_calls_only (es : list (Z * bool * Z)) :
  Forall (fun e => snd (fst e) = true) es ->
  filter (fun e => negb (snd (fst e))) es = [].
Proof.
  induction 1 as [|e es He _ IH]; [reflexivity|].
  cbn [filter]. rewrite He. cbn [negb]. exact IH.
Qed.

Lemma backward_call_counts (t now : Z) (es : list (Z * bool * Z)) :
  filter (fun e => negb (snd (fst e))) ((t, false, now) :: es)
  = (t, false, now) :: filter (fun e => negb (snd (fst e))) es.
Proof. reflexivity. Qed.

(** Backward calls made from [c] on, from a target not after [c], with a
    limit of [l] days: one per 6-hour step that fits in the limit, and the
    call that meets the limit. *)
Lemma discipline_backward_bound (l c : Z) (t : Z) (f : bool) (es : list (Z * bool * Z)) :
  NearestDiscipline (Some l) t f es ->
  1 <= l -> f = false -> t <= c ->
  Forall (fun e => c <= snd e) es ->
  Z.of_nat (List.length (filter (fun e => negb (snd (fst e))) es))
  <= Z.max 0 ((l * msPerDay - (c - t) + stepMs - 1) / stepMs) + 1.
Proof.
  intros D Hl.
  induction D as [t f|t f now|t now rest Hr S IH|t f now rest Hr S IH]; intros Hf Ht T.
  - cbn [filter List.length]. lia.
  - subst f. rewrite backward_call_counts. cbn [filter List.length]. lia.
  - rewrite backward_call_counts.
    rewrite (forward_calls_only rest (discipline_forward _ _ _ _ S eq_refl)).
    cbn [List.length]. lia.
  - subst f. rewrite backward_call_counts. cbn [List.length].
    inversion T as [|e es' Hnow T' Eq]; subst. cbn [snd] in Hnow.
    specialize (IH eq_refl ltac:(unfold stepMs, msPerHour; lia) T').
    unfold limitReached in Hr.
    assert (Hl0 : (l =? 0) = false) by (apply Z.eqb_neq; lia).
    rewrite Hl0 in Hr. cbn [negb andb] in Hr.
    assert (Hd : Z.abs (now - t) < l * msPerDay).
    { destruct (Z.geb_spec (Z.abs (now - t)) (l * msPerDay)); [discriminate|lia]. }
    assert (Hn : c - t < l * msPerDay) by lia.
    unfold stepMs, msPerHour, msPerDay in *.
    assert (Q : (l * 86400000 - (c - (t - 6 * 3600000)) + 6 * 3600000 - 1) / (6 * 3600000)
                = (l * 86400000 - (c - t) + 6 * 3600000 - 1) / (6 * 3600000) - 1).
    { replace (l * 86400000 - (c - (t - 6 * 3600000)) + 6 * 3600000 - 1)
        with (l * 86400000 - (c - t) + 6 * 3600000 - 1 + (-1) * (6 * 3600000)) by lia.
      rewrite Z.div_add by lia. lia. }
    rewrite Q in IH.
    assert (1 <= (l * 86400000 - (c - t) + 6 * 3600000 - 1) / (6 * 3600000)).
    { apply Z.div_le_lower_bound; lia. }
    lia.
Qed.

(** X19.  With a search limit of [l] days, a search for a time that is
    not in the future makes at most [4 l + 1] backward calls on a host whose
    clock does not run backwards: the calls for the 6-hour steps within
    the limit, and the one that meets the limit and reverses the search. *)
Theorem nearest_backward_calls_bounded
    (env : Env) (fetchFuel fuel : nat) (requestedTime l : Z) (w : World) :
  (forall n, 0 <= latency env n) ->
  (forall n, 0 <= convTime env n) ->
  1 <= l ->
  requestedTime <= clock w ->
  exists entries,
    nearestEntries (log (fst (sendNearestTo env fuel fetchFuel requestedTime (Some l) false w)))
    = nearestEntries (log w) ++ entries
    /\ Z.of_nat (List.length (filter (fun e => negb (snd (fst e))) entries)) <= 4 * l + 1.
Proof.
  intros Hlat Hconv Hl Ht.
  destruct (sendNearestTo_times env fetchFuel (Some l) fuel Hlat Hconv requestedTime false w)
    as (es & E & D & T).
  exists es. split; [exact E|].
  pose proof (discipline_backward_bound l (clock w) requestedTime false es D Hl eq_refl Ht T)
    as B.
  assert ((l * msPerDay - (clock w - requestedTime) + stepMs - 1) / stepMs < 4 * l + 1).
  { unfold stepMs, msPerHour, msPerDay.
    apply Z.div_lt_upper_bound; lia. }
  lia.
Qed.

(** The provider is down and the limit is one day: three backward calls
    from 01:00Z, the third one 24 hours behind the clock. *)
Lemma nearest_backward_calls_bounded_witness :
  (forall n, 0 <= latency providerDown n)
  /\ (forall n, 0 <= convTime providerDown n)
  /\ 1 <= 1
  /\ 1709254800000 <= clock coldStart
  /\ nearestCalls (log (fst (sendNearestTo providerDown 100 161 1709254800000 (Some 1)
                               false coldStart)))
     = [(1709254800000, false); (1709233200000, false); (1709211600000, false);
        (1709298000000, true); (1709319600000, true); (1709341200000, true);
        (1709362800000, true); (1709384400000, true); (1709406000000, true)]
  /\ exists entries,
       nearestEntries (log (fst (sendNearestTo providerDown 100 161 1709254800000 (Some 1)
                                   false coldStart)))
       = nearestEntries (log coldStart) ++ entries
       /\ Z.of_nat (List.length (filter (fun e => negb (snd (fst e))) entries)) <= 4 * 1 + 1.
Proof.
  assert (H1 : forall n, 0 <= latency providerDown n) by (intros n; simpl; lia).
  assert (H2 : forall n, 0 <= convTime providerDown n) by (intros n; simpl; lia).
  assert (H3 : 1 <= 1) by lia.
  assert (H4 : 1709254800000 <= clock coldStart) by (vm_compute; discriminate).
  split; [exact H1|]. split; [exact H2|]. split; [exact H3|]. split; [exact H4|].
  split; [vm_compute; reflexivity|].
  exact (nearest_backward_calls_bounded providerDown 161 100 1709254800000 1 coldStart
           H1 H2 H3 H4).
Defined.

End NearestEffects.

(** ** Keys across the components *)

Module KeyFlow.
Import JSDate JSString TimeKey CacheFS Service FetchShape ConvertShape SearchShape Scenarios.
Import KeyShape.
Import CalendarFacts TimeKeyFacts CacheFacts FetchFacts ConvertFacts FreshnessFacts.
Import KeyFacts FetchEffects ConvertEffects.
Local Open Scope string_scope.

Lemma formatDateStamp_isKey (tz t : Z) :
  1 <= getFullYear tz t <= 9999 -> isKey (formatDateStamp tz t) = true.
Proof.
  intros Hy.
  destruct (formatDateStamp_fields tz t Hy)
    as (ys & ms & ds & E & _ & _ & _ & _ & Ky & Km & Kd & Kh).
  rewrite E, !isKey_app, Ky, Km, Kd, Kh. reflexivity.
Qed.

(** X20.  On a host in UTC, the name the service gives to the structured
    artifact of a timestamp (with a four-digit year) reads back, in a
    freshness check, as the key of that timestamp and the 6-hour grid point
    it belongs to; and the key of that grid point is the same key. *)
Theorem artifact_name_reads_back (t : Z) :
  1 <= getFullYear 0 t <= 9999 ->
  freshnessTaskOf (jsonName (formatDateStamp 0 t))
  = mkTask (formatDateStamp 0 t) (Some (truncate t 6))
  /\ formatDateStamp 0 (truncate t 6) = formatDateStamp 0 t.
Proof.
  intros Hy. split; [|apply formatDateStamp_truncate].
  unfold freshnessTaskOf.
  rewrite (removeFirst_jsonName _ (formatDateStamp_isKey 0 t Hy)).
  destruct (stampToDate_formatDateStamp 0 t Hy) as [_ E].
  rewrite E, LocalTime_utc, truncate_grid. reflexivity.
Qed.

Lemma artifact_name_reads_back_witness :
  1 <= getFullYear 0 1709269200000 <= 9999
  /\ freshnessTaskOf "2024030100.json" = mkTask "2024030100" (Some 1709251200000)
  /\ freshnessTaskOf (jsonName (formatDateStamp 0 1709269200000))
     = mkTask (formatDateStamp 0 1709269200000) (Some (truncate 1709269200000 6))
  /\ formatDateStamp 0 (truncate 1709269200000 6) = formatDateStamp 0 1709269200000.
Proof.
  split; [vm_compute; split; discriminate|].
  split; [vm_compute; reflexivity|].
  apply (artifact_name_reads_back 1709269200000). vm_compute; split; discriminate.
Defined.

(** A fetch whose first request is answered with 200 for a cached key. *)
Lemma getGribData_cached (env : Env) (fuel : nat) (d : Z) (w : World) :
  let start := Z.min d (getLatestAvailableTimestamp (tz env) (clock w)) in
  clock w - start <= lookbackMs ->
  net env (requests w) (formatDateStamp (tz env) start) = Responded 200 ->
  existsJson (fs w) (jsonName (formatDateStamp (tz env) start)) = true ->
  getGribData env (S fuel) d w
  = (request env (formatDateStamp (tz env) start) start 0 w,
     Resolved (mkResponse (Some (formatDateStamp (tz env) start)) (Some start) false)).
Proof.
  cbv zeta. rewrite getGribData_start.
  set (start := Z.min d (getLatestAvailableTimestamp (tz env) (clock w))).
  intros Hb Hn Hj. cbn [runQuery].
  destruct (Z.gtb_spec (clock w - start) lookbackMs) as [G|_]; [lia|].
  rewrite Hn. cbn [Z.eqb negb Pos.eqb].
  change (fs (request env (formatDateStamp (tz env) start) start 0 w)) with (fs w).
  unfold jsonName in Hj. rewrite Hj. reflexivity.
Qed.

(** X21.  Converting a key that is already converted fails.  When the raw
    artifact of the key is not on disk, the conversion fetches again; when
    the provider answers 200 for the key the fetch starts from and the
    structured artifact of that key is on disk, the fetch does not download,
    and the conversion rejects with [Failed to download data for <key>],
    without running the converter and without changing the cache, but for
    the structured area, which now exists. *)
Theorem conversion_of_cached_key_fails
    (env : Env) (fuel : nat) (k : string) (d : Z) (w : World) :
  let start := Z.min d (getLatestAvailableTimestamp (tz env) (clock w)) in
  existsGrib (fs w) (gribName k) = false ->
  clock w - start <= lookbackMs ->
  net env (requests w) (formatDateStamp (tz env) start) = Responded 200 ->
  existsJson (fs w) (jsonName (formatDateStamp (tz env) start)) = true ->
  let res := convertGribToJson env (S (S fuel)) k d w in
  snd res = Rejected (DownloadFailed k)
  /\ conversions (fst res) = conversions w
  /\ fs (fst res) = mkdirJson (fs w)
  /\ requests (fst res) = S (requests w).
Proof.
  cbv zeta. intros Hg Hb Hn Hj.
  cbn [convertGribToJson].
  set (w0 := setFS (mkdirJson (fs w)) w).
  assert (Hg0 : existsGrib (fs w0) (k ++ ".f000") = false) by exact Hg.
  rewrite Hg0. cbn [negb].
  assert (Hj0 : existsJson (fs w0)
                  (jsonName (formatDateStamp (tz env)
                               (Z.min d (getLatestAvailableTimestamp (tz env) (clock w0)))))
                = true).
  { unfold existsJson in *. cbn [w0 setFS fs mkdirJson jsonData clock].
    rewrite dirHas_mkdir. exact Hj. }
  rewrite (getGribData_cached env fuel d w0 Hb Hn Hj0).
  cbn [stamp downloaded andb truthy fst snd].
  rewrite andb_false_r. cbn [fst snd].
  split; [reflexivity|]. split; [reflexivity|]. split; reflexivity.
Qed.

(** The key 2024030100 is converted; converting it once more fails. *)
Lemma conversion_of_cached_key_fails_witness :
  let env := providerWith ["2024030100"] in
  let w := mkWorld 1709298000000
             (mkFS (Some ["2024030100.json"]) (Some []) (fun _ => 0)) 0 0 [] in
  let res := convertGribToJson env 2 "2024030100" 1709251200000 w in
  existsGrib (fs w) (gribName "2024030100") = false
  /\ snd res = Rejected (DownloadFailed "2024030100")
  /\ conversions (fst res) = conversions w
  /\ fs (fst res) = mkdirJson (fs w)
  /\ requests (fst res) = S (requests w).
Proof.
  cbv zeta. split; [reflexivity|].
  apply (conversion_of_cached_key_fails (providerWith ["2024030100"]) 0 "2024030100"
           1709251200000
           (mkWorld 1709298000000
              (mkFS (Some ["2024030100.json"]) (Some []) (fun _ => 0)) 0 0 []));
    vm_compute; first [reflexivity | discriminate].
Defined.

End KeyFlow.

